(** * Generic test builders: a shallow embedding of
      core/dbt/parser/generic_test_builders.py

    The development follows the Python module top-down: the dynamic values the
    parser receives from the YAML reader, the few Python builtins the module
    relies on ([str], truthiness, dictionaries that keep their insertion
    order, [sorted], [re.sub], [re.match]), the helper [md5], then
    [synthesize_generic_test_names] and the [TestBuilder] class. *)

From Stdlib Require Import ZArith Ascii String List Lia DecimalString.
From stdpp Require Import base list strings sorting.

Import ListNotations.
Local Open Scope list_scope.

(** ** Dynamic values

    A [str] is a [string] whose characters are the code points below 256;
    mapping keys are strings, as the annotation [Dict[str, Any]] of the
    source says.  Floating point numbers are left out. *)

#[local] Set Warnings "-register-all".

Inductive value : Type :=
| VNone
| VBool (b : bool)
| VInt (z : Z)
| VStr (s : string)
| VList (l : list value)
| VTuple (l : list value)
| VDict (d : list (string * value)).

(** A Python [dict]: the association list of its items in insertion order. *)
Abbreviation dict := (list (string * value)).

(** ** Errors raised by the module, and the error monad *)

Inductive error : Type :=
| TestTypeError (data_test : value)
| TestDefinitionDictLengthError (items : dict)
| TestArgsNotDictError (test_args : value)
| TestNameNotStringError (test_name : value)
| TestArgIncludesModelError
| UnexpectedTestNamePatternError (test_name : string)
| SameKeyNestedError
| CustomMacroPopulatingConfigValueError
    (target_name : string) (column_name : option string)
    (name : string) (key : string) (err_msg : string)
| TemplateError (msg : string)
| UnboundLocalError (variable : string)
| TypeError (msg : string)
| RecursionError
| AttributeError (msg : string)
| KeyError (key : string).

(** What the templating engine does with an expression: it returns a native
    value, raises [UndefinedMacroError], which the module catches, or raises
    an exception of its own, which the module lets through. *)
Inductive rendering : Type :=
| Rendered (v : value)
| UndefinedMacroError (msg : string)
| OtherTemplateError (msg : string).

Inductive result (A : Type) : Type :=
| OK (a : A)
| Raise (e : error).
Arguments OK {A} a.
Arguments Raise {A} e.

#[global] Instance result_ret : MRet result := fun A a => OK a.
#[global] Instance result_bind : MBind result := fun A B k m =>
  match m with
  | OK a => k a
  | Raise e => Raise e
  end.

(** ** Python builtins *)

Module Py.

(** *** Dictionaries *)

Definition keys (d : dict) : list string := map fst d.
Definition values (d : dict) : list value := map snd d.

(** [d.get(k)] *)
Fixpoint get (k : string) (d : dict) : option value :=
  match d with
  | [] => None
  | (k', v) :: d' => if String.eqb k k' then Some v else get k d'
  end.

(** [k in d] *)
Definition contains (k : string) (d : dict) : bool :=
  match get k d with Some _ => true | None => false end.

(** [del d[k]] on the items *)
Fixpoint remove (k : string) (d : dict) : dict :=
  match d with
  | [] => []
  | (k', v) :: d' => if String.eqb k k' then d' else (k', v) :: remove k d'
  end.

(** [d.pop(k, default)]: the value and the dictionary afterwards *)
Definition pop (k : string) (default : value) (d : dict) : value * dict :=
  match get k d with
  | Some v => (v, remove k d)
  | None => (default, d)
  end.

(** [d[k] = v]: an existing key keeps its position, a new one goes last *)
Fixpoint set (k : string) (v : value) (d : dict) : dict :=
  match d with
  | [] => [(k, v)]
  | (k', v') :: d' =>
      if String.eqb k k' then (k', v) :: d' else (k', v') :: set k v d'
  end.

(** [d.update(other)], also [{**d, **other}] *)
Definition update (d other : dict) : dict :=
  fold_left (fun acc kv => set (fst kv) (snd kv) acc) other d.

(** *** Truthiness: [bool(v)] *)

Definition truthy (v : value) : bool :=
  match v with
  | VNone => false
  | VBool b => b
  | VInt z => negb (Z.eqb z 0)
  | VStr s => negb (String.eqb s "")
  | VList l | VTuple l => match l with [] => false | _ => true end
  | VDict d => match d with [] => false | _ => true end
  end.

(** *** [repr] and [str] *)

Definition hex_digit (n : N) : ascii :=
  match n with
  | 0 => "0" | 1 => "1" | 2 => "2" | 3 => "3" | 4 => "4" | 5 => "5"
  | 6 => "6" | 7 => "7" | 8 => "8" | 9 => "9" | 10 => "a" | 11 => "b"
  | 12 => "c" | 13 => "d" | 14 => "e" | _ => "f"
  end%N%char.

(** The double quote character. *)
Definition double_quote : ascii := ascii_of_nat 34.

(** How [repr] writes one character inside quotes [q]. *)
Definition repr_char (q : ascii) (c : ascii) : string :=
  let n := N_of_ascii c in
  if Ascii.eqb c "\" then "\\"
  else if Ascii.eqb c q then String "\" (String c "")
  else if N.eqb n 9 then "\t"
  else if N.eqb n 10 then "\n"
  else if N.eqb n 13 then "\r"
  else if (N.ltb n 32 || (N.leb 127 n && N.leb n 160) || N.eqb n 173)%bool
       then String "\" (String "x"
              (String (hex_digit (N.div n 16)) (String (hex_digit (N.modulo n 16)) "")))
  else String c "".

Fixpoint has_char (c : ascii) (s : string) : bool :=
  match s with
  | "" => false
  | String c' s' => (Ascii.eqb c c' || has_char c s')%bool
  end.

Fixpoint repr_chars (q : ascii) (s : string) : string :=
  match s with
  | "" => ""
  | String c s' => repr_char q c +:+ repr_chars q s'
  end.

(** [repr] of a [str]: single quotes, unless the string holds a single quote
    and no double quote. *)
Definition repr_str (s : string) : string :=
  let q : ascii := if (has_char "'" s && negb (has_char double_quote s))%bool
                   then double_quote else "'"%char in
  String q (repr_chars q s +:+ String q "").

Definition repr_int (z : Z) : string := NilZero.string_of_int (Z.to_int z).

Fixpoint join (sep : string) (l : list string) : string :=
  match l with
  | [] => ""
  | [x] => x
  | x :: l' => x +:+ sep +:+ join sep l'
  end.

Fixpoint repr (v : value) : string :=
  match v with
  | VNone => "None"
  | VBool true => "True"
  | VBool false => "False"
  | VInt z => repr_int z
  | VStr s => repr_str s
  | VList l => "[" +:+ join ", " (map repr l) +:+ "]"
  | VTuple l =>
      match l with
      | [x] => "(" +:+ repr x +:+ ",)"
      | _ => "(" +:+ join ", " (map repr l) +:+ ")"
      end
  | VDict d =>
      "{" +:+ join ", " (map (fun kv => let '(k, x) := kv in
                                       repr_str k +:+ ": " +:+ repr x) d) +:+ "}"
  end.

Definition str (v : value) : string :=
  match v with
  | VStr s => s
  | _ => repr v
  end.

End Py.

(** ** The fingerprint helper [md5] *)

Module MD5.

Local Open Scope Z_scope.

Definition wrap (x : Z) : Z := x mod 4294967296.
Definition lnot32 (x : Z) : Z := Z.lxor x 4294967295.
Definition rotl (x c : Z) : Z :=
  wrap (Z.lor (Z.shiftl x c) (Z.shiftr x (32 - c))).

Definition shifts : list Z :=
  [7; 12; 17; 22; 7; 12; 17; 22; 7; 12; 17; 22; 7; 12; 17; 22;
   5; 9; 14; 20; 5; 9; 14; 20; 5; 9; 14; 20; 5; 9; 14; 20;
   4; 11; 16; 23; 4; 11; 16; 23; 4; 11; 16; 23; 4; 11; 16; 23;
   6; 10; 15; 21; 6; 10; 15; 21; 6; 10; 15; 21; 6; 10; 15; 21].

Definition sines : list Z :=
  [0xd76aa478; 0xe8c7b756; 0x242070db; 0xc1bdceee;
   0xf57c0faf; 0x4787c62a; 0xa8304613; 0xfd469501;
   0x698098d8; 0x8b44f7af; 0xffff5bb1; 0x895cd7be;
   0x6b901122; 0xfd987193; 0xa679438e; 0x49b40821;
   0xf61e2562; 0xc040b340; 0x265e5a51; 0xe9b6c7aa;
   0xd62f105d; 0x02441453; 0xd8a1e681; 0xe7d3fbc8;
   0x21e1cde6; 0xc33707d6; 0xf4d50d87; 0x455a14ed;
   0xa9e3e905; 0xfcefa3f8; 0x676f02d9; 0x8d2a4c8a;
   0xfffa3942; 0x8771f681; 0x6d9d6122; 0xfde5380c;
   0xa4beea44; 0x4bdecfa9; 0xf6bb4b60; 0xbebfbc70;
   0x289b7ec6; 0xeaa127fa; 0xd4ef3085; 0x04881d05;
   0xd9d4d039; 0xe6db99e5; 0x1fa27cf8; 0xc4ac5665;
   0xf4292244; 0x432aff97; 0xab9423a7; 0xfc93a039;
   0x655b59c3; 0x8f0ccc92; 0xffeff47d; 0x85845dd1;
   0x6fa87e4f; 0xfe2ce6e0; 0xa3014314; 0x4e0811a1;
   0xf7537e82; 0xbd3af235; 0x2ad7d2bb; 0xeb86d391].

(** The 64 operations of a block: index, additive constant, rotation. *)
Definition operations : list (Z * Z * Z) :=
  zip (zip (map Z.of_nat (seq 0 64)) sines) shifts.

Definition state : Type := Z * Z * Z * Z.

Definition initial : state :=
  (0x67452301, 0xefcdab89, 0x98badcfe, 0x10325476).

(** The round function and the index of the message word it reads. *)
Definition mix (i b c d : Z) : Z * Z :=
  if i <? 16 then (Z.lor (Z.land b c) (Z.land (lnot32 b) d), i)
  else if i <? 32 then
    (Z.lor (Z.land d b) (Z.land (lnot32 d) c), (5 * i + 1) mod 16)
  else if i <? 48 then (Z.lxor b (Z.lxor c d), (3 * i + 5) mod 16)
  else (Z.lxor c (Z.lor b (lnot32 d)), (7 * i) mod 16).

Definition step (M : list Z) (st : state) (op : Z * Z * Z) : state :=
  let '(a, b, c, d) := st in
  let '(i, k, s) := op in
  let '(f, g) := mix i b c d in
  let f' := wrap (f + a + k + nth (Z.to_nat g) M 0) in
  (d, wrap (b + rotl f' s), b, c).

(** Four bytes, least significant first, as one 32-bit word. *)
Fixpoint words (bytes : list Z) : list Z :=
  match bytes with
  | b0 :: b1 :: b2 :: b3 :: rest =>
      (b0 + 256 * b1 + 65536 * b2 + 16777216 * b3) :: words rest
  | _ => []
  end.

Definition compress (st : state) (block : list Z) : state :=
  let '(a0, b0, c0, d0) := st in
  let '(a, b, c, d) := fold_left (step (words block)) operations st in
  (wrap (a0 + a), wrap (b0 + b), wrap (c0 + c), wrap (d0 + d)).

Fixpoint blocks (fuel : nat) (bytes : list Z) : list (list Z) :=
  match fuel, bytes with
  | O, _ | _, [] => []
  | S fuel', _ => firstn 64 bytes :: blocks fuel' (skipn 64 bytes)
  end.

Definition le_bytes (n : nat) (x : Z) : list Z :=
  map (fun i => (x / 256 ^ Z.of_nat i) mod 256) (seq 0 n).

Definition pad (msg : list Z) : list Z :=
  let len := Z.of_nat (length msg) in
  msg ++ [128] ++ repeat 0 (Z.to_nat ((55 - len) mod 64)) ++ le_bytes 8 (8 * len).

Definition digest (msg : list Z) : list Z :=
  let padded := pad msg in
  let '(a, b, c, d) :=
    fold_left compress (blocks (length padded) padded) initial in
  le_bytes 4 a ++ le_bytes 4 b ++ le_bytes 4 c ++ le_bytes 4 d.

Definition hex_byte (b : Z) : string :=
  String (Py.hex_digit (Z.to_N (b / 16)))
    (String (Py.hex_digit (Z.to_N (b mod 16))) "").

Fixpoint hex (bytes : list Z) : string :=
  match bytes with
  | [] => ""
  | b :: rest => hex_byte b +:+ hex rest
  end.

(** [string.encode("utf-8")] for code points below 256. *)
Fixpoint utf8 (s : string) : list Z :=
  match s with
  | "" => []
  | String c s' =>
      let n := Z.of_N (N_of_ascii c) in
      if n <? 128 then n :: utf8 s'
      else (192 + n / 64) :: (128 + n mod 64) :: utf8 s'
  end.

End MD5.

(** Modelled from the spec: [dbt.utils.md5] is imported by the module and
    defined elsewhere; it is the spec's fingerprint function, "a stable
    content hash producing a fixed-width hex digest", 32 hexadecimal
    characters wide.  The model is the MD5 digest of the UTF-8 encoding of
    the string, printed in lower-case hexadecimal. *)
Definition md5 (s : string) : string := MD5.hex (MD5.digest (MD5.utf8 s)).

(** ** More builtins: [sorted], slices, the two regular expressions *)

Module Re.

Definition between (lo hi c : ascii) : bool :=
  (N.leb (N_of_ascii lo) (N_of_ascii c) && N.leb (N_of_ascii c) (N_of_ascii hi))%bool.

(** The character class [[0-9a-zA-Z_]]. *)
Definition word_char (c : ascii) : bool :=
  (between "0" "9" c || between "a" "z" c || between "A" "Z" c
   || Ascii.eqb c "_")%bool.

(** The character class [[a-zA-Z_]]. *)
Definition head_char (c : ascii) : bool :=
  (between "a" "z" c || between "A" "Z" c || Ascii.eqb c "_")%bool.

(** [re.sub("[^0-9a-zA-Z_]+", "_", arg)], scanning left to right.  The
    pattern matches greedily, so a match that starts at a character outside
    the class runs up to the next character of the class; [in_match] tells
    that the scan is inside such a match, whose replacement has been written
    already. *)
Fixpoint sub_from (in_match : bool) (arg : string) : string :=
  match arg with
  | "" => ""
  | String c rest =>
      if word_char c then String c (sub_from false rest)
      else if in_match then sub_from true rest
      else String "_" (sub_from true rest)
  end.

Definition sub (arg : string) : string := sub_from false arg.

(** Greedy [[0-9a-zA-Z_]*]: the longest match and what follows it. *)
Fixpoint word_chars (s : string) : string * string :=
  match s with
  | "" => ("", "")
  | String c rest =>
      if word_char c
      then let '(m, after) := word_chars rest in (String c m, after)
      else ("", s)
  end.

(** [[a-zA-Z_][0-9a-zA-Z_]*] at the start of [s]. *)
Definition identifier (s : string) : option (string * string) :=
  match s with
  | "" => None
  | String c rest =>
      if head_char c
      then let '(m, after) := word_chars rest in Some (String c m, after)
      else None
  end.

End Re.

(** [sorted(keys)]: strings are ordered by code point, lexicographically. *)
Definition sorted (l : list string) : list string := merge_sort String.le l.

(** [s[:n]] *)
Definition slice_to (n : nat) (s : string) : string := String.substring 0 n s.

(** [len(s)] *)
Abbreviation len := String.length.

(** ** [synthesize_generic_test_names] *)

(** The three branches on the type of [arg_val]. *)
Definition parts (arg_val : value) : list value :=
  match arg_val with
  | VDict d => Py.values d
  | VList l | VTuple l => l
  | _ => [arg_val]
  end.

(** One round of the loop over [sorted(args)]. *)
Definition flat_args_step (args : dict) (flat_args : list string)
    (arg_name : string) : list string :=
  if String.eqb arg_name "model" then flat_args
  else match Py.get arg_name args with
       | Some arg_val => flat_args ++ map Py.str (parts arg_val)
       | None => flat_args (* no such round: [arg_name] is a key of [args] *)
       end.

Definition synthesize_generic_test_names
    (test_type test_name : string) (args : dict) : string * string :=
  let flat_args := fold_left (flat_args_step args) (sorted (Py.keys args)) [] in
  let clean_flat_args := map Re.sub flat_args in
  let unique := Py.join "__" clean_flat_args in
  let test_identifier := test_type +:+ "_" +:+ test_name in
  let full_name := test_identifier +:+ "_" +:+ unique in
  if (64 <=? len full_name)%nat then
    let test_trunc_identifier := slice_to 30 test_identifier in
    let label := md5 full_name in
    (test_trunc_identifier +:+ "_" +:+ label, full_name)
  else (full_name, full_name).

(** ** The class [TestBuilder] *)

(** The targets a test is attached to.  [UnparsedModelUpdate],
    [UnparsedNodeUpdate] and [UnpatchedSourceDefinition] are the classes the
    module tests with [isinstance]; [OtherTarget] stands for an object of any
    other class, of which only the class name and the [name] attribute are
    kept. *)
Inductive Testable : Type :=
| UnparsedModelUpdate (name : string)
| UnparsedNodeUpdate (name : string)
| UnpatchedSourceDefinition (name : string) (source_name table_name : string)
| OtherTarget (class_name : string) (name : string).

(** What [deprecations.warn] is called with. *)
Inductive deprecation : Type :=
| MissingArgumentsPropertyInGenericTestDeprecation (test_name : string)
| ArgumentsPropertyInGenericTestDeprecation (test_name : string).

(** [for x in xs: st = body(st, x)] where the body may raise. *)
Fixpoint for_each {S A} (body : S -> A -> result S) (xs : list A) (st : S)
  : result S :=
  match xs with
  | [] => OK st
  | x :: xs' => st' ← body st x; for_each body xs' st'
  end.

Module TestBuilder.

Record t : Type := {
  args : dict;
  package_name : string;
  target : Testable;
  version : option value;
  render_ctx : dict;
  column_name : option string;
  name : string;
  namespace : option string;
  config : dict;
  description : value;
  compiled_name : value;
  fqn_name : value
}.

Definition CONFIG_ARGS : list string :=
  ["severity"; "tags"; "enabled"; "where"; "limit"; "warn_if"; "error_if";
   "fail_calc"; "store_failures"; "store_failures_as"; "meta"; "database";
   "schema"; "alias"].

(** [TEST_NAME_PATTERN.match(test_name)] and its [groupdict()]: the groups
    [test_namespace] and [test_name].  [match] anchors the pattern at the
    start of the string only.  The optional group is tried first: its
    identifier is matched greedily and must be followed by a dot and by the
    start of a second identifier; giving back characters of the first
    identifier cannot help, since no character of the class is a dot.  When
    the group fails, the name is matched at the start of the string. *)
Definition TEST_NAME_PATTERN_match (test_name : string)
  : option (option string * string) :=
  match Re.identifier test_name with
  | None => None
  | Some (first, after) =>
      match after with
      | String "."%char after_dot =>
          match Re.identifier after_dot with
          | Some (second, _) => Some (Some first, second)
          | None => Some (None, first)
          end
      | _ => Some (None, first)
      end
  end.

(** [target.name] *)
Definition target_name (target : Testable) : string :=
  match target with
  | UnparsedModelUpdate name
  | UnparsedNodeUpdate name
  | UnpatchedSourceDefinition name _ _
  | OtherTarget _ name => name
  end.

(** [if self.version:] *)
Definition version_set (version : option value) : bool :=
  match version with
  | Some v => Py.truthy v
  | None => false
  end.

Definition version_str (version : option value) : string :=
  match version with
  | Some v => Py.str v
  | None => "None"
  end.

(** [deepcopy(test_args)]: a value of the model is the content of an object,
    and the copy has the content of the original.  Which object a statement
    writes to is the matter of the module [Store] below. *)
Definition deepcopy (test_args : dict) : dict := test_args.

(** [key in container], for the containers a YAML document can hold. *)
Fixpoint is_substring (key s : string) : bool :=
  (String.prefix key s
   || match s with
      | "" => false
      | String _ rest => is_substring key rest
      end)%bool.

Definition contains_key (key : string) (container : value) : result bool :=
  match container with
  | VDict d => OK (Py.contains key d)
  | VStr s => OK (is_substring key s)
  | VList l | VTuple l =>
      OK (existsb (fun x => match x with
                            | VStr s => String.eqb s key
                            | _ => false
                            end) l)
  | _ => Raise (TypeError "argument is not iterable")
  end.

(** [container.pop(key, None)]: only a [dict] has such a method. *)
Definition pop_key (key : string) (container : value)
  : result (value * value) :=
  match container with
  | VDict d => let '(v, d') := Py.pop key VNone d in OK (v, VDict d')
  | VList _ => Raise (TypeError "pop expected at most 1 argument, got 2")
  | _ => Raise (AttributeError "pop")
  end.

Section Methods.

(** [get_flags().require_generic_test_arguments_property] *)
Variable require_generic_test_arguments_property : bool.

(** [get_rendered(value, ctx, native=True)] of [dbt.clients.jinja]: the
    templating engine, which returns a native value or raises. *)
Variable get_rendered : string -> dict -> rendering.

(** [extract_test_args(data_test, name)]: the test name, the arguments and
    the deprecations warned of. *)
Definition extract_test_args (data_test : value) (name : option string)
  : result (string * dict * list deprecation) :=
  match data_test with
  | VDict data_test =>
      '(test_name, test_args) ←
        (if Py.contains "test_name" data_test then
           let '(test_name, data_test) := Py.pop "test_name" VNone data_test in
           OK (test_name, VDict data_test)
         else
           match data_test with
           | [(test_name, test_args)] => OK (VStr test_name, test_args)
           | _ => Raise (TestDefinitionDictLengthError data_test)
           end);
      match test_args, test_name with
      | VDict test_args, VStr test_name =>
          let test_args := deepcopy test_args in
          let test_args :=
            match name with
            | Some name => Py.set "column_name" (VStr name) test_args
            | None => test_args
            end in
          if require_generic_test_arguments_property then
            let '(arguments, test_args) :=
              Py.pop "arguments" (VDict []) test_args in
            let warned :=
              if (negb (Py.truthy arguments)
                  && existsb (fun k => negb (String.eqb k "config"
                                             || String.eqb k "column_name"))
                       (Py.keys test_args))%bool
              then [MissingArgumentsPropertyInGenericTestDeprecation test_name]
              else [] in
            match arguments with
            | VDict arguments =>
                OK (test_name, Py.update test_args arguments, warned)
            | _ => Raise (TypeError "argument after ** must be a mapping")
            end
          else
            match Py.get "arguments" test_args with
            | Some arguments =>
                OK (test_name, test_args,
                    [ArgumentsPropertyInGenericTestDeprecation
                       ("`" +:+ test_name +:+ "` (" +:+ Py.str arguments +:+ ")")])
            | None => OK (test_name, test_args, [])
            end
      | VDict _, _ => Raise (TestNameNotStringError test_name)
      | _, _ => Raise (TestArgsNotDictError test_args)
      end
  | _ => Raise (TestTypeError data_test)
  end.

(** [build_model_str]: reads [self.target] and [self.version].  No branch
    binds [target_str] for a target of another class, and the last line
    reads it. *)
Definition build_model_str (target : Testable) (version : option value)
  : result string :=
  target_str ←
    match target with
    | UnparsedModelUpdate name =>
        if version_set version
        then OK ("ref('" +:+ name +:+ "', version='" +:+ version_str version +:+ "')")
        else OK ("ref('" +:+ name +:+ "')")
    | UnparsedNodeUpdate name => OK ("ref('" +:+ name +:+ "')")
    | UnpatchedSourceDefinition _ source_name table_name =>
        OK ("source('" +:+ source_name +:+ "', '" +:+ table_name +:+ "')")
    | OtherTarget _ _ => Raise (UnboundLocalError "target_str")
    end;
  OK ("{{ get_where_subquery(" +:+ target_str +:+ ") }}").

(** [_bad_type] *)
Definition _bad_type (target : Testable) : error :=
  match target with
  | OtherTarget class_name _ =>
      TypeError ("invalid target type "
                 +:+ String Py.double_quote ("<class '" +:+ class_name +:+ "'>")
                 +:+ String Py.double_quote "")
  | _ => TypeError "invalid target type"
  end.

(** [_render_values(config)]: reads [self.target], [self.column_name],
    [self.name] and [self.render_ctx]. *)
Definition render_step (target : Testable) (column_name : option string)
    (name : string) (render_ctx : dict) (rendered_config : dict)
    (item : string * value) : result dict :=
  let '(key, value) := item in
  value ←
    match value with
    | VStr s =>
        match get_rendered s render_ctx with
        | Rendered v => OK v
        | UndefinedMacroError msg =>
            Raise (CustomMacroPopulatingConfigValueError
                     (target_name target) column_name name key msg)
        | OtherTemplateError msg => Raise (TemplateError msg)
        end
    | _ => OK value
    end;
  match value with
  | VNone => OK rendered_config
  | _ => OK (Py.set key value rendered_config)
  end.

Definition _render_values (target : Testable) (column_name : option string)
    (name : string) (render_ctx : dict) (config : dict) : result dict :=
  for_each (render_step target column_name name render_ctx) config [].

(** One round of the loop of [_process_legacy_args], on the local [config]
    and on [self.args]. *)
Definition legacy_step (st : dict * dict) (key : string)
  : result (dict * dict) :=
  let '(config, args) := st in
  let '(value, args) := Py.pop key VNone args in
  clash ←
    (if Py.truthy value then
       match Py.get "config" args with
       | Some nested => contains_key key nested
       | None => OK false
       end
     else OK false);
  if clash : bool then Raise SameKeyNestedError
  else
    '(value, args) ←
      (if negb (Py.truthy value) then
         match Py.get "config" args with
         | Some nested =>
             '(value, nested) ← pop_key key nested;
             OK (value, Py.set "config" nested args)
         | None => OK (value, args)
         end
       else OK (value, args));
    OK (Py.set key value config, args).

(** The loop of [_process_legacy_args]: the config before rendering and
    [self.args] afterwards. *)
Definition legacy_loop (args : dict) : result (dict * dict) :=
  for_each legacy_step CONFIG_ARGS ([], args).

Definition _process_legacy_args (target : Testable)
    (column_name : option string) (name : string) (render_ctx : dict)
    (args : dict) : result (dict * dict) :=
  '(config, args) ← legacy_loop args;
  rendered ← _render_values target column_name name render_ctx config;
  OK (rendered, args).

(** [get_synthetic_test_names]: reads [self.target], [self.version],
    [self.name], [self.namespace] and [self.args]. *)
Definition get_synthetic_test_names (target : Testable)
    (version : option value) (self_name : string) (namespace : option string)
    (args : dict) : result (string * string) :=
  '(name, target_name) ←
    match target with
    | UnparsedModelUpdate tname =>
        OK (self_name,
            if version_set version
            then tname +:+ "_v" +:+ version_str version else tname)
    | UnparsedNodeUpdate tname => OK (self_name, tname)
    | UnpatchedSourceDefinition tname _ _ => OK ("source_" +:+ self_name, tname)
    | OtherTarget _ _ => Raise (_bad_type target)
    end;
  let name :=
    match namespace with
    | Some namespace => namespace +:+ "_" +:+ name
    | None => name
    end in
  OK (synthesize_generic_test_names name target_name args).

(** [TestBuilder(data_test, target, package_name, render_ctx, column_name,
    version)] *)
Definition __init__ (data_test : value) (target : Testable)
    (package_name : string) (render_ctx : dict)
    (column_name : option string) (version : option value) : result t :=
  '(test_name, test_args, _) ← extract_test_args data_test column_name;
  let args := test_args in
  if Py.contains "model" args then Raise TestArgIncludesModelError
  else
    model_str ← build_model_str target version;
    let args := Py.set "model" (VStr model_str) args in
    match TEST_NAME_PATTERN_match test_name with
    | None => Raise (UnexpectedTestNamePatternError test_name)
    | Some (namespace, name) =>
        let config : dict := [] in
        '(legacy, args) ←
          _process_legacy_args target column_name name render_ctx args;
        let config := Py.update config legacy in
        '(config, args) ←
          (if Py.contains "config" args then
             let '(nested, args) := Py.pop "config" (VDict []) args in
             match nested with
             | VDict nested =>
                 rendered ←
                   _render_values target column_name name render_ctx nested;
                 OK (Py.update config rendered, args)
             | _ => Raise (AttributeError "items")
             end
           else OK (config, args));
        let package_name :=
          match namespace with
          | Some namespace => namespace
          | None => package_name
          end in
        let '(description, args) :=
          match Py.get "description" args with
          | Some description => (description, Py.remove "description" args)
          | None => (VStr "", args)
          end in
        match Py.get "name" args with
        | Some user_name =>
            let args := Py.remove "name" args in
            OK {| args := args; package_name := package_name;
                  target := target; version := version;
                  render_ctx := render_ctx; column_name := column_name;
                  name := name; namespace := namespace; config := config;
                  description := description;
                  compiled_name := user_name; fqn_name := user_name |}
        | None =>
            '(short_name, full_name) ←
              get_synthetic_test_names target version name namespace args;
            let config :=
              if (negb (String.eqb short_name full_name)
                  && negb (Py.contains "alias" config))%bool
              then Py.set "alias" (VStr short_name) config
              else config in
            OK {| args := args; package_name := package_name;
                  target := target; version := version;
                  render_ctx := render_ctx; column_name := column_name;
                  name := name; namespace := namespace; config := config;
                  description := description;
                  compiled_name := VStr short_name;
                  fqn_name := VStr full_name |}
        end
    end.

End Methods.

(** What [tags] returns or raises. *)
Inductive tags_result : Type :=
| Tags (tags : list string)
| TagsNotListOfStringsError (tags : value)
| TagNotStringError (tag : value).

(** The loop of [tags] over the list: the first item that is not a string
    is raised. *)
Fixpoint check_tags (tags : list value) : tags_result :=
  match tags with
  | [] => Tags []
  | VStr tag :: rest =>
      match check_tags rest with
      | Tags checked => Tags (tag :: checked)
      | raised => raised
      end
  | tag :: _ => TagNotStringError tag
  end.

(** [tags] *)
Definition tags (self : t) : tags_result :=
  let tags := default (VList []) (Py.get "tags" (config self)) in
  let tags := match tags with VStr tag => VList [tags] | _ => tags end in
  match tags with
  | VList tags => check_tags tags
  | _ => TagsNotListOfStringsError tags
  end.

(** [macro_name] *)
Definition macro_name (self : t) : string :=
  let macro_name := "test_" +:+ name self in
  match namespace self with
  | Some namespace => namespace +:+ "." +:+ macro_name
  | None => macro_name
  end.

(** [value.replace(q, b + q)] where [q] is the double quote and [b] the
    backslash: a backslash goes before every double quote. *)
Fixpoint escape_quotes (value : string) : string :=
  match value with
  | "" => ""
  | String c rest =>
      if Ascii.eqb c Py.double_quote
      then String "\" (String c (escape_quotes rest))
      else String c (escape_quotes rest)
  end.

(** One item of the list that [construct_config] joins. *)
Definition config_item (item : string * value) : string :=
  let '(key, value) := item in
  key +:+ "=" +:+
  match value with
  | VStr value =>
      String Py.double_quote (escape_quotes value +:+ String Py.double_quote "")
  | _ => Py.str value
  end.

(** [construct_config] *)
Definition construct_config (self : t) : string :=
  let configs := Py.join "," (map config_item (config self)) in
  if negb (String.eqb configs "")
  then "{{ config(" +:+ configs +:+ ") }}"
  else "".

(** [build_raw_code]; [GENERIC_TEST_KWARGS_NAME] is a constant of
    [dbt.clients.jinja]. *)
Definition build_raw_code (GENERIC_TEST_KWARGS_NAME : string) (self : t)
  : string :=
  "{{ " +:+ macro_name self +:+ "(**" +:+ GENERIC_TEST_KWARGS_NAME +:+ ") }}"
  +:+ construct_config self.

End TestBuilder.

(** ** Objects and references: [extract_test_args] on a store

    [extract_test_args] receives a reference to the caller's declaration and
    writes to objects.  Here objects live in a store, a container holds
    references to its items, and a statement of the source that writes to an
    object updates the store at its reference. *)

Module Store.

Abbreviation ref := nat.

Inductive obj : Type :=
| ONone
| OBool (b : bool)
| OInt (z : Z)
| OStr (s : string)
| OList (items : list ref)
| OTuple (items : list ref)
| ODict (items : list (string * ref)).

(** The store: the object of reference [r] is at index [r]; a new object is
    put at the end. *)
Abbreviation store := (list obj).

(** A computation reads and writes the store and returns or raises; what it
    wrote before raising stays written. *)
Definition M (A : Type) : Type := store -> result A * store.

#[global] Instance M_ret : MRet M := fun A a h => (OK a, h).
#[global] Instance M_bind : MBind M := fun A B k m h =>
  match m h with
  | (OK a, h') => k a h'
  | (Raise e, h') => (Raise e, h')
  end.

Definition raise {A} (e : error) : M A := fun h => (Raise e, h).

Definition read (r : ref) : M obj := fun h =>
  match h !! r with
  | Some o => (OK o, h)
  | None => (Raise (KeyError "dangling reference"), h)
  end.

Definition alloc (o : obj) : M ref := fun h => (OK (length h), h ++ [o]).

Definition write (r : ref) (o : obj) : M unit := fun h =>
  (OK tt, <[r := o]> h).

(** The content of the object at [r], as a value; [fuel] bounds the depth. *)
Fixpoint content (fuel : nat) (h : store) (r : ref) : value :=
  match fuel with
  | O => VNone
  | S fuel =>
      match h !! r with
      | None | Some ONone => VNone
      | Some (OBool b) => VBool b
      | Some (OInt z) => VInt z
      | Some (OStr s) => VStr s
      | Some (OList items) => VList (map (content fuel h) items)
      | Some (OTuple items) => VTuple (map (content fuel h) items)
      | Some (ODict items) =>
          VDict (map (fun kr => (fst kr, content fuel h (snd kr))) items)
      end
  end.

Definition content_of (r : ref) : M value := fun h =>
  (OK (content (S (length h)) h r), h).

(** Dictionaries of references. *)
Fixpoint get (k : string) (items : list (string * ref)) : option ref :=
  match items with
  | [] => None
  | (k', r) :: rest => if String.eqb k k' then Some r else get k rest
  end.

Fixpoint remove (k : string) (items : list (string * ref))
  : list (string * ref) :=
  match items with
  | [] => []
  | (k', r) :: rest =>
      if String.eqb k k' then rest else (k', r) :: remove k rest
  end.

Fixpoint set (k : string) (r : ref) (items : list (string * ref))
  : list (string * ref) :=
  match items with
  | [] => [(k, r)]
  | (k', r') :: rest =>
      if String.eqb k k' then (k', r) :: rest else (k', r') :: set k r rest
  end.

Definition update (items other : list (string * ref)) : list (string * ref) :=
  fold_left (fun acc kr => set (fst kr) (snd kr) acc) other items.

Definition truthy (o : obj) : bool :=
  match o with
  | ONone => false
  | OBool b => b
  | OInt z => negb (Z.eqb z 0)
  | OStr s => negb (String.eqb s "")
  | OList items | OTuple items => match items with [] => false | _ => true end
  | ODict items => match items with [] => false | _ => true end
  end.

(** *** [copy.deepcopy] *)

Abbreviation memo := (list (ref * ref)).

Fixpoint copied (x : ref) (m : memo) : option ref :=
  match m with
  | [] => None
  | (x', y) :: rest => if Nat.eqb x x' then Some y else copied x rest
  end.

(** Copy the items of a container one after the other, threading the memo. *)
Fixpoint copy_items (copy : memo -> ref -> M (ref * memo))
    (items : list ref) (m : memo) : M (list ref * memo) :=
  match items with
  | [] => mret ([], m)
  | x :: rest =>
      '(y, m) ← copy m x;
      '(ys, m) ← copy_items copy rest m;
      mret (y :: ys, m)
  end.

(** [deepcopy(x, memo)].  An object already copied is looked up in the memo;
    [None], booleans, integers and strings are returned as they are; a list
    or a dictionary is copied into a new object, entered in the memo before
    its items are copied; a tuple is rebuilt only when one of its items was
    copied.  The new container is written once, after its items: nothing
    reads it before.  [fuel] bounds the nesting depth. *)
Fixpoint deepcopy (fuel : nat) (m : memo) (x : ref) : M (ref * memo) :=
  match fuel with
  | O => raise RecursionError
  | S fuel =>
      match copied x m with
      | Some y => mret (y, m)
      | None =>
          o ← read x;
          match o with
          | ONone | OBool _ | OInt _ | OStr _ => mret (x, m)
          | OList items =>
              y ← alloc (OList []);
              '(items', m) ← copy_items (deepcopy fuel) items ((x, y) :: m);
              _ ← write y (OList items');
              mret (y, m)
          | ODict items =>
              y ← alloc (ODict []);
              '(refs, m) ←
                copy_items (deepcopy fuel) (map snd items) ((x, y) :: m);
              _ ← write y (ODict (zip (map fst items) refs));
              mret (y, m)
          | OTuple items =>
              '(items', m) ← copy_items (deepcopy fuel) items m;
              match copied x m with
              | Some y => mret (y, m)
              | None =>
                  if decide (items' = items) then mret (x, m)
                  else y ← alloc (OTuple items'); mret (y, (x, y) :: m)
              end
          end
      end
  end.

(** The statements of [extract_test_args] that follow the copy; they read
    and write the copy [test_args]. *)
Definition after_copy (require_generic_test_arguments_property : bool)
    (test_name : string) (test_args : ref) (name : option string)
  : M (string * ref) :=
  _ ←
    match name with
    | Some name =>
        r ← alloc (OStr name);
        copy ← read test_args;
        match copy with
        | ODict items => write test_args (ODict (set "column_name" r items))
        | _ => mret tt
        end
    | None => mret tt
    end;
  if require_generic_test_arguments_property then
    copy ← read test_args;
    let items := match copy with ODict items => items | _ => [] end in
    arguments ←
      match get "arguments" items with
      | Some arguments =>
          _ ← write test_args (ODict (remove "arguments" items));
          mret arguments
      | None => alloc (ODict [])
      end;
    let items := remove "arguments" items in
    arguments ← read arguments;
    match arguments with
    | ODict arguments =>
        (* {**test_args, **arguments} is a new dictionary *)
        merged ← alloc (ODict (update items arguments));
        mret (test_name, merged)
    | _ => raise (TypeError "argument after ** must be a mapping")
    end
  else mret (test_name, test_args).

(** [extract_test_args(data_test, name)] on the store: the test name and the
    reference to the arguments.  The deprecations are those of
    [TestBuilder.extract_test_args] and are left out. *)
Definition extract_test_args (require_generic_test_arguments_property : bool)
    (data_test : ref) (name : option string) : M (string * ref) :=
  o ← read data_test;
  match o with
  | ODict items =>
      '(name_obj, name_shown, test_args) ←
        match get "test_name" items with
        | Some test_name =>
            (* data_test.pop("test_name"); test_args = data_test *)
            _ ← write data_test (ODict (remove "test_name" items));
            name_obj ← read test_name;
            shown ← content_of test_name;
            mret (name_obj, shown, data_test)
        | None =>
            match items with
            | [(test_name, test_args)] =>
                mret (OStr test_name, VStr test_name, test_args)
            | _ =>
                shown ← content_of data_test;
                raise (TestDefinitionDictLengthError
                         (match shown with VDict d => d | _ => [] end))
            end
        end;
      args_obj ← read test_args;
      match args_obj, name_obj with
      | ODict _, OStr test_name =>
          h ← (fun h => (OK h, h));
          '(test_args, _) ← deepcopy (S (length h)) [] test_args;
          after_copy require_generic_test_arguments_property
            test_name test_args name
      | ODict _, _ => raise (TestNameNotStringError name_shown)
      | _, _ =>
          shown ← content_of test_args;
          raise (TestArgsNotDictError shown)
      end
  | _ =>
      shown ← content_of data_test;
      raise (TestTypeError shown)
  end.

End Store.

(** * The specification's wording of the name synthesizer *)

Module Spec.

(** The maximal runs of a string: consecutive characters that are all inside
    or all outside [[0-9a-zA-Z_]], with the side they are on. *)
Fixpoint runs (s : string) : list (bool * string) :=
  match s with
  | "" => []
  | String c rest =>
      let inside := Re.word_char c in
      match runs rest with
      | (inside', r) :: more =>
          if Bool.eqb inside inside' then (inside, String c r) :: more
          else (inside, String c "") :: (inside', r) :: more
      | [] => [(inside, String c "")]
      end
  end.

Fixpoint glue (rs : list (bool * string)) : string :=
  match rs with
  | [] => ""
  | (true, r) :: more => r +:+ glue more
  | (false, _) :: more => String "_" (glue more)
  end.

(** Every maximal run of characters outside the class becomes one
    underscore. *)
Definition replace_runs (s : string) : string := glue (runs s).

(** A mapping is flattened to its values, a sequence to its elements, any
    other value is a single scalar. *)
Definition flatten (v : value) : list value :=
  match v with
  | VDict d => map snd d
  | VList l => l
  | VTuple l => l
  | scalar => [scalar]
  end.

(** The keys other than [model], in lexicographic order. *)
Definition key_order (args : dict) (ks : list string) : Prop :=
  ks ≡ₚ filter (λ k, k ≠ "model") (Py.keys args) ∧ Sorted String.le ks.

Definition tokens (args : dict) (ks : list string) : list string :=
  flat_map (fun k =>
              match Py.get k args with
              | Some v => map (fun e => replace_runs (Py.str e)) (flatten v)
              | None => []
              end) ks.

Definition unique (args : dict) (ks : list string) : string :=
  Py.join "__" (tokens args ks).

Definition full_name (test_type test_name : string) (args : dict)
    (ks : list string) : string :=
  test_type +:+ "_" +:+ test_name +:+ "_" +:+ unique args ks.

End Spec.

(** * Vocabulary of the statements *)

(** A hexadecimal character, in lower case. *)
Definition is_hex (c : ascii) : bool := Py.has_char c "0123456789abcdef".

Fixpoint all_chars (p : ascii -> bool) (s : string) : bool :=
  match s with
  | "" => true
  | String c rest => (p c && all_chars p rest)%bool
  end.

(** The value of the top-level argument [key], [None] when there is none:
    what [self.args.pop(key, None)] returns. *)
Definition legacy_value (args : dict) (key : string) : value :=
  default VNone (Py.get key args).

(** The arguments have no [config] argument, or one that is a mapping. *)
Definition config_is_mapping (args : dict) : Prop :=
  match Py.get "config" args with
  | Some (VDict _) | None => True
  | Some _ => False
  end.

(** The key has a truthy top-level value and is a key of the nested config
    mapping. *)
Definition clash (args : dict) (key : string) : Prop :=
  Py.truthy (legacy_value args key) = true ∧
  ∃ cfg, Py.get "config" args = Some (VDict cfg) ∧ Py.contains key cfg = true.

(** The value the config has for [key] before rendering: the top-level
    value when it is truthy, else the value in the nested config mapping,
    [None] when that has none. *)
Definition resolved (args : dict) (key : string) : value :=
  if Py.truthy (legacy_value args key) then legacy_value args key
  else match Py.get "config" args with
       | Some (VDict cfg) => legacy_value cfg key
       | _ => legacy_value args key
       end.

(** The store [h'] has the objects of [h], and the first [n] unchanged. *)
Definition extends (n : nat) (h h' : Store.store) : Prop :=
  length h ≤ length h' ∧ ∀ r, r < n → h' !! r = h !! r.

(** The computation leaves the first [n] objects of the store as they are. *)
Definition frame {A} (n : nat) (c : Store.M A) : Prop :=
  ∀ h res h', n ≤ length h → c h = (res, h') → extends n h h'.

(** The store of a caller that holds, at reference 3, the declaration
    [{"test_name": "unique", "values": ["a"]}]. *)
Definition declaration_with_test_name : Store.store :=
  [Store.OStr "unique"; Store.OStr "a"; Store.OList [1%nat];
   Store.ODict [("test_name", 0%nat); ("values", 2%nat)]].

(** An identifier: a character of [[a-zA-Z_]], then characters of
    [[0-9a-zA-Z_]]. *)
Definition is_identifier (s : string) : bool :=
  match s with
  | "" => false
  | String c rest => (Re.head_char c && all_chars Re.word_char rest)%bool
  end.

(** The string is empty or starts with a character outside
    [[0-9a-zA-Z_]]: a greedy match of the class stops in front of it. *)
Definition stops (s : string) : bool :=
  match s with
  | "" => true
  | String c _ => negb (Re.word_char c)
  end.

(** What [_render_values] keeps of one value: [None] is dropped, a string
    is replaced by what it renders to, any other value is kept. *)
Definition rendered_entry (get_rendered : string -> dict -> rendering)
    (render_ctx : dict) (v : value) : option value :=
  match v with
  | VNone => None
  | VStr s =>
      match get_rendered s render_ctx with
      | Rendered VNone => None
      | Rendered v' => Some v'
      | _ => None
      end
  | _ => Some v
  end.

(** The keys that construction takes out of the arguments. *)
Definition taken_out (k : string) : Prop :=
  k ∈ TestBuilder.CONFIG_ARGS ∨ k = "config" ∨ k = "description" ∨ k = "name".

(** The exceptions that construction can raise. *)
Definition raised_by_construction (e : error) : Prop :=
  match e with
  | TestTypeError _ | TestDefinitionDictLengthError _
  | TestArgsNotDictError _ | TestNameNotStringError _
  | TestArgIncludesModelError | UnexpectedTestNamePatternError _
  | SameKeyNestedError | CustomMacroPopulatingConfigValueError _ _ _ _ _
  | TemplateError _ => True
  | UnboundLocalError variable => variable = "target_str"
  | TypeError msg =>
      msg = "argument after ** must be a mapping" ∨
      msg = "argument is not iterable" ∨
      msg = "pop expected at most 1 argument, got 2"
  | AttributeError msg => msg = "pop" ∨ msg = "items"
  | RecursionError | KeyError _ => False
  end.

(** The references an object holds. *)
Definition children (o : Store.obj) : list Store.ref :=
  match o with
  | Store.OList items | Store.OTuple items => items
  | Store.ODict items => map snd items
  | _ => []
  end.

(** Lists and dictionaries are the objects that can be changed in place. *)
Definition mutable (o : Store.obj) : bool :=
  match o with
  | Store.OList _ | Store.ODict _ => true
  | _ => false
  end.

(** [reach h r r']: the object at [r'] is the object at [r] or is reached
    from it through the references that objects hold. *)
Inductive reach (h : Store.store) : Store.ref -> Store.ref -> Prop :=
| reach_here (r : Store.ref) : reach h r r
| reach_child (r c r' : Store.ref) (o : Store.obj) :
    h !! r = Some o -> c ∈ children o -> reach h c r' -> reach h r r'.

(** Every reference held in the store is to an object of the store. *)
Definition closed (h : Store.store) : Prop :=
  ∀ r o, h !! r = Some o → Forall (λ c, c < length h) (children o).

(** Neither the object at [r] nor any object it holds can be changed in
    place. *)
Inductive frozen (h : Store.store) : Store.ref -> Prop :=
| frozen_object (r : Store.ref) (o : Store.obj) :
    h !! r = Some o -> mutable o = false ->
    Forall (frozen h) (children o) -> frozen h r.

(** A reference that does not give access to a mutable object of the store
    [h0]: it is to an object made later, or to a frozen one. *)
Definition apart (h0 : Store.store) (r : Store.ref) : Prop :=
  length h0 ≤ r ∨ frozen h0 r.

(** A store that grew from [h0] without touching it, in which the objects
    made later hold references that are apart from [h0]. *)
Definition grown (h0 h : Store.store) : Prop :=
  extends (length h0) h0 h ∧
  ∀ r o, length h0 ≤ r → h !! r = Some o → Forall (apart h0) (children o).

(** The computation keeps [grown h0], and what it returns satisfies [Q]. *)
Definition keeps {A} (h0 : Store.store) (c : Store.M A) (Q : A -> Prop)
  : Prop :=
  ∀ h res h', grown h0 h → c h = (res, h') →
              grown h0 h' ∧ match res with OK a => Q a | Raise _ => True end.

(** The copies recorded in a memo are objects made after [h0]. *)
Definition memo_new (h0 : Store.store) (m : list (Store.ref * Store.ref))
  : Prop :=
  ∀ x y, Store.copied x m = Some y → length h0 ≤ y.

(** The mapping that the arguments give under [config]; empty when they
    give none. *)
Definition nested_config (args : dict) : dict :=
  match Py.get "config" args with
  | Some (VDict cfg) => cfg
  | _ => []
  end.

(** The entry of the configuration that the declaration asks for under
    [key]: for a name of [CONFIG_ARGS] the resolved value, for another key
    the value of the nested mapping, both as [_render_values] leaves
    them. *)
Definition declared_config (get_rendered : string -> dict -> rendering)
    (render_ctx : dict) (test_args : dict) (key : string) : option value :=
  (if decide (key ∈ TestBuilder.CONFIG_ARGS)
   then Some (resolved test_args key)
   else Py.get key (nested_config test_args))
  ≫= rendered_entry get_rendered render_ctx.

(** A templating engine for the examples: an expression without markup
    renders to itself. *)
Definition render_literal (s : string) (ctx : dict) : rendering :=
  Rendered (VStr s).

(** * Properties *)

(** ** Strings *)

Lemma append_nil_l (s : string) : "" +:+ s = s.
Proof. reflexivity. Qed.

Lemma append_cons (c : ascii) (s1 s2 : string) :
  String c s1 +:+ s2 = String c (s1 +:+ s2).
Proof. reflexivity. Qed.

Lemma append_nil_r (s : string) : s +:+ "" = s.
Proof. induction s as [|c s IH]; [done|]. by rewrite append_cons, IH. Qed.

Lemma append_assoc (s1 s2 s3 : string) :
  (s1 +:+ s2) +:+ s3 = s1 +:+ s2 +:+ s3.
Proof.
  induction s1 as [|c s1 IH]; [done|]. by rewrite !append_cons, IH.
Qed.

Lemma len_append (s1 s2 : string) : len (s1 +:+ s2) = (len s1 + len s2)%nat.
Proof.
  induction s1 as [|c s1 IH]; [done|].
  rewrite append_cons. simpl. by rewrite IH.
Qed.

Lemma len_slice_to (n : nat) (s : string) :
  len (slice_to n s) = Nat.min n (len s).
Proof.
  unfold slice_to. revert s.
  induction n as [|n IH]; intros [|c s]; simpl; try done.
  by rewrite IH.
Qed.

(** ** The builtins on examples *)

Example str_of_containers :
  Py.str (VTuple [VInt 1]) = "(1,)" ∧
  Py.str (VTuple []) = "()" ∧
  Py.str (VList [VInt (-5); VStr "a"; VNone; VBool true]) = "[-5, 'a', None, True]" ∧
  Py.str (VDict [("k", VNone)]) = "{'k': None}" ∧
  Py.str (VList [VStr "it's"])
  = "[" +:+ String Py.double_quote ("it's" +:+ String Py.double_quote "]") ∧
  Py.str (VStr "it's") = "it's".
Proof. repeat split. Qed.

Example sorted_by_code_point :
  sorted ["b"; "a"; "B"; "model"; "_a"; "a1"]
  = ["B"; "_a"; "a"; "a1"; "b"; "model"].
Proof. by vm_compute. Qed.

Example sub_examples :
  Re.sub "a b--c!!" = "a_b_c_" ∧ Re.sub "!!q!!" = "_q_" ∧ Re.sub "" = "".
Proof. repeat split. Qed.

Example pattern_examples :
  TestBuilder.TEST_NAME_PATTERN_match "a.b" = Some (Some "a", "b") ∧
  TestBuilder.TEST_NAME_PATTERN_match "unique" = Some (None, "unique") ∧
  TestBuilder.TEST_NAME_PATTERN_match "a.1b" = Some (None, "a") ∧
  TestBuilder.TEST_NAME_PATTERN_match "a." = Some (None, "a") ∧
  TestBuilder.TEST_NAME_PATTERN_match "1_unique" = None ∧
  TestBuilder.TEST_NAME_PATTERN_match "" = None.
Proof. repeat split. Qed.

(** ** [re.sub] replaces maximal runs *)

Lemma sub_from_runs (s : string) :
  Re.sub_from false s = Spec.glue (Spec.runs s) ∧
  Re.sub_from true s =
    match Spec.runs s with
    | (false, _) :: more => Spec.glue more
    | rs => Spec.glue rs
    end.
Proof.
  induction s as [|c s [IHf IHt]]; [done|].
  simpl. destruct (Re.word_char c) eqn:Hc.
  - rewrite IHf.
    destruct (Spec.runs s) as [|[[] r] more]; simpl; by rewrite ?append_cons.
  - rewrite IHt.
    destruct (Spec.runs s) as [|[[] r] more]; simpl; done.
Qed.

Lemma sub_replace_runs (s : string) : Re.sub s = Spec.replace_runs s.
Proof. apply sub_from_runs. Qed.

(** ** Dictionaries *)

Lemma get_elem_of_keys (k : string) (d : dict) :
  k ∈ Py.keys d ↔ is_Some (Py.get k d).
Proof.
  induction d as [|[k' v] d IH]; simpl.
  - split; [by intros ?%elem_of_nil | by intros [? ?]].
  - rewrite elem_of_cons; fold (Py.keys d). destruct (String.eqb_spec k k') as [->|Hne].
    + split; eauto.
    + rewrite IH. split; [by intros [?|?] | by right].
Qed.

Lemma contains_elem_of_keys (k : string) (d : dict) :
  Py.contains k d = true ↔ k ∈ Py.keys d.
Proof.
  rewrite get_elem_of_keys. unfold Py.contains.
  destruct (Py.get k d); split; intros H;
    first [done | by eexists | by destruct H].
Qed.

(** ** The loop of the name synthesizer *)

(** Every round of the loop finds its key in [args]. *)
Lemma sorted_keys_are_keys (args : dict) (arg_name : string) :
  arg_name ∈ sorted (Py.keys args) → is_Some (Py.get arg_name args).
Proof.
  unfold sorted. rewrite merge_sort_Permutation. apply get_elem_of_keys.
Qed.

Lemma StronglySorted_filter {A} (R : relation A) (P : A → Prop)
    `{!∀ x, Decision (P x)} (l : list A) :
  StronglySorted R l → StronglySorted R (filter P l).
Proof.
  induction 1 as [|x l Hl IH Hx]; [constructor|].
  rewrite filter_cons. case_decide; [|done].
  constructor; [done|].
  rewrite Forall_forall in Hx |- *.
  intros y [_ Hy]%list_elem_of_filter. by apply Hx.
Qed.

Lemma sorted_key_order (args : dict) :
  Spec.key_order args (filter (λ k, k ≠ "model") (sorted (Py.keys args))).
Proof.
  split.
  - unfold sorted. by rewrite merge_sort_Permutation.
  - apply StronglySorted_Sorted, StronglySorted_filter.
    apply StronglySorted_merge_sort; apply _.
Qed.

Lemma flat_args_loop (args : dict) (names : list string)
    (flat_args : list string) :
  fold_left (flat_args_step args) names flat_args =
  flat_args ++
    flat_map (fun k => match Py.get k args with
                       | Some v => map Py.str (parts v)
                       | None => []
                       end) (filter (λ k, k ≠ "model") names).
Proof.
  revert flat_args. induction names as [|k names IH]; intros flat_args.
  - simpl. by rewrite app_nil_r.
  - cbn [fold_left]. rewrite IH. unfold flat_args_step. rewrite filter_cons.
    destruct (String.eqb_spec k "model") as [->|Hne].
    + by rewrite decide_False by (intros Hk; by apply Hk).
    + rewrite decide_True by done. cbn [flat_map].
      destruct (Py.get k args); by rewrite <- ?app_assoc.
Qed.

Lemma parts_flatten (v : value) : parts v = Spec.flatten v.
Proof. by destruct v. Qed.

Lemma clean_flat_args_tokens (args : dict) (ks : list string) :
  map Re.sub
    (flat_map (fun k => match Py.get k args with
                        | Some v => map Py.str (parts v)
                        | None => []
                        end) ks) = Spec.tokens args ks.
Proof.
  unfold Spec.tokens. induction ks as [|k ks IH]; [done|].
  simpl. rewrite map_app, IH. f_equal.
  destruct (Py.get k args) as [v|]; [|done].
  rewrite parts_flatten, map_map.
  apply map_ext. intros e. apply sub_replace_runs.
Qed.

Lemma synthesize_full_name (test_type test_name : string) (args : dict) :
  snd (synthesize_generic_test_names test_type test_name args) =
  Spec.full_name test_type test_name args
    (filter (λ k, k ≠ "model") (sorted (Py.keys args))).
Proof.
  unfold synthesize_generic_test_names, Spec.full_name, Spec.unique.
  rewrite flat_args_loop. simpl app.
  rewrite clean_flat_args_tokens.
  destruct (_ <=? _)%nat; cbn [snd]; by rewrite !append_assoc.
Qed.

(** C1. For every argument mapping the full name is the one the
    specification describes: the key [model] is left out, the other keys are
    taken in lexicographic order, a mapping is flattened to its values and a
    sequence to its elements, every element is stringified and every maximal
    run of characters outside [[0-9a-zA-Z_]] becomes one underscore, the
    tokens are joined with two underscores and prefixed with the test type
    and the test name.  For type [unique], name [orders] and the single
    argument [column_name = id] both names are [unique_orders_id]. *)
Theorem C1_full_name_follows_the_algorithm :
  (∀ (test_type test_name : string) (args : dict),
      ∃ ks : list string,
        Spec.key_order args ks ∧
        snd (synthesize_generic_test_names test_type test_name args) =
        Spec.full_name test_type test_name args ks) ∧
  synthesize_generic_test_names "unique" "orders" [("column_name", VStr "id")] =
  ("unique_orders_id", "unique_orders_id").
Proof.
  split; [|by vm_compute].
  intros test_type test_name args.
  exists (filter (λ k, k ≠ "model") (sorted (Py.keys args))).
  split; [apply sorted_key_order | apply synthesize_full_name].
Qed.

(** ** Determinism of the name synthesizer *)

Lemma keys_Permutation (a b : dict) :
  NoDup (Py.keys a) → NoDup (Py.keys b) →
  (∀ k, Py.get k a = Py.get k b) →
  Py.keys a ≡ₚ Py.keys b.
Proof.
  intros Ha Hb Hget. apply NoDup_Permutation; [done..|].
  intros k. by rewrite !get_elem_of_keys, Hget.
Qed.

Lemma sorted_Permutation (l1 l2 : list string) :
  l1 ≡ₚ l2 → sorted l1 = sorted l2.
Proof.
  intros Hperm. unfold sorted.
  apply (Sorted_unique String.le); [apply Sorted_merge_sort, _..|].
  by rewrite !merge_sort_Permutation.
Qed.

Lemma flat_args_step_ext (a b : dict) :
  (∀ k, Py.get k a = Py.get k b) →
  ∀ names flat_args,
    fold_left (flat_args_step a) names flat_args =
    fold_left (flat_args_step b) names flat_args.
Proof.
  intros Hget names. induction names as [|k names IH]; intros acc; [done|].
  cbn [fold_left]. rewrite IH. unfold flat_args_step. by rewrite Hget.
Qed.



(** The order of the items of a nested mapping is part of the value: the
    synthesizer reads [arg_val.values()] as they come. *)
Example nested_item_order_reaches_the_name :
  synthesize_generic_test_names "relationships" "orders"
    [("to", VDict [("a", VInt 1); ("b", VInt 2)])]
  = ("relationships_orders_1__2", "relationships_orders_1__2") ∧
  synthesize_generic_test_names "relationships" "orders"
    [("to", VDict [("b", VInt 2); ("a", VInt 1)])]
  = ("relationships_orders_2__1", "relationships_orders_2__1").
Proof. split; by vm_compute. Qed.

(** ** The length of the short name *)

Lemma hex_digit_is_hex (n : N) : is_hex (Py.hex_digit n) = true.
Proof.
  destruct n as [|p]; [done|].
  do 4 (try destruct p as [p|p|]); done.
Qed.

Lemma len_hex (bytes : list Z) : len (MD5.hex bytes) = (2 * length bytes)%nat.
Proof.
  induction bytes as [|b bytes IH]; [done|].
  cbn [MD5.hex]. rewrite len_append, IH. simpl. lia.
Qed.

Lemma all_hex_hex (bytes : list Z) : all_chars is_hex (MD5.hex bytes) = true.
Proof.
  induction bytes as [|b bytes IH]; [done|].
  cbn [MD5.hex]. unfold MD5.hex_byte. rewrite !append_cons, append_nil_l.
  cbn [all_chars]. by rewrite !hex_digit_is_hex, IH.
Qed.

(** The blocks of a message are the whole message. *)
Lemma concat_blocks (fuel : nat) (bytes : list Z) :
  length bytes ≤ fuel → concat (MD5.blocks fuel bytes) = bytes.
Proof.
  revert bytes. induction fuel as [|fuel IH]; intros bytes Hlen.
  - destruct bytes; [done | simpl in Hlen; lia].
  - destruct bytes as [|b bytes]; [done|].
    cbn [MD5.blocks concat]. rewrite IH; [apply firstn_skipn|].
    rewrite length_skipn. simpl in *. lia.
Qed.

Lemma length_digest (msg : list Z) : length (MD5.digest msg) = 16%nat.
Proof.
  unfold MD5.digest.
  destruct (fold_left _ _ _) as [[[a b] c] d].
  by rewrite !length_app.
Qed.

(** The fingerprint has the fixed width the specification gives it. *)
Lemma len_md5 (s : string) : len (md5 s) = 32%nat.
Proof. unfold md5. by rewrite len_hex, length_digest. Qed.

Lemma all_hex_md5 (s : string) : all_chars is_hex (md5 s) = true.
Proof. apply all_hex_hex. Qed.

Example md5_empty : md5 "" = "d41d8cd98f00b204e9800998ecf8427e".
Proof. by vm_compute. Qed.

Example md5_abc : md5 "abc" = "900150983cd24fb0d6963f7d28e17f72".
Proof. by vm_compute. Qed.

Example md5_two_blocks :
  md5 "12345678901234567890123456789012345678901234567890123456789012345678901234567890"
  = "57edf4a22be3c955ac49da2e2107b67a".
Proof. by vm_compute. Qed.

Lemma synthesize_short (test_type test_name : string) (args : dict) :
  let names := synthesize_generic_test_names test_type test_name args in
  if (64 <=? len names.2)%nat
  then names.1 =
       slice_to 30 (test_type +:+ "_" +:+ test_name) +:+ "_" +:+ md5 names.2
  else names.1 = names.2.
Proof.
  unfold synthesize_generic_test_names.
  set (full_name := (_ +:+ "_" +:+ Py.join _ _)). cbn zeta.
  destruct (64 <=? len full_name)%nat eqn:E; cbn [fst snd]; by rewrite E.
Qed.

(** C2, as the code has it.  The short name has fewer than 64 characters for
    every input.  When the full name has 64 characters or more, the short
    name is the first 30 characters of [{test_type}_{test_name}], an
    underscore and the fingerprint of the full name, which is 32 hexadecimal
    characters wide; it differs from the full name, and it has as many
    characters as the identifier has, up to 30, and 33 more: 63 when the
    identifier [{test_type}_{test_name}] has at least 30 characters. *)
Theorem C2_short_name_length (test_type test_name : string) (args : dict) :
  let identifier := test_type +:+ "_" +:+ test_name in
  let names := synthesize_generic_test_names test_type test_name args in
  let short_name := names.1 in
  let full_name := names.2 in
  (len short_name < 64)%nat ∧
  ((64 ≤ len full_name)%nat →
     short_name = slice_to 30 identifier +:+ "_" +:+ md5 full_name ∧
     len (md5 full_name) = 32%nat ∧
     all_chars is_hex (md5 full_name) = true ∧
     short_name ≠ full_name ∧
     len short_name = (Nat.min 30 (len identifier) + 1 + 32)%nat ∧
     ((30 ≤ len identifier)%nat → len short_name = (30 + 1 + 32)%nat)).
Proof.
  intros identifier names short_name full_name.
  pose proof (synthesize_short test_type test_name args) as Hshort.
  cbn zeta in Hshort. fold names in Hshort.
  fold short_name full_name identifier in Hshort.
  assert (Hlen : len (slice_to 30 identifier +:+ "_" +:+ md5 full_name)
                 = (Nat.min 30 (len identifier) + 1 + 32)%nat).
  { rewrite !len_append, len_slice_to, len_md5. simpl. lia. }
  destruct (64 <=? len full_name)%nat eqn:E.
  - apply Nat.leb_le in E. rewrite Hshort, Hlen.
    split; [lia|]. intros _.
    repeat split; auto using len_md5, all_hex_md5; try lia.
    intros Heq. rewrite <- Heq, Hlen in E. lia.
  - apply Nat.leb_gt in E. rewrite Hshort. split; [lia|]. lia.
Qed.

Lemma C2_witness :
  let names :=
    synthesize_generic_test_names "accepted_values" "weekly_customer_orders"
      [("values", VList [VStr "placed"; VStr "shipped"; VStr "returned"]);
       ("column_name", VStr "status")] in
  (64 ≤ len names.2)%nat ∧ len names.1 = 63%nat ∧ names.1 ≠ names.2.
Proof.
  intros names.
  assert (Hlong : (64 ≤ len names.2)%nat) by (vm_compute; lia).
  split; [exact Hlong|].
  destruct (C2_short_name_length "accepted_values" "weekly_customer_orders"
              [("values", VList [VStr "placed"; VStr "shipped"; VStr "returned"]);
               ("column_name", VStr "status")]) as [_ Hrest].
  destruct (Hrest Hlong) as (_ & _ & _ & Hne & _ & H63).
  split; [|exact Hne]. apply H63. vm_compute. lia.
Defined.

(** The claim of C2 on full names of 70 characters does not hold for a short
    identifier: for [unique] on [orders] the identifier has 13 characters,
    and with a full name of exactly 70 characters the short name has 46
    characters, not 63. *)
Lemma C2_counterexample :
  let names :=
    synthesize_generic_test_names "unique" "orders"
      [("column_name",
        VStr "a2345678901234567890123456789012345678901234567890123456")] in
  len names.2 = 70%nat ∧ len names.1 = 46%nat ∧ len names.1 ≠ 63%nat.
Proof. by vm_compute. Qed.

(** ** More on dictionaries *)

Lemma get_remove_ne (k k' : string) (d : dict) :
  k ≠ k' → Py.get k (Py.remove k' d) = Py.get k d.
Proof.
  intros Hne. induction d as [|[k0 v] d IH]; [done|]. simpl.
  destruct (String.eqb_spec k' k0) as [->|?].
  - by destruct (String.eqb_spec k k0).
  - simpl. by rewrite IH.
Qed.

Lemma get_set_ne (k k' : string) (v : value) (d : dict) :
  k ≠ k' → Py.get k (Py.set k' v d) = Py.get k d.
Proof.
  intros Hne. induction d as [|[k0 v0] d IH]; simpl.
  - by destruct (String.eqb_spec k k').
  - destruct (String.eqb_spec k' k0) as [->|?]; simpl.
    + by destruct (String.eqb_spec k k0).
    + by rewrite IH.
Qed.

Lemma get_set_eq (k : string) (v : value) (d : dict) :
  Py.get k (Py.set k v d) = Some v.
Proof.
  induction d as [|[k0 v0] d IH]; simpl.
  - by rewrite String.eqb_refl.
  - destruct (String.eqb_spec k k0) as [->|Hne]; simpl.
    + by rewrite String.eqb_refl.
    + by destruct (String.eqb_spec k k0).
Qed.

Lemma get_pop_ne (k k' : string) (default : value) (d : dict) :
  k ≠ k' → Py.get k (Py.pop k' default d).2 = Py.get k d.
Proof.
  intros Hne. unfold Py.pop.
  destruct (Py.get k' d); [by apply get_remove_ne | done].
Qed.

Lemma contains_set_ne (k k' : string) (v : value) (d : dict) :
  k ≠ k' → Py.contains k (Py.set k' v d) = Py.contains k d.
Proof. intros. unfold Py.contains. by rewrite get_set_ne. Qed.

Lemma get_app_l (k : string) (d1 d2 : dict) :
  k ∉ Py.keys d1 → Py.get k (d1 ++ d2) = Py.get k d2.
Proof.
  induction d1 as [|[k0 v0] d1 IH]; [done|]. simpl.
  rewrite not_elem_of_cons. intros [Hne Hnot].
  destruct (String.eqb_spec k k0); [done | by apply IH].
Qed.

Lemma remove_app_l (k : string) (d1 d2 : dict) :
  k ∉ Py.keys d1 → Py.remove k (d1 ++ d2) = d1 ++ Py.remove k d2.
Proof.
  induction d1 as [|[k0 v0] d1 IH]; [done|]. simpl.
  rewrite not_elem_of_cons. intros [Hne Hnot].
  destruct (String.eqb_spec k k0); [done | by rewrite IH].
Qed.

(** ** The error monad *)

Lemma bind_OK {A B} (m : result A) (k : A → result B) (b : B) :
  m ≫= k = OK b → ∃ a, m = OK a ∧ k a = OK b.
Proof. destruct m as [a|e]; [by exists a | done]. Qed.

Lemma bind_Raise {A B} (m : result A) (k : A → result B) (e : error) :
  m = Raise e → m ≫= k = Raise e.
Proof. by intros ->. Qed.

Lemma for_each_app {S A} (body : S → A → result S) (xs ys : list A) (st : S) :
  for_each body (xs ++ ys) st = for_each body xs st ≫= for_each body ys.
Proof.
  revert st. induction xs as [|x xs IH]; intros st; [done|].
  simpl. destruct (body st x) as [st'|e]; [apply IH | done].
Qed.

Ltac bind_inv H :=
  let a := fresh "a" in
  let E := fresh "E" in
  apply bind_OK in H as (a & E & H).

(** ** What construction leaves in [self.args] *)

Section Construction.

Variable flag : bool.
Variable get_rendered : string -> dict -> rendering.

Lemma legacy_step_get (config args config' args' : dict) (key k : string) :
  TestBuilder.legacy_step (config, args) key = OK (config', args') →
  k ≠ key → k ≠ "config" → Py.get k args' = Py.get k args.
Proof.
  unfold TestBuilder.legacy_step. intros H Hk Hc.
  destruct (Py.pop key VNone args) as [value args1] eqn:Epop.
  assert (Hargs1 : Py.get k args1 = Py.get k args).
  { change args1 with (value, args1).2. rewrite <- Epop. by apply get_pop_ne. }
  bind_inv H. destruct a; [done|].
  bind_inv H. destruct a as [value' args2]. injection H as <- <-.
  rewrite <- Hargs1.
  destruct (negb (Py.truthy value)); [|by injection E0 as _ <-].
  destruct (Py.get "config" args1) as [nested|]; [|by injection E0 as _ <-].
  bind_inv E0. destruct a as [v nested']. injection E0 as _ <-.
  by apply get_set_ne.
Qed.

Lemma legacy_steps_get (keys : list string) (st st' : dict * dict) (k : string) :
  for_each TestBuilder.legacy_step keys st = OK st' →
  k ∉ keys → k ≠ "config" → Py.get k st'.2 = Py.get k st.2.
Proof.
  revert st. induction keys as [|key keys IH]; intros st H Hk Hc.
  - by injection H as <-.
  - simpl in H. bind_inv H. apply not_elem_of_cons in Hk as [Hne Hk].
    rewrite (IH _ H Hk Hc). destruct st as [c a0], a as [c' a'].
    by eapply legacy_step_get.
Qed.

Lemma process_legacy_args_get target column_name name render_ctx
    (args legacy args' : dict) (k : string) :
  TestBuilder._process_legacy_args get_rendered target column_name name
    render_ctx args = OK (legacy, args') →
  k ∉ TestBuilder.CONFIG_ARGS → k ≠ "config" →
  Py.get k args' = Py.get k args.
Proof.
  unfold TestBuilder._process_legacy_args, TestBuilder.legacy_loop.
  intros H Hk Hc. bind_inv H. destruct a as [config args1].
  bind_inv H. injection H as _ <-.
  apply (legacy_steps_get _ _ _ k E Hk Hc).
Qed.

(** The stages a successful construction went through. *)
Lemma init_OK data_test target package_name render_ctx column_name version tb :
  TestBuilder.__init__ flag get_rendered data_test target package_name
    render_ctx column_name version = OK tb →
  ∃ test_name test_args warned model_str args2,
    TestBuilder.extract_test_args flag data_test column_name
      = OK (test_name, test_args, warned) ∧
    Py.contains "model" test_args = false ∧
    TestBuilder.build_model_str target version = OK model_str ∧
    TestBuilder.TEST_NAME_PATTERN_match test_name
      = Some (TestBuilder.namespace tb, TestBuilder.name tb) ∧
    (∀ k, k ∉ TestBuilder.CONFIG_ARGS → k ≠ "config" →
          Py.get k args2
          = Py.get k (Py.set "model" (VStr model_str) test_args)) ∧
    let args3 := match Py.get "description" args2 with
                 | Some _ => Py.remove "description" args2
                 | None => args2
                 end in
    match Py.get "name" args3 with
    | Some user_name =>
        TestBuilder.compiled_name tb = user_name ∧
        TestBuilder.fqn_name tb = user_name ∧
        TestBuilder.args tb = Py.remove "name" args3
    | None =>
        ∃ short_name full_name,
          TestBuilder.get_synthetic_test_names target version
            (TestBuilder.name tb) (TestBuilder.namespace tb) args3
            = OK (short_name, full_name) ∧
          TestBuilder.compiled_name tb = VStr short_name ∧
          TestBuilder.fqn_name tb = VStr full_name ∧
          TestBuilder.args tb = args3
    end.
Proof.
  unfold TestBuilder.__init__. intros H.
  bind_inv H. destruct a as [[test_name test_args] warned].
  destruct (Py.contains "model" test_args) eqn:Emodel; [done|].
  bind_inv H. rename a into model_str.
  destruct (TestBuilder.TEST_NAME_PATTERN_match test_name)
    as [[namespace name]|] eqn:Ematch; [|done].
  bind_inv H. destruct a as [legacy args1].
  bind_inv H. destruct a as [config args2].
  exists test_name, test_args, warned, model_str, args2.
  assert (Hargs2 : ∀ k, k ∉ TestBuilder.CONFIG_ARGS → k ≠ "config" →
            Py.get k args2
            = Py.get k (Py.set "model" (VStr model_str) test_args)).
  { intros k Hk Hc.
    rewrite <- (process_legacy_args_get _ _ _ _ _ _ _ k E1 Hk Hc).
    destruct (Py.contains "config" args1); [|by injection E2 as _ <-].
    destruct (Py.pop "config" (VDict []) args1) as [nested args] eqn:Epop.
    destruct nested; try done. bind_inv E2. injection E2 as _ <-.
    change args with (VDict d, args).2. rewrite <- Epop. by apply get_pop_ne. }
  destruct (Py.get "description" args2) as [description|];
    (destruct (Py.get "name" _) as [user_name|];
     [ injection H as <-; by repeat split
     | bind_inv H; destruct a as [short_name full_name]; injection H as <-;
       repeat split; try done; by exists short_name, full_name ]).
Qed.

Lemma model_not_config_arg : "model" ∉ TestBuilder.CONFIG_ARGS.
Proof. apply (bool_decide_unpack _). by vm_compute. Qed.

Lemma name_not_config_arg : "name" ∉ TestBuilder.CONFIG_ARGS.
Proof. apply (bool_decide_unpack _). by vm_compute. Qed.

End Construction.

(** ** Bounds on the synthesized short name *)

Lemma synthesize_cases (test_type test_name : string) (args : dict) :
  ∃ unique : string,
    let full_name := (test_type +:+ "_" +:+ test_name) +:+ "_" +:+ unique in
    synthesize_generic_test_names test_type test_name args =
    if (64 <=? len full_name)%nat
    then (slice_to 30 (test_type +:+ "_" +:+ test_name) +:+ "_" +:+
            md5 full_name, full_name)
    else (full_name, full_name).
Proof.
  eexists. unfold synthesize_generic_test_names. cbn zeta. reflexivity.
Qed.

Lemma short_name_bounds (test_type test_name : string) (args : dict) :
  (0 < len (synthesize_generic_test_names test_type test_name args).1 < 64)%nat.
Proof.
  destruct (synthesize_cases test_type test_name args) as [unique ->].
  destruct (64 <=? _)%nat eqn:E; cbn [fst].
  - rewrite !len_append, len_slice_to, len_md5.
    change (len "_") with 1%nat. lia.
  - apply Nat.leb_gt in E. revert E. rewrite !len_append.
    change (len "_") with 1%nat. lia.
Qed.

(** ** The reserved argument [model] *)

(** C9. When the arguments extracted from the declaration hold the key
    [model], construction raises [TestArgIncludesModelError], whatever the
    target; so a descriptor that was constructed had no [model] argument
    from the user, and its [model] argument is the reference string built
    from the target. *)
Theorem C9_model_argument_is_reserved
    (flag : bool) (get_rendered : string -> dict -> rendering)
    (data_test : value) (target : Testable) (package_name : string)
    (render_ctx : dict) (column_name : option string)
    (version : option value)
    (test_name : string) (test_args : dict) (warned : list deprecation) :
  TestBuilder.extract_test_args flag data_test column_name
    = OK (test_name, test_args, warned) →
  (("model" ∈ Py.keys test_args) →
   TestBuilder.__init__ flag get_rendered data_test target package_name
     render_ctx column_name version = Raise TestArgIncludesModelError) ∧
  (∀ tb,
     TestBuilder.__init__ flag get_rendered data_test target package_name
       render_ctx column_name version = OK tb →
     ("model" ∉ Py.keys test_args) ∧
     ∃ model_str,
       TestBuilder.build_model_str target version = OK model_str ∧
       Py.get "model" (TestBuilder.args tb) = Some (VStr model_str)).
Proof.
  intros Hextract. split.
  - intros Hmodel%contains_elem_of_keys.
    unfold TestBuilder.__init__. rewrite Hextract. cbn. by rewrite Hmodel.
  - intros tb Htb.
    destruct (init_OK _ _ _ _ _ _ _ _ _ Htb)
      as (tn & ta & w & model_str & args2 & E & Hmodel & Hbuild & _ & Hargs2 & Hfin).
    rewrite Hextract in E. injection E as <- <- <-.
    split.
    { rewrite <- contains_elem_of_keys. by rewrite Hmodel. }
    exists model_str. split; [done|].
    assert (H2 : Py.get "model" args2 = Some (VStr model_str)).
    { rewrite Hargs2 by (done || apply model_not_config_arg).
      apply get_set_eq. }
    cbn zeta in Hfin.
    assert (H3 : Py.get "model"
              match Py.get "description" args2 with
              | Some _ => Py.remove "description" args2
              | None => args2
              end = Some (VStr model_str)).
    { destruct (Py.get "description" args2); [|done].
      by rewrite get_remove_ne. }
    destruct (Py.get "name" _) as [user_name|].
    + destruct Hfin as (_ & _ & ->). by rewrite get_remove_ne.
    + destruct Hfin as (? & ? & _ & _ & _ & ->). done.
Qed.

Lemma C9_witness :
  TestBuilder.__init__ false render_literal
    (VDict [("unique", VDict [("model", VStr "ref('x')")])])
    (UnparsedModelUpdate "orders") "pkg" [] (Some "id") None
  = Raise TestArgIncludesModelError ∧
  TestBuilder.__init__ false render_literal
    (VDict [("unique", VDict [("model", VStr "ref('x')")])])
    (UnparsedNodeUpdate "orders") "pkg" [] (Some "id") None
  = Raise TestArgIncludesModelError ∧
  TestBuilder.__init__ false render_literal
    (VDict [("unique", VDict [("model", VStr "ref('x')")])])
    (UnpatchedSourceDefinition "raw_orders" "raw" "orders") "pkg" []
    (Some "id") None
  = Raise TestArgIncludesModelError.
Proof.
  split; [|split];
    (eapply (C9_model_argument_is_reserved false render_literal
               (VDict [("unique", VDict [("model", VStr "ref('x')")])]));
     [by vm_compute | apply (bool_decide_unpack _); by vm_compute]).
Defined.

(** ** The compiled name *)

(** C7, as the code has it.  A descriptor constructed from a declaration
    without a [name] argument has a synthesized compiled name, a string that
    is not empty and has fewer than 64 characters; with a [name] argument the
    compiled name is the value of that argument, as it is. *)
Theorem C7_compiled_name
    (flag : bool) (get_rendered : string -> dict -> rendering)
    (data_test : value) (target : Testable) (package_name : string)
    (render_ctx : dict) (column_name : option string)
    (version : option value)
    (test_name : string) (test_args : dict) (warned : list deprecation)
    (tb : TestBuilder.t) :
  TestBuilder.extract_test_args flag data_test column_name
    = OK (test_name, test_args, warned) →
  TestBuilder.__init__ flag get_rendered data_test target package_name
    render_ctx column_name version = OK tb →
  match Py.get "name" test_args with
  | None =>
      ∃ s, TestBuilder.compiled_name tb = VStr s ∧ (0 < len s < 64)%nat
  | Some user_name => TestBuilder.compiled_name tb = user_name
  end.
Proof.
  intros Hextract Htb.
  destruct (init_OK _ _ _ _ _ _ _ _ _ Htb)
    as (tn & ta & w & model_str & args2 & E & _ & _ & _ & Hargs2 & Hfin).
  rewrite Hextract in E. injection E as <- <- <-.
  cbn zeta in Hfin.
  assert (Hname : Py.get "name"
            match Py.get "description" args2 with
            | Some _ => Py.remove "description" args2
            | None => args2
            end = Py.get "name" test_args).
  { rewrite <- (get_set_ne "name" "model" (VStr model_str) test_args) by done.
    rewrite <- Hargs2 by (done || apply name_not_config_arg).
    destruct (Py.get "description" args2); [|done].
    by rewrite get_remove_ne. }
  rewrite Hname in Hfin.
  destruct (Py.get "name" test_args) as [user_name|].
  - by destruct Hfin as (-> & _).
  - destruct Hfin as (short_name & full_name & Hsyn & -> & _).
    exists short_name. split; [done|].
    unfold TestBuilder.get_synthetic_test_names in Hsyn.
    bind_inv Hsyn. destruct a as [name tname]. injection Hsyn as Hsyn.
    change short_name with (short_name, full_name).1. rewrite <- Hsyn.
    apply short_name_bounds.
Qed.

Lemma C7_witness :
  ∃ tb,
    TestBuilder.__init__ false render_literal
      (VDict [("not_null", VDict [])]) (UnparsedModelUpdate "orders") "pkg" []
      (Some "id") None = OK tb ∧
    ∃ s, TestBuilder.compiled_name tb = VStr s ∧ (0 < len s < 64)%nat.
Proof.
  eexists. split; [by vm_compute|].
  eapply (C7_compiled_name false render_literal
            (VDict [("not_null", VDict [])]) (UnparsedModelUpdate "orders")
            "pkg" [] (Some "id") None "not_null" [("column_name", VStr "id")] []);
    by vm_compute.
Defined.

(** The claim of C7 fails for a name the user supplies: it is taken as it
    is, here with 70 characters. *)
Lemma C7_counterexample :
  ∃ tb,
    TestBuilder.__init__ false render_literal
      (VDict [("unique",
               VDict [("name",
                       VStr "a_name_that_the_author_of_the_test_chose_and_that_takes_seventy_letter")])])
      (UnparsedModelUpdate "orders") "pkg" [] (Some "id") None = OK tb ∧
    ∃ s, TestBuilder.compiled_name tb = VStr s ∧ len s = 70%nat ∧
         ¬ (len s < 64)%nat.
Proof.
  eexists. split; [by vm_compute|].
  eexists. split; [by vm_compute|]. split; [by vm_compute|].
  vm_compute. lia.
Qed.

(** ** Targets of another class *)

(** C8, on the code.  For a target that is not a model, a node or a source,
    and a declaration that passes the first checks, construction stops in
    [build_model_str], which reads the local [target_str] that no branch has
    bound: the exception is [UnboundLocalError], not the [TypeError] of
    [_bad_type]. *)
Theorem C8_other_target_stops_in_build_model_str
    (flag : bool) (get_rendered : string -> dict -> rendering)
    (data_test : value) (class_name target_name package_name : string)
    (render_ctx : dict) (column_name : option string)
    (version : option value)
    (test_name : string) (test_args : dict) (warned : list deprecation) :
  let target := OtherTarget class_name target_name in
  TestBuilder.extract_test_args flag data_test column_name
    = OK (test_name, test_args, warned) →
  Py.contains "model" test_args = false →
  TestBuilder.__init__ flag get_rendered data_test target package_name
    render_ctx column_name version = Raise (UnboundLocalError "target_str") ∧
  Raise (A := TestBuilder.t) (UnboundLocalError "target_str")
    ≠ Raise (TestBuilder._bad_type target).
Proof.
  intros target Hextract Hmodel. split; [|done].
  unfold TestBuilder.__init__. rewrite Hextract. cbn. by rewrite Hmodel.
Qed.

Lemma C8_witness :
  TestBuilder.__init__ false render_literal (VDict [("unique", VDict [])])
    (OtherTarget "UnparsedExposure" "weekly_report") "pkg" [] (Some "id") None
  = Raise (UnboundLocalError "target_str").
Proof.
  eapply (C8_other_target_stops_in_build_model_str false render_literal
            (VDict [("unique", VDict [])])); by vm_compute.
Defined.

(** ** The test name pattern *)

Lemma pattern_match_None (test_name : string) :
  TestBuilder.TEST_NAME_PATTERN_match test_name = None ↔
  match test_name with
  | "" => True
  | String c _ => Re.head_char c = false
  end.
Proof.
  unfold TestBuilder.TEST_NAME_PATTERN_match, Re.identifier.
  destruct test_name as [|c rest]; [done|].
  destruct (Re.head_char c); [|done].
  destruct (Re.word_chars rest) as [m after].
  split; [|done].
  destruct after as [|c' after']; [done|].
  destruct (Ascii.eqb_spec c' "."%char) as [->|Hne].
  - destruct after' as [|c'' ?]; [done|].
    destruct (Re.head_char c''); [|done].
    by destruct (Re.word_chars _).
  - destruct c' as [[] [] [] [] [] [] [] []]; done.
Qed.

Example token_with_a_digit_first_is_rejected :
  TestBuilder.__init__ false render_literal
    (VDict [("1_unique", VDict [])]) (UnparsedModelUpdate "orders")
    "pkg" [] (Some "id") None
  = Raise (UnexpectedTestNamePatternError "1_unique").
Proof. by vm_compute. Qed.

(** C6, on the code.  The pattern is matched at the start of the token only,
    so a token with text after a well-formed name is accepted, and the text
    is dropped: [unique!!] gives the name [unique], and
    [dbt_utils.equality.extra] the namespace [dbt_utils] and the name
    [equality]. *)
Theorem C6_text_after_the_name_is_accepted :
  (∃ tb,
     TestBuilder.__init__ false render_literal
       (VDict [("unique!!", VDict [])]) (UnparsedModelUpdate "orders")
       "pkg" [] (Some "id") None = OK tb ∧
     TestBuilder.namespace tb = None ∧ TestBuilder.name tb = "unique") ∧
  (∃ tb,
     TestBuilder.__init__ false render_literal
       (VDict [("dbt_utils.equality.extra", VDict [])])
       (UnparsedModelUpdate "orders") "pkg" [] (Some "id") None = OK tb ∧
     TestBuilder.namespace tb = Some "dbt_utils" ∧
     TestBuilder.name tb = "equality").
Proof.
  split; eexists; (split; [by vm_compute|]); by vm_compute.
Qed.

(** ** The two shapes of a declaration *)

Lemma extract_shape_a (flag : bool) (T : string) (l1 l2 : dict)
    (column_name : option string) :
  "test_name" ∉ Py.keys (l1 ++ l2) → T ≠ "test_name" →
  TestBuilder.extract_test_args flag
    (VDict (l1 ++ ("test_name", VStr T) :: l2)) column_name =
  TestBuilder.extract_test_args flag (VDict [(T, VDict (l1 ++ l2))]) column_name.
Proof.
  intros Hnot HT.
  assert (Hl1 : "test_name" ∉ Py.keys l1).
  { intros Hin. apply Hnot. unfold Py.keys. rewrite map_app.
    apply elem_of_app. by left. }
  unfold TestBuilder.extract_test_args, Py.contains, Py.pop.
  rewrite (get_app_l _ _ _ Hl1), (remove_app_l _ _ _ Hl1).
  cbn [Py.get Py.remove]. rewrite String.eqb_refl.
  by destruct (String.eqb_spec "test_name" T) as [<-|_].
Qed.

Lemma extract_shape_b_test_name (flag : bool) (d : dict)
    (column_name : option string) :
  TestBuilder.extract_test_args flag (VDict [("test_name", VDict d)]) column_name
  = Raise (TestNameNotStringError (VDict d)).
Proof. reflexivity. Qed.

(** C4. A declaration with the key [test_name] among its arguments and the
    declaration with the test name as its only key and the same arguments
    under it, constructed for the same target, column, version and context,
    give descriptors with the same arguments and the same config. *)
Theorem C4_both_shapes_give_the_same_descriptor
    (flag : bool) (get_rendered : string -> dict -> rendering)
    (T : string) (l1 l2 : dict) (target : Testable) (package_name : string)
    (render_ctx : dict) (column_name : option string)
    (version : option value) (tb_a tb_b : TestBuilder.t) :
  "test_name" ∉ Py.keys (l1 ++ l2) →
  TestBuilder.__init__ flag get_rendered
    (VDict (l1 ++ ("test_name", VStr T) :: l2)) target package_name
    render_ctx column_name version = OK tb_a →
  TestBuilder.__init__ flag get_rendered
    (VDict [(T, VDict (l1 ++ l2))]) target package_name
    render_ctx column_name version = OK tb_b →
  TestBuilder.args tb_a = TestBuilder.args tb_b ∧
  TestBuilder.config tb_a = TestBuilder.config tb_b.
Proof.
  intros Hnot Ha Hb.
  destruct (decide (T = "test_name")) as [->|HT].
  - unfold TestBuilder.__init__ in Hb.
    by rewrite extract_shape_b_test_name in Hb.
  - unfold TestBuilder.__init__ in Ha, Hb.
    rewrite (extract_shape_a _ _ _ _ _ Hnot HT) in Ha.
    rewrite Ha in Hb. by injection Hb as ->.
Qed.

Lemma C4_witness :
  ∃ tb_a tb_b,
    TestBuilder.__init__ false render_literal
      (VDict [("severity", VStr "warn"); ("test_name", VStr "accepted_values");
              ("values", VList [VStr "placed"; VStr "shipped"]);
              ("config", VDict [("where", VStr "1=1")])])
      (UnparsedModelUpdate "orders") "pkg" [] (Some "status") None = OK tb_a ∧
    TestBuilder.__init__ false render_literal
      (VDict [("accepted_values",
               VDict [("severity", VStr "warn");
                      ("values", VList [VStr "placed"; VStr "shipped"]);
                      ("config", VDict [("where", VStr "1=1")])])])
      (UnparsedModelUpdate "orders") "pkg" [] (Some "status") None = OK tb_b ∧
    TestBuilder.args tb_a = TestBuilder.args tb_b ∧
    TestBuilder.config tb_a = TestBuilder.config tb_b.
Proof.
  eexists _, _. split; [by vm_compute|]. split; [by vm_compute|].
  eapply (C4_both_shapes_give_the_same_descriptor false render_literal
            "accepted_values" [("severity", VStr "warn")]
            [("values", VList [VStr "placed"; VStr "shipped"]);
             ("config", VDict [("where", VStr "1=1")])]
            (UnparsedModelUpdate "orders") "pkg" [] (Some "status") None).
  - apply (bool_decide_unpack _). by vm_compute.
  - by vm_compute.
  - by vm_compute.
Defined.

(** ** The config resolver *)

Lemma remove_absent (k : string) (d : dict) :
  Py.get k d = None → Py.remove k d = d.
Proof.
  induction d as [|[k0 v0] d IH]; [done|]. simpl.
  destruct (String.eqb_spec k k0); [done|]. intros H. by rewrite IH.
Qed.

Lemma pop_spec (k : string) (d : dict) :
  Py.pop k VNone d = (legacy_value d k, Py.remove k d).
Proof.
  unfold Py.pop, legacy_value.
  destruct (Py.get k d) eqn:E; [done|]. by rewrite remove_absent.
Qed.

(** One round of the legacy loop when the nested config is a mapping. *)
Lemma legacy_step_mapping (config args cfg : dict) (key : string) :
  key ≠ "config" →
  Py.get "config" args = Some (VDict cfg) →
  TestBuilder.legacy_step (config, args) key =
  if Py.truthy (legacy_value args key) then
    if Py.contains key cfg then Raise SameKeyNestedError
    else OK (Py.set key (legacy_value args key) config, Py.remove key args)
  else
    OK (Py.set key (legacy_value cfg key) config,
        Py.set "config" (VDict (Py.remove key cfg)) (Py.remove key args)).
Proof.
  intros Hkey Hcfg. unfold TestBuilder.legacy_step.
  rewrite pop_spec.
  rewrite (get_remove_ne "config" key) by done. rewrite Hcfg.
  destruct (Py.truthy (legacy_value args key)) eqn:Etruthy; cbn.
  - by destruct (Py.contains key cfg).
  - by rewrite pop_spec.
Qed.

Lemma legacy_step_no_config (config args : dict) (key : string) :
  key ≠ "config" →
  Py.get "config" args = None →
  TestBuilder.legacy_step (config, args) key =
  OK (Py.set key (legacy_value args key) config, Py.remove key args).
Proof.
  intros Hkey Hcfg. unfold TestBuilder.legacy_step.
  rewrite pop_spec.
  rewrite (get_remove_ne "config" key) by done. rewrite Hcfg.
  by destruct (Py.truthy (legacy_value args key)) eqn:Etruthy; cbn.
Qed.

Lemma legacy_value_remove_ne (k k' : string) (d : dict) :
  k ≠ k' → legacy_value (Py.remove k' d) k = legacy_value d k.
Proof. intros. unfold legacy_value. by rewrite get_remove_ne. Qed.

Lemma legacy_value_set_ne (k k' : string) (v : value) (d : dict) :
  k ≠ k' → legacy_value (Py.set k' v d) k = legacy_value d k.
Proof. intros. unfold legacy_value. by rewrite get_set_ne. Qed.

Lemma contains_remove_ne (k k' : string) (d : dict) :
  k ≠ k' → Py.contains k (Py.remove k' d) = Py.contains k d.
Proof. intros. unfold Py.contains. by rewrite get_remove_ne. Qed.

Lemma legacy_steps_clash (keys : list string) (key : string)
    (config args : dict) :
  key ∈ keys → "config" ∉ keys → clash args key →
  for_each TestBuilder.legacy_step keys (config, args)
  = Raise SameKeyNestedError.
Proof.
  revert config args.
  induction keys as [|k0 keys IH]; intros config args Hin Hc Hclash.
  { by apply elem_of_nil in Hin. }
  apply not_elem_of_cons in Hc as [Hk0 Hc].
  destruct Hclash as (Htruthy & cfg & Hcfg & Hcontains).
  cbn [for_each]. rewrite (legacy_step_mapping _ _ cfg) by done.
  destruct (decide (k0 = key)) as [->|Hne].
  { by rewrite Htruthy, Hcontains. }
  apply elem_of_cons in Hin as [->|Hin]; [done|].
  assert (key ≠ "config") by (by intros ->).
  destruct (Py.truthy (legacy_value args k0)).
  - destruct (Py.contains k0 cfg); [done|]. cbn. apply IH; [done..|].
    split; [by rewrite legacy_value_remove_ne|].
    exists cfg. by rewrite get_remove_ne.
  - cbn. apply IH; [done..|].
    split; [by rewrite legacy_value_set_ne, legacy_value_remove_ne|].
    exists (Py.remove k0 cfg).
    by rewrite get_set_eq, contains_remove_ne.
Qed.

Lemma legacy_steps_resolved (keys : list string) (config args : dict) :
  NoDup keys → "config" ∉ keys → config_is_mapping args →
  (∀ key, key ∈ keys → ¬ clash args key) →
  ∃ config' args',
    for_each TestBuilder.legacy_step keys (config, args) = OK (config', args') ∧
    (∀ key, key ∈ keys → Py.get key config' = Some (resolved args key)) ∧
    (∀ key, key ∉ keys → Py.get key config' = Py.get key config).
Proof.
  revert config args.
  induction keys as [|k0 keys IH]; intros config args Hnd Hc Hmap Hclash.
  { exists config, args. split; [done|]. split; [|done].
    by intros key Hin%elem_of_nil. }
  apply NoDup_cons in Hnd as [Hk0 Hnd].
  apply not_elem_of_cons in Hc as [Hk0c Hc].
  cbn [for_each]. unfold config_is_mapping in Hmap.
  destruct (Py.get "config" args) as [nested|] eqn:Hcfg.
  - destruct nested as [| | | | | |cfg]; try done.
    rewrite (legacy_step_mapping _ _ cfg) by done.
    assert (Hno : ¬ clash args k0) by (apply Hclash; by left).
    destruct (Py.truthy (legacy_value args k0)) eqn:Etruthy.
    + destruct (Py.contains k0 cfg) eqn:Econtains.
      { destruct Hno. split; [done|]. by exists cfg. }
      cbn.
      destruct (IH (Py.set k0 (legacy_value args k0) config) (Py.remove k0 args))
        as (config' & args' & Hrun & Hin & Hout); [done..| | |].
      { unfold config_is_mapping. by rewrite get_remove_ne, Hcfg. }
      { intros key Hkey (Ht & cfg' & Hcfg' & Hcont).
        assert (key ≠ k0) by (by intros ->).
        rewrite legacy_value_remove_ne in Ht by done.
        rewrite get_remove_ne, Hcfg in Hcfg' by done. injection Hcfg' as <-.
        apply (Hclash key); [by right|]. split; [done|]. by exists cfg. }
      exists config', args'. split; [done|]. split.
      * intros key [->|Hkey]%elem_of_cons.
        -- rewrite Hout, get_set_eq by done. unfold resolved. by rewrite Etruthy.
        -- assert (key ≠ k0) by (by intros ->).
           assert (key ≠ "config") by (by intros ->).
           rewrite (Hin key Hkey). unfold resolved.
           rewrite legacy_value_remove_ne, get_remove_ne, Hcfg by done. done.
      * intros key [Hne Hkey]%not_elem_of_cons.
        by rewrite (Hout key Hkey), get_set_ne.
    + cbn.
      destruct (IH (Py.set k0 (legacy_value cfg k0) config)
                  (Py.set "config" (VDict (Py.remove k0 cfg)) (Py.remove k0 args)))
        as (config' & args' & Hrun & Hin & Hout); [done..| | |].
      { unfold config_is_mapping. by rewrite get_set_eq. }
      { intros key Hkey (Ht & cfg' & Hcfg' & Hcont).
        assert (key ≠ k0) by (by intros ->).
        assert (key ≠ "config") by (by intros ->).
        rewrite legacy_value_set_ne, legacy_value_remove_ne in Ht by done.
        rewrite get_set_eq in Hcfg'. injection Hcfg' as <-.
        rewrite contains_remove_ne in Hcont by done.
        apply (Hclash key); [by right|]. split; [done|]. by exists cfg. }
      exists config', args'. split; [done|]. split.
      * intros key [->|Hkey]%elem_of_cons.
        -- rewrite Hout, get_set_eq by done. unfold resolved.
           by rewrite Etruthy, Hcfg.
        -- assert (key ≠ k0) by (by intros ->).
           assert (key ≠ "config") by (by intros ->).
           rewrite (Hin key Hkey). unfold resolved.
           rewrite legacy_value_set_ne, legacy_value_remove_ne by done.
           rewrite get_set_eq, Hcfg.
           by rewrite legacy_value_remove_ne.
      * intros key [Hne Hkey]%not_elem_of_cons.
        by rewrite (Hout key Hkey), get_set_ne.
  - rewrite legacy_step_no_config by done. cbn.
    destruct (IH (Py.set k0 (legacy_value args k0) config) (Py.remove k0 args))
      as (config' & args' & Hrun & Hin & Hout); [done..| | |].
    { unfold config_is_mapping. by rewrite get_remove_ne, Hcfg. }
    { intros key Hkey (Ht & cfg' & Hcfg' & Hcont).
      by rewrite get_remove_ne, Hcfg in Hcfg'. }
    exists config', args'. split; [done|]. split.
    * intros key [->|Hkey]%elem_of_cons.
      -- rewrite Hout, get_set_eq by done. unfold resolved.
         rewrite Hcfg. by destruct (Py.truthy _).
      -- assert (key ≠ k0) by (by intros ->).
         assert (key ≠ "config") by (by intros ->).
         rewrite (Hin key Hkey). unfold resolved.
         by rewrite legacy_value_remove_ne, get_remove_ne, Hcfg.
    * intros key [Hne Hkey]%not_elem_of_cons.
      by rewrite (Hout key Hkey), get_set_ne.
Qed.

Lemma ret_bind {A B} (a : A) (k : A → result B) : OK a ≫= k = k a.
Proof. reflexivity. Qed.

Lemma for_each_Raise {S A} (body : S → A → result S) (xs : list A) (st : S)
    (e : error) :
  for_each body xs st = Raise e → ∃ st' x, body st' x = Raise e.
Proof.
  revert st. induction xs as [|x xs IH]; intros st H; [done|].
  simpl in H. destruct (body st x) as [st'|e'] eqn:E.
  - by apply (IH st').
  - injection H as ->. by exists st, x.
Qed.

Section LegacyArgs.

Variable flag : bool.
Variable get_rendered : string -> dict -> rendering.

Lemma render_values_not_same target column_name name render_ctx config :
  TestBuilder._render_values get_rendered target column_name name render_ctx
    config ≠ Raise SameKeyNestedError.
Proof.
  intros (rendered & [key value] & H)%for_each_Raise.
  unfold TestBuilder.render_step in H.
  destruct value; try (by destruct (get_rendered _ _) as [[]| |]); done.
Qed.

Lemma synthetic_names_not_same target version name namespace args :
  TestBuilder.get_synthetic_test_names target version name namespace args
  ≠ Raise SameKeyNestedError.
Proof. by destruct target. Qed.

Ltac finish_not_same :=
  destruct (Py.get "description" _); cbv beta iota zeta;
  (destruct (Py.get "name" _); [done|]);
  match goal with
  | |- context [TestBuilder.get_synthetic_test_names ?t ?v ?n ?ns ?a] =>
      pose proof (synthetic_names_not_same t v n ns a);
      destruct (TestBuilder.get_synthetic_test_names t v n ns a) as [[? ?]|?];
      [done | by intros [= ->]]
  end.

Lemma init_not_same data_test target package_name render_ctx column_name
    version test_name test_args warned model_str namespace name config args :
  TestBuilder.extract_test_args flag data_test column_name
    = OK (test_name, test_args, warned) →
  Py.contains "model" test_args = false →
  TestBuilder.build_model_str target version = OK model_str →
  TestBuilder.TEST_NAME_PATTERN_match test_name = Some (namespace, name) →
  TestBuilder.legacy_loop (Py.set "model" (VStr model_str) test_args)
    = OK (config, args) →
  TestBuilder.__init__ flag get_rendered data_test target package_name
    render_ctx column_name version ≠ Raise SameKeyNestedError.
Proof.
  intros Hextract Hmodel Hbuild Hmatch Hloop.
  unfold TestBuilder.__init__, TestBuilder._process_legacy_args.
  rewrite Hextract, ret_bind. cbv beta iota zeta. rewrite Hmodel, Hbuild, ret_bind.
  cbv beta iota zeta.
  rewrite Hmatch, Hloop, ret_bind. cbv beta iota zeta.
  pose proof (render_values_not_same target column_name name render_ctx config)
    as Hrender.
  destruct (TestBuilder._render_values _ _ _ _ _ config) as [legacy|e];
    [|by intros [= ->]].
  rewrite !ret_bind. cbv beta iota zeta.
  destruct (Py.contains "config" args).
  - destruct (Py.pop "config" (VDict []) args) as [nested args2].
    destruct nested as [| | | | | |nested]; try done.
    pose proof (render_values_not_same target column_name name render_ctx nested)
      as Hnested.
    destruct (TestBuilder._render_values _ _ _ _ _ nested) as [rendered|e];
      [|by intros [= ->]].
    rewrite !ret_bind. cbv beta iota zeta. finish_not_same.
  - rewrite !ret_bind. cbv beta iota zeta. finish_not_same.
Qed.
End LegacyArgs.

Lemma config_not_config_arg : "config" ∉ TestBuilder.CONFIG_ARGS.
Proof. apply (bool_decide_unpack _). by vm_compute. Qed.

Lemma NoDup_CONFIG_ARGS : NoDup TestBuilder.CONFIG_ARGS.
Proof. apply (bool_decide_unpack _). by vm_compute. Qed.

Lemma clash_set_model (args : dict) (key : string) (v : value) :
  key ∈ TestBuilder.CONFIG_ARGS →
  clash (Py.set "model" v args) key ↔ clash args key.
Proof.
  intros Hkey.
  assert (key ≠ "model").
  { intros ->. by apply model_not_config_arg. }
  unfold clash. by rewrite legacy_value_set_ne, get_set_ne.
Qed.

Lemma resolved_set_model (args : dict) (key : string) (v : value) :
  key ∈ TestBuilder.CONFIG_ARGS →
  resolved (Py.set "model" v args) key = resolved args key.
Proof.
  intros Hkey.
  assert (key ≠ "model").
  { intros ->. by apply model_not_config_arg. }
  unfold resolved. by rewrite legacy_value_set_ne, get_set_ne.
Qed.

(** C3.  Take a declaration that passes the checks made before the config
    is resolved.  For a recognized key with a truthy top-level value and a
    truthy value in the nested config mapping, construction raises
    [SameKeyNestedError].  When no recognized key is supplied in both places,
    construction does not raise that error.  More generally, when no
    recognized key has a truthy top-level value and an entry in the nested
    mapping, the loop over the recognized keys succeeds and construction
    does not raise that error; for a key whose top-level value is falsy or
    missing and that the nested mapping has, the config before rendering
    holds the nested value. *)
Theorem C3_config_key_in_two_places
    (flag : bool) (get_rendered : string -> dict -> rendering)
    (data_test : value) (target : Testable) (package_name : string)
    (render_ctx : dict) (column_name : option string)
    (version : option value)
    (test_name : string) (test_args : dict) (warned : list deprecation)
    (model_str : string) (namespace : option string) (name : string) :
  TestBuilder.extract_test_args flag data_test column_name
    = OK (test_name, test_args, warned) →
  Py.contains "model" test_args = false →
  TestBuilder.build_model_str target version = OK model_str →
  TestBuilder.TEST_NAME_PATTERN_match test_name = Some (namespace, name) →
  let construction :=
    TestBuilder.__init__ flag get_rendered data_test target package_name
      render_ctx column_name version in
  (∀ key v cfg x,
     key ∈ TestBuilder.CONFIG_ARGS →
     Py.get key test_args = Some v → Py.truthy v = true →
     Py.get "config" test_args = Some (VDict cfg) →
     Py.get key cfg = Some x → Py.truthy x = true →
     construction = Raise SameKeyNestedError) ∧
  (config_is_mapping test_args →
   (∀ key cfg,
      key ∈ TestBuilder.CONFIG_ARGS →
      Py.get "config" test_args = Some (VDict cfg) →
      ¬ (key ∈ Py.keys test_args ∧ key ∈ Py.keys cfg)) →
   construction ≠ Raise SameKeyNestedError) ∧
  (config_is_mapping test_args →
   (∀ key, key ∈ TestBuilder.CONFIG_ARGS → ¬ clash test_args key) →
   construction ≠ Raise SameKeyNestedError ∧
   ∃ config args',
     TestBuilder.legacy_loop (Py.set "model" (VStr model_str) test_args)
       = OK (config, args') ∧
     (∀ key, key ∈ TestBuilder.CONFIG_ARGS →
             Py.get key config = Some (resolved test_args key)) ∧
     (∀ key cfg x,
        key ∈ TestBuilder.CONFIG_ARGS →
        Py.truthy (legacy_value test_args key) = false →
        Py.get "config" test_args = Some (VDict cfg) →
        Py.get key cfg = Some x →
        Py.get key config = Some x)).
Proof.
  intros Hextract Hmodel Hbuild Hmatch construction.
  assert (Hthird :
    config_is_mapping test_args →
    (∀ key, key ∈ TestBuilder.CONFIG_ARGS → ¬ clash test_args key) →
    construction ≠ Raise SameKeyNestedError ∧
    ∃ config args',
      TestBuilder.legacy_loop (Py.set "model" (VStr model_str) test_args)
        = OK (config, args') ∧
      (∀ key, key ∈ TestBuilder.CONFIG_ARGS →
              Py.get key config = Some (resolved test_args key))).
  { intros Hmap Hclash.
    destruct (legacy_steps_resolved TestBuilder.CONFIG_ARGS []
                (Py.set "model" (VStr model_str) test_args))
      as (config & args' & Hloop & Hin & _).
    - apply NoDup_CONFIG_ARGS.
    - apply config_not_config_arg.
    - unfold config_is_mapping in *. by rewrite get_set_ne.
    - intros key Hkey Hc%clash_set_model; [|done]. by apply (Hclash key).
    - split; [by eapply init_not_same|].
      exists config, args'. split; [done|].
      intros key Hkey. by rewrite (Hin key Hkey), resolved_set_model. }
  split; [|split].
  - intros key v cfg x Hkey Hv Htruthy Hcfg Hx _.
    assert (Hloop :
      TestBuilder.legacy_loop (Py.set "model" (VStr model_str) test_args)
      = Raise SameKeyNestedError).
    { apply (legacy_steps_clash _ key);
        [done | apply config_not_config_arg |].
      apply clash_set_model; [done|]. split.
      - unfold legacy_value. by rewrite Hv.
      - exists cfg. split; [done|]. unfold Py.contains. by rewrite Hx. }
    unfold construction, TestBuilder.__init__, TestBuilder._process_legacy_args.
    rewrite Hextract, ret_bind. cbv beta iota zeta.
    rewrite Hmodel, Hbuild, ret_bind. cbv beta iota zeta.
    by rewrite Hmatch, Hloop.
  - intros Hmap Honce. apply Hthird; [done|].
    intros key Hkey (Htruthy & cfg & Hcfg & Hcontains).
    apply (Honce key cfg Hkey Hcfg). split.
    + apply get_elem_of_keys. unfold legacy_value in Htruthy.
      by destruct (Py.get key test_args).
    + by apply contains_elem_of_keys.
  - intros Hmap Hclash.
    destruct (Hthird Hmap Hclash) as (Hnot & config & args' & Hloop & Hres).
    split; [done|]. exists config, args'. split; [done|]. split; [done|].
    intros key cfg x Hkey Hfalsy Hcfg Hx.
    rewrite (Hres key Hkey). unfold resolved.
    rewrite Hfalsy, Hcfg. unfold legacy_value. by rewrite Hx.
Qed.

Lemma C3_witness :
  TestBuilder.__init__ false render_literal
    (VDict [("unique", VDict [("severity", VStr "warn");
                              ("config", VDict [("severity", VStr "error")])])])
    (UnparsedModelUpdate "orders") "pkg" [] (Some "id") None
  = Raise SameKeyNestedError ∧
  ∃ config args',
    TestBuilder.legacy_loop
      [("severity", VStr ""); ("config", VDict [("severity", VStr "error")]);
       ("column_name", VStr "id");
       ("model", VStr "{{ get_where_subquery(ref('orders')) }}")]
    = OK (config, args') ∧
    Py.get "severity" config = Some (VStr "error").
Proof.
  split.
  - apply (proj1 (C3_config_key_in_two_places false render_literal
              (VDict [("unique",
                       VDict [("severity", VStr "warn");
                              ("config", VDict [("severity", VStr "error")])])])
              (UnparsedModelUpdate "orders") "pkg" [] (Some "id") None
              "unique" _ [] _ None "unique"
              eq_refl eq_refl eq_refl eq_refl)
             "severity" (VStr "warn") [("severity", VStr "error")] (VStr "error"));
      try by vm_compute.
    apply (bool_decide_unpack _). by vm_compute.
  - destruct (C3_config_key_in_two_places false render_literal
                (VDict [("unique",
                         VDict [("severity", VStr "");
                                ("config", VDict [("severity", VStr "error")])])])
                (UnparsedModelUpdate "orders") "pkg" [] (Some "id") None
                "unique" _ [] _ None "unique"
                eq_refl eq_refl eq_refl eq_refl)
      as (_ & _ & Hthird).
    destruct Hthird as (_ & config & args' & Hloop & _ & Hnested).
    + by vm_compute.
    + intros key Hkey [Htruthy _].
      repeat (apply elem_of_cons in Hkey as [->|Hkey];
              [by vm_compute in Htruthy|]).
      by apply elem_of_nil in Hkey.
    + exists config, args'. split; [exact Hloop|].
      apply (Hnested "severity" [("severity", VStr "error")] (VStr "error"));
        try by vm_compute.
      apply (bool_decide_unpack _). by vm_compute.
Defined.

(** ** [extract_test_args] on the store *)

Section StoreProperties.

Import Store.


Lemma extends_refl n h : extends n h h.
Proof. by split. Qed.

Lemma extends_trans n h1 h2 h3 :
  extends n h1 h2 → extends n h2 h3 → extends n h1 h3.
Proof.
  intros [Hl1 H1] [Hl2 H2]. split; [lia|].
  intros r Hr. by rewrite H2, H1.
Qed.

Lemma extends_alloc n h o : n ≤ length h → extends n h (h ++ [o]).
Proof.
  intros Hn. split; [rewrite length_app; lia|].
  intros r Hr. apply lookup_app_l. lia.
Qed.

Lemma extends_write n h r o : n ≤ r → extends n h (<[r := o]> h).
Proof.
  intros Hn. split; [by rewrite length_insert|].
  intros r' Hr. apply list_lookup_insert_ne. lia.
Qed.

Lemma bind_run {A B} (m : M A) (k : A → M B) (h : store) :
  (m ≫= k) h =
  match m h with
  | (OK a, h') => k a h'
  | (Raise e, h') => (Raise e, h')
  end.
Proof. reflexivity. Qed.


Lemma frame_bind {A B} n (m : M A) (k : A → M B) :
  frame n m →
  (∀ h a h', n ≤ length h → m h = (OK a, h') → frame n (k a)) →
  frame n (m ≫= k).
Proof.
  intros Hm Hk h res h' Hn. rewrite bind_run.
  destruct (m h) as [[a|e] h1] eqn:E.
  - intros Hrun. pose proof (Hm _ _ _ Hn E) as Hext.
    eapply extends_trans; [done|].
    eapply (Hk h a h1 Hn E); [|done]. destruct Hext. lia.
  - intros [= <- <-]. by eapply Hm.
Qed.

Lemma frame_pure {A} n (c : M A) :
  (∀ h, (c h).2 = h) → frame n c.
Proof.
  intros Hc h res h' _ Hrun. pose proof (Hc h) as Hh. rewrite Hrun in Hh.
  simpl in Hh. subst. apply extends_refl.
Qed.

Lemma frame_ret {A} n (a : A) : frame n (mret a).
Proof. by apply frame_pure. Qed.

Lemma frame_raise {A} n e : frame n (raise (A := A) e).
Proof. by apply frame_pure. Qed.

Lemma frame_read n r : frame n (read r).
Proof. apply frame_pure. intros h. unfold read. by destruct (h !! r). Qed.

Lemma frame_content_of n r : frame n (content_of r).
Proof. by apply frame_pure. Qed.

Lemma frame_alloc n o : frame n (alloc o).
Proof. intros h res h' Hn [= <- <-]. by apply extends_alloc. Qed.

Lemma frame_write n r o : n ≤ r → frame n (write r o).
Proof. intros Hr h res h' Hn [= <- <-]. by apply extends_write. Qed.

Lemma alloc_ref n o h y h' : n ≤ length h → alloc o h = (OK y, h') → n ≤ y.
Proof. by intros Hn [= <- <-]. Qed.

Lemma frame_copy_items n copy :
  (∀ m x, frame n (copy m x)) → ∀ items m, frame n (copy_items copy items m).
Proof.
  intros Hcopy items. induction items as [|x items IH]; intros m.
  - apply frame_ret.
  - cbn [copy_items]. apply frame_bind; [apply Hcopy|].
    intros h [y m1] h1 _ _. apply frame_bind; [apply IH|].
    intros h2 [ys m2] h3 _ _. apply frame_ret.
Qed.

Lemma frame_deepcopy n fuel : ∀ m x, frame n (deepcopy fuel m x).
Proof.
  induction fuel as [|fuel IH]; intros m x; [apply frame_raise|].
  cbn [deepcopy]. destruct (copied x m); [apply frame_ret|].
  apply frame_bind; [apply frame_read|].
  intros h o h1 _ _.
  destruct o; try apply frame_ret.
  - apply frame_bind; [apply frame_alloc|].
    intros h2 y h3 Hn Hy%(alloc_ref n); [|done].
    apply frame_bind; [by apply frame_copy_items|].
    intros h4 [items' m1] h5 _ _.
    apply frame_bind; [by apply frame_write|]. intros. apply frame_ret.
  - apply frame_bind; [by apply frame_copy_items|].
    intros h2 [items' m1] h3 _ _.
    destruct (copied x m1); [apply frame_ret|].
    case_decide; [apply frame_ret|].
    apply frame_bind; [apply frame_alloc|]. intros. apply frame_ret.
  - apply frame_bind; [apply frame_alloc|].
    intros h2 y h3 Hn Hy%(alloc_ref n); [|done].
    apply frame_bind; [by apply frame_copy_items|].
    intros h4 [items' m1] h5 _ _.
    apply frame_bind; [by apply frame_write|]. intros. apply frame_ret.
Qed.

Lemma frame_after_copy n flag test_name y name :
  n ≤ y → frame n (after_copy flag test_name y name).
Proof.
  intros Hy. unfold after_copy.
  apply frame_bind.
  { destruct name as [name|]; [|apply frame_ret].
    apply frame_bind; [apply frame_alloc|]. intros.
    apply frame_bind; [apply frame_read|]. intros ? copy **.
    destruct copy; try apply frame_ret. by apply frame_write. }
  intros. destruct flag; [|apply frame_ret].
  apply frame_bind; [apply frame_read|]. intros ? copy **.
  apply frame_bind.
  { destruct (get "arguments" _); [|apply frame_alloc].
    apply frame_bind; [by apply frame_write|]. intros. apply frame_ret. }
  intros. apply frame_bind; [apply frame_read|]. intros ? arguments **.
  destruct arguments; try apply frame_raise.
  apply frame_bind; [apply frame_alloc|]. intros. apply frame_ret.
Qed.

Lemma deepcopy_fresh fuel x items h y m h' :
  h !! x = Some (ODict items) →
  deepcopy (S fuel) [] x h = (OK (y, m), h') → y = length h.
Proof.
  intros Hx. cbn [deepcopy copied]. rewrite bind_run. unfold read at 1.
  rewrite Hx. rewrite bind_run. cbn [alloc].
  rewrite bind_run.
  destruct (copy_items _ _ _ _) as [[[refs m1]|e] h1]; [|done].
  rewrite bind_run. cbn [write]. by intros [= <- _ _].
Qed.

(** The copy and what follows it write to new objects only. *)
Lemma frame_copy_and_after flag test_name x items name h res h' :
  h !! x = Some (ODict items) →
  ('(test_args, _) ← deepcopy (S (length h)) [] x;
   after_copy flag test_name test_args name) h = (res, h') →
  extends (length h) h h'.
Proof.
  intros Hx. rewrite bind_run.
  destruct (deepcopy _ _ _ _) as [[[y m]|e] h1] eqn:Ecopy.
  - intros Hafter.
    pose proof (frame_deepcopy (length h) _ _ _ _ _ _ (le_n _) Ecopy) as Hext.
    apply deepcopy_fresh with (items := items) in Ecopy as ->; [|done].
    eapply extends_trans; [done|].
    eapply (frame_after_copy (length h)); [done| |done]. by destruct Hext.
  - intros [= <- <-].
    by apply (frame_deepcopy (length h) _ _ _ _ _ _ (le_n _) Ecopy).
Qed.

(** C10, on the code.  When the caller's declaration has the key
    [test_name], the call removes that key from the caller's mapping:
    whether the call returns or raises, the object the caller passed holds
    the remaining items afterwards. *)
Theorem C10_test_name_is_popped_from_the_declaration (flag : bool) (h : store) (data_test : ref)
    (items : list (string * ref)) (test_name : ref) (name : option string) :
  h !! data_test = Some (ODict items) →
  get "test_name" items = Some test_name →
  (extract_test_args flag data_test name h).2 !! data_test
  = Some (ODict (remove "test_name" items)).
Proof.
  intros Hdata Hname.
  assert (Hlt : data_test < length h) by (by eapply lookup_lt_Some).
  unfold extract_test_args. rewrite bind_run. unfold read at 1. rewrite Hdata.
  rewrite Hname. rewrite bind_run, bind_run. cbn [write].
  set (h1 := <[data_test := ODict (remove "test_name" items)]> h).
  assert (H1 : h1 !! data_test = Some (ODict (remove "test_name" items))).
  { by apply list_lookup_insert_eq. }
  rewrite bind_run. unfold read at 1.
  destruct (h1 !! test_name) as [name_obj|]; [|done].
  rewrite bind_run. cbn [content_of]. cbv beta iota zeta.
  unfold mret at 1, M_ret at 1. cbv beta iota zeta.
  rewrite bind_run. unfold read at 1. rewrite H1.
  destruct name_obj; try done.
  rewrite bind_run.
  match goal with
  | |- (?c h1).2 !! _ = _ => destruct (c h1) as [res h'] eqn:Erun
  end.
  apply (frame_copy_and_after flag s data_test
           (remove "test_name" items) name) in Erun; [|done].
  destruct Erun as [_ Hsame]. cbn [snd]. rewrite Hsame; [done|].
  unfold h1. by rewrite length_insert.
Qed.

(** X19.  A declaration without the key [test_name] is left as it was, with
    every object the store held before the call. *)
Lemma extract_test_args_frame_shape_b (flag : bool) (h : store) (data_test : ref)
    (items : list (string * ref)) (name : option string) :
  h !! data_test = Some (ODict items) →
  get "test_name" items = None →
  ∀ r, r < length h →
       (extract_test_args flag data_test name h).2 !! r = h !! r.
Proof.
  intros Hdata Hname.
  unfold extract_test_args. rewrite bind_run. unfold read at 1. rewrite Hdata.
  rewrite Hname, bind_run.
  destruct items as [|[test_name test_args] [|]]; try done.
  unfold mret at 1, M_ret at 1. cbv beta iota zeta.
  rewrite bind_run. unfold read at 1.
  destruct (h !! test_args) as [args_obj|] eqn:Hargs; [|done].
  destruct args_obj; try done.
  rewrite bind_run.
  match goal with
  | |- ∀ r, _ → (?c h).2 !! _ = _ => destruct (c h) as [res h'] eqn:Erun
  end.
  apply (frame_copy_and_after flag test_name test_args items name) in Erun;
    [|done].
  destruct Erun as [_ Hsame]. intros r Hr. cbn [snd]. by apply Hsame.
Qed.

Lemma C10_witness :
  (extract_test_args false 3 None declaration_with_test_name).2 !! 3
  = Some (ODict [("values", 2)]).
Proof.
  apply (C10_test_name_is_popped_from_the_declaration false
           declaration_with_test_name 3
           [("test_name", 0); ("values", 2)] 0 None); reflexivity.
Defined.

(** On this declaration the arguments returned on the store have the content
    that [TestBuilder.extract_test_args] returns. *)
Example extract_test_args_agree :
  content 3 (extract_test_args false 3 None declaration_with_test_name).2 4
  = VDict [("values", VList [VStr "a"])] ∧
  TestBuilder.extract_test_args false
    (content 3 declaration_with_test_name 3) None
  = OK ("unique", [("values", VList [VStr "a"])], []).
Proof. split; reflexivity. Qed.

Example extract_test_args_with_test_name :
  extract_test_args false 3 None declaration_with_test_name
  = (OK ("unique", 4),
     [OStr "unique"; OStr "a"; OList [1]; ODict [("values", 2)];
      ODict [("values", 5)]; OList [1]]).
Proof. reflexivity. Qed.

End StoreProperties.

(** * Further properties of the module *)

(** ** The test name pattern on well-formed tokens *)

Lemma all_chars_append (p : ascii → bool) (s1 s2 : string) :
  all_chars p (s1 +:+ s2) = (all_chars p s1 && all_chars p s2)%bool.
Proof.
  induction s1 as [|c s1 IH]; [done|].
  rewrite append_cons. cbn [all_chars]. by rewrite IH, andb_assoc.
Qed.

Lemma word_chars_spec (s : string) :
  s = (Re.word_chars s).1 +:+ (Re.word_chars s).2 ∧
  all_chars Re.word_char (Re.word_chars s).1 = true ∧
  stops (Re.word_chars s).2 = true.
Proof.
  induction s as [|c s (IH1 & IH2 & IH3)]; [done|].
  cbn [Re.word_chars]. destruct (Re.word_char c) eqn:Hc.
  - destruct (Re.word_chars s) as [m after]. cbn [fst snd] in *.
    rewrite append_cons, <- IH1. cbn [all_chars]. by rewrite Hc, IH2.
  - cbn [fst snd stops]. by rewrite Hc.
Qed.

Lemma word_chars_append (m after : string) :
  all_chars Re.word_char m = true → stops after = true →
  Re.word_chars (m +:+ after) = (m, after).
Proof.
  intros Hm Hafter. induction m as [|c m IH].
  - rewrite append_nil_l. destruct after as [|c after]; [done|].
    cbn [Re.word_chars]. cbn [stops] in Hafter.
    by destruct (Re.word_char c).
  - cbn [all_chars] in Hm. apply andb_prop in Hm as [Hc Hm].
    rewrite append_cons. cbn [Re.word_chars]. by rewrite Hc, (IH Hm).
Qed.

Lemma identifier_append (a after : string) :
  is_identifier a = true → stops after = true →
  Re.identifier (a +:+ after) = Some (a, after).
Proof.
  destruct a as [|c a]; [done|]. cbn [is_identifier].
  intros [Hc Ha]%andb_prop Hafter.
  rewrite append_cons. cbn [Re.identifier].
  by rewrite Hc, (word_chars_append _ _ Ha Hafter).
Qed.

Lemma identifier_spec (s a after : string) :
  Re.identifier s = Some (a, after) →
  s = a +:+ after ∧ is_identifier a = true ∧ stops after = true.
Proof.
  destruct s as [|c s]; [done|]. cbn [Re.identifier].
  destruct (Re.head_char c) eqn:Hc; [|done].
  destruct (word_chars_spec s) as (H1 & H2 & H3).
  destruct (Re.word_chars s) as [m after']. cbn [fst snd] in *.
  intros [= <- <-]. cbn [is_identifier]. rewrite Hc, H2, append_cons.
  by rewrite <- H1.
Qed.

Lemma stops_dot (s : string) : stops (String "."%char s) = true.
Proof. reflexivity. Qed.

Lemma pattern_match_namespaced (namespace name after : string) :
  is_identifier namespace = true → is_identifier name = true →
  stops after = true →
  TestBuilder.TEST_NAME_PATTERN_match (namespace +:+ "." +:+ name +:+ after)
  = Some (Some namespace, name).
Proof.
  intros Hns Hname Hafter. unfold TestBuilder.TEST_NAME_PATTERN_match.
  rewrite (identifier_append namespace) by done.
  change ("." +:+ name +:+ after) with (String "."%char (name +:+ after)).
  cbv beta iota. by rewrite (identifier_append name).
Qed.

Lemma pattern_match_plain (name : string) :
  is_identifier name = true →
  TestBuilder.TEST_NAME_PATTERN_match name = Some (None, name).
Proof.
  intros Hname. unfold TestBuilder.TEST_NAME_PATTERN_match.
  rewrite <- (append_nil_r name) at 1.
  by rewrite (identifier_append name "").
Qed.

(** X1.  [TEST_NAME_PATTERN] on well-formed tokens: for two identifiers
    joined by a dot the pattern gives the first as [test_namespace] and the
    second as [test_name], whatever follows the second identifier (as long
    as it does not continue it); for one identifier alone it gives this
    identifier as [test_name] and no namespace. *)
Theorem pattern_parses_well_formed_tokens (namespace name after : string) :
  is_identifier namespace = true → is_identifier name = true →
  stops after = true →
  TestBuilder.TEST_NAME_PATTERN_match (namespace +:+ "." +:+ name +:+ after)
    = Some (Some namespace, name) ∧
  TestBuilder.TEST_NAME_PATTERN_match name = Some (None, name).
Proof.
  intros Hns Hname Hafter. split.
  - by apply pattern_match_namespaced.
  - by apply pattern_match_plain.
Qed.

(** X2.  What a match of [TEST_NAME_PATTERN] gives is a prefix of the token:
    the name is an identifier, the namespace (when there is one) is an
    identifier followed by a dot, and the token is namespace, dot and name,
    or the name alone, followed by text that does not continue the name.
    Nothing of the token is skipped or changed. *)
Theorem pattern_match_is_a_prefix (test_name : string)
    (namespace : option string) (name : string) :
  TestBuilder.TEST_NAME_PATTERN_match test_name = Some (namespace, name) →
  is_identifier name = true ∧
  match namespace with
  | Some namespace =>
      is_identifier namespace = true ∧
      ∃ after, test_name = namespace +:+ "." +:+ name +:+ after ∧
               stops after = true
  | None => ∃ after, test_name = name +:+ after ∧ stops after = true
  end.
Proof.
  unfold TestBuilder.TEST_NAME_PATTERN_match.
  destruct (Re.identifier test_name) as [[first after]|] eqn:E1; [|done].
  apply identifier_spec in E1 as (-> & Hfirst & Hafter).
  assert (Hnone : is_identifier first = true ∧
                  ∃ after0, first +:+ after = first +:+ after0 ∧
                            stops after0 = true) by eauto.
  destruct after as [|c after']; [by intros [= <- <-]|].
  destruct (Ascii.eqb_spec c "."%char) as [->|Hne].
  - destruct (Re.identifier after') as [[second rest]|] eqn:E2.
    + intros [= <- <-].
      apply identifier_spec in E2 as (-> & Hsecond & Hrest).
      split; [done|]. split; [done|]. by exists rest.
    + by intros [= <- <-].
  - destruct c as [[] [] [] [] [] [] [] []]; try (by intros [= <- <-]).
    done.
Qed.


(** ** The characters of the synthesized names *)

Lemma sub_from_word_chars (in_match : bool) (arg : string) :
  all_chars Re.word_char (Re.sub_from in_match arg) = true.
Proof.
  revert in_match. induction arg as [|c arg IH]; intros in_match; [done|].
  cbn [Re.sub_from]. destruct (Re.word_char c) eqn:Hc.
  - cbn [all_chars]. by rewrite Hc, IH.
  - destruct in_match; [apply IH|]. cbn [all_chars]. by rewrite IH.
Qed.

Lemma sub_from_clean (in_match : bool) (arg : string) :
  all_chars Re.word_char arg = true → Re.sub_from in_match arg = arg.
Proof.
  revert in_match. induction arg as [|c arg IH]; intros in_match; [done|].
  cbn [all_chars Re.sub_from]. intros [Hc Harg]%andb_prop.
  by rewrite Hc, IH.
Qed.

(** X3.  [re.sub] with the class [[^0-9a-zA-Z_]+] and the replacement [_]
    returns characters of [[0-9a-zA-Z_]] only, returns an argument of such
    characters as it is, and gives the same result when applied twice. *)
Theorem sub_leaves_word_characters_only (arg : string) :
  all_chars Re.word_char (Re.sub arg) = true ∧
  (all_chars Re.word_char arg = true → Re.sub arg = arg) ∧
  Re.sub (Re.sub arg) = Re.sub arg.
Proof.
  split; [apply sub_from_word_chars|]. split; [apply sub_from_clean|].
  apply sub_from_clean, sub_from_word_chars.
Qed.

Lemma all_chars_join (p : ascii → bool) (sep : string) (l : list string) :
  all_chars p sep = true → Forall (λ s, all_chars p s = true) l →
  all_chars p (Py.join sep l) = true.
Proof.
  intros Hsep. induction 1 as [|s l Hs Hl IH]; [done|].
  destruct l as [|s' l]; [done|].
  change (Py.join sep (s :: s' :: l)) with (s +:+ sep +:+ Py.join sep (s' :: l)).
  by rewrite !all_chars_append, Hs, Hsep, IH.
Qed.

Lemma all_chars_impl (p q : ascii → bool) (s : string) :
  (∀ c, p c = true → q c = true) →
  all_chars p s = true → all_chars q s = true.
Proof.
  intros Hpq. induction s as [|c s IH]; [done|]. cbn [all_chars].
  intros [Hc Hs]%andb_prop. by rewrite (Hpq c Hc), IH.
Qed.

Lemma is_hex_word_char (c : ascii) : is_hex c = true → Re.word_char c = true.
Proof. destruct c as [[] [] [] [] [] [] [] []]; by vm_compute. Qed.

Lemma all_chars_slice_to (p : ascii → bool) (n : nat) (s : string) :
  all_chars p s = true → all_chars p (slice_to n s) = true.
Proof.
  unfold slice_to. revert s. induction n as [|n IH]; intros [|c s]; try done.
  cbn [all_chars String.substring]. intros [Hc Hs]%andb_prop.
  by rewrite Hc, IH.
Qed.

(** X4.  When the test type and the test name have characters of
    [[0-9a-zA-Z_]] only, so have both names that
    [synthesize_generic_test_names] returns, whatever the arguments are. *)
Theorem names_have_word_characters_only
    (test_type test_name : string) (args : dict) :
  all_chars Re.word_char test_type = true →
  all_chars Re.word_char test_name = true →
  let names := synthesize_generic_test_names test_type test_name args in
  all_chars Re.word_char names.1 = true ∧
  all_chars Re.word_char names.2 = true.
Proof.
  intros Htype Hname.
  assert (Hfull : all_chars Re.word_char
            ((test_type +:+ "_" +:+ test_name) +:+ "_" +:+
             Py.join "__"
               (map Re.sub
                  (fold_left (flat_args_step args) (sorted (Py.keys args)) [])))
            = true).
  { rewrite !all_chars_append, Htype, Hname. cbn [andb].
    change (all_chars Re.word_char "_") with true. cbn [andb].
    apply all_chars_join; [done|].
    apply Forall_forall. intros s (arg & -> & _)%list_elem_of_fmap.
    apply sub_from_word_chars. }
  unfold synthesize_generic_test_names. cbn zeta.
  destruct (64 <=? _)%nat; cbn [fst snd]; (split; [|done]); [|done].
  rewrite !all_chars_append.
  rewrite all_chars_slice_to
    by (by rewrite !all_chars_append, Htype, Hname).
  change (all_chars Re.word_char "_") with true. cbn [andb].
  apply (all_chars_impl is_hex); [apply is_hex_word_char | apply all_hex_md5].
Qed.

(** ** The [model] argument and the names *)

Lemma keys_set_model (v : value) (args : dict) :
  filter (λ k, k ≠ "model") (Py.keys (Py.set "model" v args))
  = filter (λ k, k ≠ "model") (Py.keys args).
Proof.
  unfold Py.keys. induction args as [|[k0 v0] args IH].
  - cbn [Py.set map fst]. by rewrite filter_cons_False by (intros H; by apply H).
  - cbn [Py.set]. destruct (String.eqb_spec "model" k0) as [<-|Hne]; [done|].
    cbn [map fst]. rewrite !filter_cons. by rewrite IH.
Qed.

Lemma filter_sorted_Permutation (l1 l2 : list string) :
  filter (λ k, k ≠ "model") l1 ≡ₚ filter (λ k, k ≠ "model") l2 →
  filter (λ k, k ≠ "model") (sorted l1) = filter (λ k, k ≠ "model") (sorted l2).
Proof.
  intros Hperm. apply (StronglySorted_unique String.le).
  - apply StronglySorted_filter, StronglySorted_merge_sort; apply _.
  - apply StronglySorted_filter, StronglySorted_merge_sort; apply _.
  - unfold sorted. by rewrite !merge_sort_Permutation.
Qed.

(** X5.  The argument [model] has no part in the names: setting it, to any
    value, gives the names of the arguments without it. *)
Theorem names_do_not_depend_on_the_model_argument
    (test_type test_name : string) (args : dict) (v : value) :
  synthesize_generic_test_names test_type test_name (Py.set "model" v args)
  = synthesize_generic_test_names test_type test_name args.
Proof.
  unfold synthesize_generic_test_names. rewrite !flat_args_loop.
  rewrite (filter_sorted_Permutation (Py.keys (Py.set "model" v args))
             (Py.keys args)) by (by rewrite keys_set_model).
  assert (Hmap : ∀ l : list string,
    flat_map (λ k, match Py.get k (Py.set "model" v args) with
                   | Some v0 => map Py.str (parts v0)
                   | None => []
                   end) (filter (λ k, k ≠ "model") l)
    = flat_map (λ k, match Py.get k args with
                     | Some v0 => map Py.str (parts v0)
                     | None => []
                     end) (filter (λ k, k ≠ "model") l)).
  { induction l as [|k l IH]; [done|]. rewrite filter_cons.
    case_decide; [|done]. cbn [flat_map]. by rewrite IH, get_set_ne. }
  by rewrite Hmap.
Qed.

(** ** Dictionaries with distinct keys *)

Lemma keys_remove_subseteq (k : string) (d : dict) :
  Py.keys (Py.remove k d) ⊆ Py.keys d.
Proof.
  induction d as [|[k0 v0] d IH]; [done|]. cbn [Py.remove].
  destruct (String.eqb k k0).
  - cbn [Py.keys map fst]. by apply list_subseteq_cons.
  - cbn [Py.keys map fst]. intros x [->|Hx]%elem_of_cons; [by left|].
    right. by apply IH.
Qed.

Lemma NoDup_keys_remove (k : string) (d : dict) :
  NoDup (Py.keys d) → NoDup (Py.keys (Py.remove k d)).
Proof.
  induction d as [|[k0 v0] d IH]; [done|]. cbn [Py.remove Py.keys map fst].
  intros [Hk0 Hd]%NoDup_cons. destruct (String.eqb k k0); [done|].
  cbn [map fst]. apply NoDup_cons. split; [|by apply IH].
  intros Hin. apply Hk0. by apply (keys_remove_subseteq k d).
Qed.

Lemma get_remove_eq (k : string) (d : dict) :
  NoDup (Py.keys d) → Py.get k (Py.remove k d) = None.
Proof.
  induction d as [|[k0 v0] d IH]; [done|]. cbn [Py.remove Py.keys map fst].
  intros [Hk0 Hd]%NoDup_cons. destruct (String.eqb_spec k k0) as [->|Hne].
  - destruct (Py.get k0 d) eqn:E; [|done].
    destruct Hk0. apply get_elem_of_keys. by eexists.
  - cbn [Py.get]. destruct (String.eqb_spec k k0); [done|]. by apply IH.
Qed.

Lemma keys_set (k : string) (v : value) (d : dict) :
  Py.keys (Py.set k v d)
  = if Py.contains k d then Py.keys d else Py.keys d ++ [k].
Proof.
  unfold Py.contains, Py.keys. induction d as [|[k0 v0] d IH]; [done|].
  cbn [Py.set Py.get]. destruct (String.eqb_spec k k0) as [->|Hne]; [done|].
  cbn [map fst]. rewrite IH. by destruct (Py.get k d).
Qed.

Lemma NoDup_keys_set (k : string) (v : value) (d : dict) :
  NoDup (Py.keys d) → NoDup (Py.keys (Py.set k v d)).
Proof.
  intros Hd. rewrite keys_set. destruct (Py.contains k d) eqn:E; [done|].
  apply NoDup_app. split; [done|]. split; [|apply NoDup_singleton].
  intros x Hx ->%list_elem_of_singleton.
  apply contains_elem_of_keys in Hx. congruence.
Qed.

(** ** The arguments after the legacy loop *)

Lemma legacy_step_args (config args config' args' : dict) (key : string) :
  TestBuilder.legacy_step (config, args) key = OK (config', args') →
  args' = Py.remove key args ∨
  ∃ nested, args' = Py.set "config" nested (Py.remove key args).
Proof.
  unfold TestBuilder.legacy_step. rewrite pop_spec. intros H.
  bind_inv H. destruct a; [done|].
  bind_inv H. destruct a as [value' args2]. injection H as _ <-.
  destruct (negb _); [|injection E0 as _ <-; by left].
  destruct (Py.get "config" _) as [nested|]; [|injection E0 as _ <-; by left].
  bind_inv E0. destruct a as [v nested']. injection E0 as _ <-.
  right. by exists nested'.
Qed.

Lemma legacy_steps_removed (keys : list string) (st st' : dict * dict) :
  for_each TestBuilder.legacy_step keys st = OK st' →
  "config" ∉ keys → NoDup (Py.keys st.2) →
  NoDup (Py.keys st'.2) ∧ ∀ k, k ∈ keys → Py.get k st'.2 = None.
Proof.
  revert st. induction keys as [|key keys IH]; intros [c a] H Hc Hnd.
  - injection H as <-. split; [done|]. by intros k ?%elem_of_nil.
  - cbn [for_each] in H. bind_inv H. destruct a0 as [c1 a1].
    apply not_elem_of_cons in Hc as [Hkey Hc].
    assert (Ha1 : NoDup (Py.keys a1) ∧ Py.get key a1 = None).
    { destruct (legacy_step_args _ _ _ _ _ E) as [->|[nested ->]].
      - split; [by apply NoDup_keys_remove | by apply get_remove_eq].
      - split; [by apply NoDup_keys_set, NoDup_keys_remove|].
        rewrite get_set_ne by done. by apply get_remove_eq. }
    destruct Ha1 as [Hnd1 Hkey1].
    destruct (IH _ H Hc Hnd1) as [Hnd' Hnone]. split; [done|].
    intros k [->|Hk]%elem_of_cons; [|by apply Hnone].
    destruct (decide (key ∈ keys)) as [Hin|Hout]; [by apply Hnone|].
    by rewrite (legacy_steps_get _ _ _ key H Hout).
Qed.

Section Stages.

Variable flag : bool.
Variable get_rendered : string -> dict -> rendering.

(** Every stage of a construction that succeeds. *)
Lemma init_stages data_test target package_name render_ctx column_name
    version tb :
  TestBuilder.__init__ flag get_rendered data_test target package_name
    render_ctx column_name version = OK tb →
  ∃ test_name test_args warned model_str config0 args1 legacy nested args2,
    TestBuilder.extract_test_args flag data_test column_name
      = OK (test_name, test_args, warned) ∧
    Py.contains "model" test_args = false ∧
    TestBuilder.build_model_str target version = OK model_str ∧
    TestBuilder.TEST_NAME_PATTERN_match test_name
      = Some (TestBuilder.namespace tb, TestBuilder.name tb) ∧
    TestBuilder.legacy_loop (Py.set "model" (VStr model_str) test_args)
      = OK (config0, args1) ∧
    TestBuilder._render_values get_rendered target column_name
      (TestBuilder.name tb) render_ctx config0 = OK legacy ∧
    ((Py.contains "config" args1 = false ∧ nested = [] ∧ args2 = args1) ∨
     (∃ raw, Py.pop "config" (VDict []) args1 = (VDict raw, args2) ∧
             TestBuilder._render_values get_rendered target column_name
               (TestBuilder.name tb) render_ctx raw = OK nested)) ∧
    TestBuilder.package_name tb
      = default package_name (TestBuilder.namespace tb) ∧
    TestBuilder.description tb
      = default (VStr "") (Py.get "description" args2) ∧
    let config1 := Py.update (Py.update [] legacy) nested in
    let args3 := Py.remove "description" args2 in
    match Py.get "name" args3 with
    | Some user_name =>
        TestBuilder.compiled_name tb = user_name ∧
        TestBuilder.fqn_name tb = user_name ∧
        TestBuilder.args tb = Py.remove "name" args3 ∧
        TestBuilder.config tb = config1
    | None =>
        ∃ short_name full_name,
          TestBuilder.get_synthetic_test_names target version
            (TestBuilder.name tb) (TestBuilder.namespace tb) args3
            = OK (short_name, full_name) ∧
          TestBuilder.compiled_name tb = VStr short_name ∧
          TestBuilder.fqn_name tb = VStr full_name ∧
          TestBuilder.args tb = args3 ∧
          TestBuilder.config tb
          = if (negb (String.eqb short_name full_name)
                && negb (Py.contains "alias" config1))%bool
            then Py.set "alias" (VStr short_name) config1
            else config1
    end.
Proof.
  unfold TestBuilder.__init__, TestBuilder._process_legacy_args. intros H.
  bind_inv H. destruct a as [[test_name test_args] warned].
  destruct (Py.contains "model" test_args) eqn:Emodel; [done|].
  bind_inv H. rename a into model_str.
  destruct (TestBuilder.TEST_NAME_PATTERN_match test_name)
    as [[namespace name]|] eqn:Ematch; [|done].
  bind_inv H. destruct a as [legacy args1].
  bind_inv E1. destruct a as [config0 args1_]. bind_inv E1.
  assert (a = legacy ∧ args1_ = args1) as [-> ->] by (by inversion E1).
  clear E1.
  bind_inv H. destruct a as [config1 args2].
  assert (Hnested : ∃ nested,
    config1 = Py.update (Py.update [] legacy) nested ∧
    ((Py.contains "config" args1 = false ∧ nested = [] ∧ args2 = args1) ∨
     (∃ raw, Py.pop "config" (VDict []) args1 = (VDict raw, args2) ∧
             TestBuilder._render_values get_rendered target column_name
               name render_ctx raw = OK nested))).
  { destruct (Py.contains "config" args1) eqn:Econfig.
    - destruct (Py.pop "config" (VDict []) args1) as [raw args] eqn:Epop.
      destruct raw; try done. bind_inv E1.
      assert (Py.update (Py.update [] legacy) a = config1 ∧ args = args2)
        as [<- ->] by (by inversion E1).
      exists a. split; [done|]. right. by exists d.
    - assert (Py.update [] legacy = config1 ∧ args1 = args2)
        as [<- <-] by (by inversion E1).
      exists []. split; [done|]. by left. }
  destruct Hnested as (nested & -> & Hnested).
  assert (Hargs3 : ∀ d : dict,
    match Py.get "description" d with
    | Some description => (description, Py.remove "description" d)
    | None => (VStr "", d)
    end = (default (VStr "") (Py.get "description" d),
           Py.remove "description" d)).
  { intros d. destruct (Py.get "description" d) eqn:Ed; [done|].
    by rewrite remove_absent. }
  rewrite Hargs3 in H. cbv beta iota zeta in H.
  destruct (Py.get "name" _) as [user_name|] eqn:Ename.
  - injection H as <-.
    exists test_name, test_args, warned, model_str, config0, args1, legacy,
      nested, args2.
    cbn. rewrite Ename. by repeat split.
  - bind_inv H. destruct a as [short_name full_name]. injection H as <-.
    exists test_name, test_args, warned, model_str, config0, args1, legacy,
      nested, args2.
    cbn. rewrite Ename. repeat split; try done.
    by exists short_name, full_name.
Qed.

End Stages.

(** ** [_render_values] *)

Lemma for_each_Raise_elem {S A} (body : S → A → result S) (xs : list A)
    (st : S) (e : error) :
  for_each body xs st = Raise e → ∃ st' x, x ∈ xs ∧ body st' x = Raise e.
Proof.
  revert st. induction xs as [|x xs IH]; intros st H; [done|].
  simpl in H. destruct (body st x) as [st'|e'] eqn:E.
  - destruct (IH st' H) as (st'' & y & Hy & Hraise).
    exists st'', y. split; [by right | done].
  - injection H as ->. exists st, x. split; [by left | done].
Qed.

Section Rendering.

Variable get_rendered : string -> dict -> rendering.
Variables (target : Testable) (column_name : option string) (name : string).
Variable render_ctx : dict.

#[local] Abbreviation render_values :=
  (TestBuilder._render_values get_rendered target column_name name render_ctx).
#[local] Abbreviation render_step :=
  (TestBuilder.render_step get_rendered target column_name name render_ctx).

Lemma render_step_OK (rendered rendered' : dict) (key : string) (v : value) :
  render_step rendered (key, v) = OK rendered' →
  rendered' = match rendered_entry get_rendered render_ctx v with
              | Some v' => Py.set key v' rendered
              | None => rendered
              end.
Proof.
  unfold TestBuilder.render_step, rendered_entry.
  destruct v; try (by intros [= <-]).
  destruct (get_rendered s render_ctx) as [v'| |]; [|done..].
  by destruct v'; intros [= <-].
Qed.

Lemma rendered_entry_not_None (v v' : value) :
  rendered_entry get_rendered render_ctx v = Some v' → v' ≠ VNone.
Proof.
  unfold rendered_entry. destruct v; try (by intros [= <-]).
  destruct (get_rendered s render_ctx) as [v0| |]; [|done..].
  by destruct v0; intros [= <-].
Qed.

Lemma render_steps_spec (config acc rendered : dict) :
  for_each render_step config acc = OK rendered →
  NoDup (Py.keys config) →
  (∀ k, k ∈ Py.keys config → Py.get k acc = None) →
  ∀ k, Py.get k rendered
       = match Py.get k config with
         | Some v => rendered_entry get_rendered render_ctx v
         | None => Py.get k acc
         end.
Proof.
  revert acc. induction config as [|[k0 v0] config IH]; intros acc H Hnd Hacc k.
  - by injection H as <-.
  - cbn [for_each] in H. bind_inv H. apply render_step_OK in E.
    cbn [Py.keys map fst] in Hnd. apply NoDup_cons in Hnd as [Hk0 Hnd].
    assert (Hk0' : Py.get k0 config = None).
    { destruct (Py.get k0 config) eqn:Eget; [|done].
      destruct Hk0. apply get_elem_of_keys. by eexists. }
    rewrite (IH a H Hnd).
    + cbn [Py.get]. destruct (String.eqb_spec k k0) as [->|Hne].
      * rewrite Hk0', E.
        destruct (rendered_entry _ _ v0); [apply get_set_eq|].
        apply Hacc. by left.
      * destruct (Py.get k config); [done|]. rewrite E.
        destruct (rendered_entry _ _ v0); [by apply get_set_ne | done].
    + intros k' Hk'. rewrite E.
      assert (k' ≠ k0) by (by intros ->).
      destruct (rendered_entry _ _ v0); [rewrite get_set_ne by done|];
        apply Hacc; by right.
Qed.

(** X6.  What [_render_values] returns, key by key: an entry for every key
    of the config whose value is not [None] and, for a string, does not
    render to [None]; the value is the rendered one for a string and the
    value itself otherwise; there is no other entry. *)
Theorem render_values_spec (config rendered : dict) :
  render_values config = OK rendered →
  NoDup (Py.keys config) →
  ∀ k, Py.get k rendered
       = Py.get k config ≫= rendered_entry get_rendered render_ctx.
Proof.
  intros H Hnd k.
  rewrite (render_steps_spec config [] rendered H Hnd) by done.
  by destruct (Py.get k config).
Qed.

Lemma render_steps_no_None (config acc rendered : dict) :
  for_each render_step config acc = OK rendered →
  Forall (λ kv, kv.2 ≠ VNone) acc → Forall (λ kv, kv.2 ≠ VNone) rendered.
Proof.
  revert acc. induction config as [|[k0 v0] config IH]; intros acc H Hacc.
  - by injection H as <-.
  - cbn [for_each] in H. bind_inv H. apply render_step_OK in E.
    apply (IH a H). rewrite E.
    destruct (rendered_entry _ _ v0) as [v'|] eqn:Ev; [|done].
    apply rendered_entry_not_None in Ev.
    clear -Hacc Ev. induction acc as [|[k1 v1] acc IH]; cbn [Py.set].
    + by repeat constructor.
    + apply Forall_cons in Hacc as [H1 Hacc].
      destruct (String.eqb k0 k1); constructor; auto.
Qed.

Lemma render_values_no_None (config rendered : dict) :
  render_values config = OK rendered → Forall (λ kv, kv.2 ≠ VNone) rendered.
Proof. intros H. by apply (render_steps_no_None config [] rendered H). Qed.

Lemma render_values_Raise_inv (config : dict) (e : error) :
  render_values config = Raise e →
  ∃ key s msg,
    (key, VStr s) ∈ config ∧
    ((get_rendered s render_ctx = UndefinedMacroError msg ∧
      e = CustomMacroPopulatingConfigValueError
            (TestBuilder.target_name target) column_name name key msg) ∨
     (get_rendered s render_ctx = OtherTemplateError msg ∧
      e = TemplateError msg)).
Proof.
  intros (acc & [key v] & Hin & Hstep)%for_each_Raise_elem.
  unfold TestBuilder.render_step in Hstep.
  destruct v; try done.
  destruct (get_rendered s render_ctx) as [v'|msg|msg] eqn:Es.
  - by destruct v'.
  - injection Hstep as <-. exists key, s, msg. split; [done|]. by left.
  - injection Hstep as <-. exists key, s, msg. split; [done|]. by right.
Qed.

(** X7.  [_render_values] raises only for a string value that the templating
    engine fails on: an undefined macro is reported as
    [CustomMacroPopulatingConfigValueError] with the target's name, the
    column, the test's name, the key and the engine's message, any other
    failure of the engine goes through as it is; and when every string
    value renders, [_render_values] returns. *)
Theorem render_values_raises (config : dict) :
  (∀ e, render_values config = Raise e →
        ∃ key s msg,
          (key, VStr s) ∈ config ∧
          ((get_rendered s render_ctx = UndefinedMacroError msg ∧
            e = CustomMacroPopulatingConfigValueError
                  (TestBuilder.target_name target) column_name name key msg) ∨
           (get_rendered s render_ctx = OtherTemplateError msg ∧
            e = TemplateError msg))) ∧
  ((∀ key s, (key, VStr s) ∈ config →
             ∃ v, get_rendered s render_ctx = Rendered v) →
   ∃ rendered, render_values config = OK rendered).
Proof.
  split; [apply render_values_Raise_inv|].
  - unfold TestBuilder._render_values. generalize (@nil (string * value)).
    induction config as [|[key v] config IH]; intros acc Hall; [by eexists|].
    cbn [for_each].
    assert (Hstep : ∃ acc', TestBuilder.render_step get_rendered target
                              column_name name render_ctx acc (key, v) = OK acc').
    { unfold TestBuilder.render_step. destruct v; try (by eexists).
      destruct (Hall key s) as [v' ->]; [by left|].
      destruct v'; by eexists. }
    destruct Hstep as [acc' ->]. apply IH.
    intros key' s' Hin. apply (Hall key' s'). by right.
Qed.

End Rendering.

(** ** The descriptor that construction returns *)

Lemma update_no_None (d other : dict) :
  Forall (λ kv, kv.2 ≠ VNone) d → Forall (λ kv, kv.2 ≠ VNone) other →
  Forall (λ kv, kv.2 ≠ VNone) (Py.update d other).
Proof.
  unfold Py.update. intros Hd Hother. revert d Hd.
  induction Hother as [|[k v] other Hv Hother IH]; intros d Hd; [done|].
  cbn [fold_left]. apply IH. cbn [fst snd] in *.
  clear -Hd Hv. induction d as [|[k1 v1] d IH]; cbn [Py.set].
  - by repeat constructor.
  - apply Forall_cons in Hd as [H1 Hd].
    destruct (String.eqb k k1); constructor; auto.
Qed.

Lemma set_no_None (k : string) (v : value) (d : dict) :
  v ≠ VNone → Forall (λ kv, kv.2 ≠ VNone) d →
  Forall (λ kv, kv.2 ≠ VNone) (Py.set k v d).
Proof.
  intros Hv Hd. induction d as [|[k1 v1] d IH]; cbn [Py.set].
  - by repeat constructor.
  - apply Forall_cons in Hd as [H1 Hd].
    destruct (String.eqb k k1); constructor; auto.
Qed.

Lemma pop_snd (k : string) (default : value) (d : dict) :
  (Py.pop k default d).2 = Py.remove k d.
Proof.
  unfold Py.pop. destruct (Py.get k d) eqn:E; [done|].
  by rewrite remove_absent.
Qed.

Section Descriptor.

Variable flag : bool.
Variable get_rendered : string -> dict -> rendering.
Variables (data_test : value) (target : Testable) (package_name : string).
Variables (render_ctx : dict) (column_name : option string).
Variable version : option value.
Variable tb : TestBuilder.t.

Hypothesis constructed :
  TestBuilder.__init__ flag get_rendered data_test target package_name
    render_ctx column_name version = OK tb.

(** X8.  No entry of a descriptor's configuration has the value [None]. *)
Theorem init_config_has_no_None :
  TestBuilder.__init__ flag get_rendered data_test target package_name
    render_ctx column_name version = OK tb →
  Forall (λ kv, kv.2 ≠ VNone) (TestBuilder.config tb).
Proof.
  clear constructed. intros constructed.
  destruct (init_stages _ _ _ _ _ _ _ _ _ constructed)
    as (tn & ta & w & ms & config0 & args1 & legacy & nested & args2
        & _ & _ & _ & _ & _ & Hlegacy & Hnested & _ & _ & Hfin).
  assert (Hconfig1 : Forall (λ kv, kv.2 ≠ VNone)
                       (Py.update (Py.update [] legacy) nested)).
  { apply update_no_None.
    - apply update_no_None; [done|]. by eapply render_values_no_None.
    - destruct Hnested as [(_ & -> & _)|(raw & _ & Hraw)]; [done|].
      by eapply render_values_no_None. }
  cbn zeta in Hfin. destruct (Py.get "name" _).
  - destruct Hfin as (_ & _ & _ & ->). done.
  - destruct Hfin as (short & full & _ & _ & _ & _ & ->).
    destruct (_ && _)%bool; [|done]. by apply set_no_None.
Qed.

(** X9.  When the compiled name of a descriptor differs from its full name,
    both are strings, the full name has at least 64 characters, and the
    configuration has an entry [alias]. *)
Theorem init_alias_when_names_differ :
  TestBuilder.compiled_name tb ≠ TestBuilder.fqn_name tb →
  ∃ short_name full_name,
    TestBuilder.compiled_name tb = VStr short_name ∧
    TestBuilder.fqn_name tb = VStr full_name ∧
    (64 ≤ len full_name)%nat ∧
    Py.contains "alias" (TestBuilder.config tb) = true.
Proof.
  intros Hne.
  destruct (init_stages _ _ _ _ _ _ _ _ _ constructed)
    as (tn & ta & w & ms & config0 & args1 & legacy & nested & args2
        & _ & _ & _ & _ & _ & _ & _ & _ & _ & Hfin).
  cbn zeta in Hfin. destruct (Py.get "name" _).
  - destruct Hfin as (Hc & Hf & _). congruence.
  - destruct Hfin as (short & full & Hsyn & Hc & Hf & _ & Hconfig).
    exists short, full. split; [done|]. split; [done|].
    assert (Hsf : short ≠ full) by congruence.
    split.
    + unfold TestBuilder.get_synthetic_test_names in Hsyn.
      bind_inv Hsyn. destruct a as [ty tn']. cbv beta iota in Hsyn.
      injection Hsyn as Hsyn.
      pose proof (synthesize_short
                    match TestBuilder.namespace tb with
                    | Some namespace => namespace +:+ "_" +:+ ty
                    | None => ty
                    end tn' (Py.remove "description" args2)) as Hshort.
      cbn zeta in Hshort. rewrite Hsyn in Hshort. cbn [fst snd] in Hshort.
      destruct (64 <=? len full)%nat eqn:Elen; [by apply Nat.leb_le|].
      done.
    + rewrite Hconfig. apply String.eqb_neq in Hsf. rewrite Hsf. cbn [negb andb].
      destruct (Py.contains "alias" _) eqn:Ealias; [done|]. cbn [negb].
      unfold Py.contains. by rewrite get_set_eq.
Qed.


End Descriptor.

(** ** The exceptions of construction *)

Lemma bind_Raise_inv {A B} (m : result A) (k : A → result B) (e : error) :
  m ≫= k = Raise e → m = Raise e ∨ ∃ a, m = OK a ∧ k a = Raise e.
Proof.
  destruct m as [a|e']; intros H; [right; by exists a | left].
  by injection H as ->.
Qed.

Section Exceptions.

Variable flag : bool.
Variable get_rendered : string -> dict -> rendering.

Lemma extract_raises data_test name e :
  TestBuilder.extract_test_args flag data_test name = Raise e →
  raised_by_construction e.
Proof.
  unfold TestBuilder.extract_test_args.
  destruct data_test as [| | | | | |d]; try (by intros [= <-]).
  intros [H|([tn ta] & _ & H)]%bind_Raise_inv.
  - destruct (Py.contains "test_name" d).
    + by destruct (Py.pop _ _ _).
    + destruct d as [|[? ?] [|]]; try done; by injection H as <-.
  - cbv beta iota in H.
    destruct ta; try (by injection H as <-).
    destruct tn; try (by injection H as <-).
    destruct flag.
    + destruct (Py.pop "arguments" _ _) as [arguments test_args].
      destruct arguments; try done; injection H as <-; cbn; auto.
    + by destruct (Py.get "arguments" _).
Qed.

Lemma build_model_str_raises target version e :
  TestBuilder.build_model_str target version = Raise e →
  raised_by_construction e.
Proof.
  unfold TestBuilder.build_model_str. destruct target; try done.
  - by destruct (TestBuilder.version_set version).
  - by intros [= <-].
Qed.

Lemma build_model_str_supported target version model_str e name namespace args :
  TestBuilder.build_model_str target version = OK model_str →
  TestBuilder.get_synthetic_test_names target version name namespace args
  ≠ Raise e.
Proof. by destruct target. Qed.

Lemma legacy_step_raises st key e :
  TestBuilder.legacy_step st key = Raise e → raised_by_construction e.
Proof.
  destruct st as [config args]. unfold TestBuilder.legacy_step.
  destruct (Py.pop key VNone args) as [value args1].
  intros [H|(clash & Hclash & H)]%bind_Raise_inv.
  - destruct (Py.truthy value); [|done].
    destruct (Py.get "config" args1) as [nested|]; [|done].
    destruct nested; try done; inversion H; cbn; auto.
  - cbv beta iota in H. destruct clash; [by inversion H|].
    apply bind_Raise_inv in H as [H|([v a] & _ & H)]; [|done].
    destruct (negb _); [|done].
    destruct (Py.get "config" args1) as [nested|]; [|done].
    apply bind_Raise_inv in H as [H|([v' a'] & _ & H)]; [|done].
    destruct nested; cbn [TestBuilder.pop_key] in H;
      try (by destruct (Py.pop key VNone _)); inversion H; cbn; auto.
Qed.

Lemma render_values_raises_construction target column_name name render_ctx
    config e :
  TestBuilder._render_values get_rendered target column_name name render_ctx
    config = Raise e →
  raised_by_construction e.
Proof.
  intros H.
  destruct (render_values_Raise_inv get_rendered target column_name name
              render_ctx config e H)
    as (key & s & msg & _ & [[_ ->]|[_ ->]]); done.
Qed.


End Exceptions.

(** ** [tags], [macro_name], [construct_config] *)

Lemma check_tags_Tags (tags : list value) (l : list string) :
  TestBuilder.check_tags tags = TestBuilder.Tags l ↔ tags = map VStr l.
Proof.
  revert l. induction tags as [|tag tags IH]; intros l.
  - cbn. split; [intros [= <-] | intros Hl]; [done|].
    by destruct l.
  - destruct tag; cbn [TestBuilder.check_tags];
      try (split; [done | by destruct l]).
    destruct (TestBuilder.check_tags tags) as [checked| |] eqn:E.
    + split.
      * intros [= <-]. cbn. f_equal. by apply IH.
      * destruct l as [|s' l]; [done|]. intros [= -> Hl].
        apply IH in Hl. by injection Hl as ->.
    + split; [done|]. destruct l as [|s' l]; [done|]. intros [= -> Hl].
      by apply IH in Hl.
    + split; [done|]. destruct l as [|s' l]; [done|]. intros [= -> Hl].
      by apply IH in Hl.
Qed.

Lemma check_tags_raises (tags : list value) :
  match TestBuilder.check_tags tags with
  | TestBuilder.Tags _ => True
  | TestBuilder.TagsNotListOfStringsError _ => False
  | TestBuilder.TagNotStringError tag =>
      tag ∈ tags ∧ ∀ s, tag ≠ VStr s
  end.
Proof.
  induction tags as [|tag tags IH]; [done|].
  destruct tag; cbn [TestBuilder.check_tags];
    try (split; [by left | done]).
  destruct (TestBuilder.check_tags tags); [done..|].
  destruct IH as [Hin Hnot]. split; [by right | done].
Qed.

(** X12.  [tags]: without an entry [tags] the result is the empty list; a
    string gives the list of this one string; a list of strings is returned
    as it is; any other value raises [TagsNotListOfStringsError] with the
    value, and a list with an element that is not a string raises
    [TagNotStringError] with such an element. *)
Theorem tags_spec (self : TestBuilder.t) :
  match TestBuilder.tags self with
  | TestBuilder.Tags l =>
      match Py.get "tags" (TestBuilder.config self) with
      | None => l = []
      | Some (VStr tag) => l = [tag]
      | Some (VList tags) => tags = map VStr l
      | Some _ => False
      end
  | TestBuilder.TagsNotListOfStringsError v =>
      Py.get "tags" (TestBuilder.config self) = Some v ∧
      (∀ s, v ≠ VStr s) ∧ (∀ l, v ≠ VList l)
  | TestBuilder.TagNotStringError tag =>
      (∀ s, tag ≠ VStr s) ∧
      ∃ tags, Py.get "tags" (TestBuilder.config self) = Some (VList tags) ∧
              tag ∈ tags
  end.
Proof.
  unfold TestBuilder.tags.
  destruct (Py.get "tags" (TestBuilder.config self)) as [v|]; [|done].
  destruct v; cbv [from_option id]; cbv beta iota zeta;
    try (by repeat split).
  pose proof (check_tags_raises l) as Hraise.
  destruct (TestBuilder.check_tags l) as [checked|v|tag] eqn:E.
  - by apply check_tags_Tags.
  - done.
  - destruct Hraise as [Hin Hnot]. split; [done|]. by exists l.
Qed.

Lemma join_nil (sep : string) (l : list string) :
  Py.join sep l = "" → l = [] ∨ ∃ rest, l = "" :: rest.
Proof.
  intros H. destruct l as [|s l]; [by left|]. right.
  destruct s as [|c s]; [by eexists|].
  destruct l as [|s' l]; [done|].
  change (String c (s +:+ sep +:+ Py.join sep (s' :: l)) = "") in H.
  discriminate H.
Qed.

Lemma joined_items_not_empty (item : string * value) (config : dict) :
  Py.join "," (map TestBuilder.config_item (item :: config)) ≠ "".
Proof.
  intros [Hnil|[rest Hrest]]%join_nil; [done|]. destruct item as [key v].
  cbn [map TestBuilder.config_item] in Hrest. injection Hrest as Hitem _.
  destruct key; discriminate Hitem.
Qed.

(** X13.  [construct_config] returns the empty string exactly when the
    descriptor has no configuration: with at least one key it returns a
    [config(...)] block, never an empty one. *)
Theorem construct_config_empty (self : TestBuilder.t) :
  TestBuilder.construct_config self = "" ↔ TestBuilder.config self = [].
Proof.
  unfold TestBuilder.construct_config.
  destruct (TestBuilder.config self) as [|item config]; [done|].
  split; [|done].
  destruct (String.eqb_spec
              (Py.join "," (map TestBuilder.config_item (item :: config)))
              "") as [Hjoin|_]; [|done].
  by apply joined_items_not_empty in Hjoin.
Qed.

Lemma append_inj_l (a b c : string) : a +:+ b = a +:+ c → b = c.
Proof.
  induction a as [|x a IH]; [done|]. rewrite !append_cons.
  intros H. injection H as H. by apply IH.
Qed.

(** X20.  [build_raw_code] is the macro call alone, with nothing after it,
    exactly when the descriptor has no configuration: a [config(...)] block
    follows the call for every descriptor with at least one configuration
    key. *)
Theorem build_raw_code_without_config (GENERIC_TEST_KWARGS_NAME : string)
    (self : TestBuilder.t) :
  TestBuilder.build_raw_code GENERIC_TEST_KWARGS_NAME self
  = "{{ " +:+ TestBuilder.macro_name self +:+ "(**" +:+
    GENERIC_TEST_KWARGS_NAME +:+ ") }}"
  ↔ TestBuilder.config self = [].
Proof.
  unfold TestBuilder.build_raw_code, TestBuilder.construct_config.
  destruct (TestBuilder.config self) as [|item config].
  { split; [done|]. intros _. cbn [map Py.join String.eqb negb].
    by rewrite (append_nil_r ") }}"). }
  split; [|done].
  destruct (String.eqb_spec
              (Py.join "," (map TestBuilder.config_item (item :: config)))
              "") as [Hjoin|_]; [by apply joined_items_not_empty in Hjoin|].
  cbn [negb]. intros H. do 4 apply append_inj_l in H. discriminate H.
Qed.

Section MacroName.

Variable flag : bool.
Variable get_rendered : string -> dict -> rendering.
Variables (data_test : value) (target : Testable) (package_name : string).
Variables (render_ctx : dict) (column_name : option string).
Variable version : option value.
Variable tb : TestBuilder.t.
Variables (test_name : string) (test_args : dict) (warned : list deprecation).

Hypothesis constructed :
  TestBuilder.__init__ flag get_rendered data_test target package_name
    render_ctx column_name version = OK tb.
Hypothesis extracted :
  TestBuilder.extract_test_args flag data_test column_name
  = OK (test_name, test_args, warned).

(** X14.  The macro of a descriptor.  For a token [namespace.name] the
    macro is [namespace.test_name] and the package is the namespace, not the
    package given to the constructor; for a token that is one identifier the
    macro is [test_] followed by it and the package is the one given. *)
Theorem macro_name_of_token :
  (∀ namespace name,
     test_name = namespace +:+ "." +:+ name →
     is_identifier namespace = true → is_identifier name = true →
     TestBuilder.macro_name tb = namespace +:+ ".test_" +:+ name ∧
     TestBuilder.package_name tb = namespace) ∧
  (is_identifier test_name = true →
   TestBuilder.macro_name tb = "test_" +:+ test_name ∧
   TestBuilder.package_name tb = package_name).
Proof.
  destruct (init_stages _ _ _ _ _ _ _ _ _ constructed)
    as (tn & ta & w & ms & config0 & args1 & legacy & nested & args2
        & E & _ & _ & Hmatch & _ & _ & _ & Hpackage & _).
  rewrite extracted in E. injection E as <- <- <-.
  unfold TestBuilder.macro_name. split.
  - intros namespace name -> Hns Hname.
    pose proof (pattern_match_namespaced namespace name ""
                  Hns Hname eq_refl) as Hparse.
    rewrite append_nil_r in Hparse. rewrite Hparse in Hmatch.
    rewrite Hpackage. by injection Hmatch as <- <-.
  - intros Hname.
    pose proof (pattern_match_plain test_name Hname) as Hparse.
    rewrite Hparse in Hmatch. rewrite Hpackage.
    by injection Hmatch as <- <-.
Qed.

End MacroName.

(** ** [extract_test_args]: the column name and the [arguments] property *)

Lemma get_update (k : string) (d other : dict) :
  NoDup (Py.keys other) →
  Py.get k (Py.update d other)
  = match Py.get k other with
    | Some v => Some v
    | None => Py.get k d
    end.
Proof.
  unfold Py.update. revert d.
  induction other as [|[k0 v0] other IH]; intros d Hnd; [done|].
  cbn [Py.keys map fst] in Hnd. apply NoDup_cons in Hnd as [Hk0 Hnd].
  cbn [fold_left fst snd Py.get]. rewrite (IH _ Hnd).
  destruct (String.eqb_spec k k0) as [->|Hne].
  - destruct (Py.get k0 other) eqn:E.
    + destruct Hk0. apply get_elem_of_keys. by eexists.
    + apply get_set_eq.
  - destruct (Py.get k other); [done|]. by apply get_set_ne.
Qed.

Lemma pop_default (k : string) (d0 : value) (d : dict) :
  Py.pop k d0 d = (default d0 (Py.get k d), Py.remove k d).
Proof.
  unfold Py.pop. destruct (Py.get k d) eqn:E; [done|].
  by rewrite remove_absent.
Qed.

(** X15.  Without the flag [require_generic_test_arguments_property], and
    with a column name, the extracted arguments have this name under
    [column_name], also when the declaration gives an argument of that
    name. *)
Theorem extract_injects_the_column_name (data_test : value) (name : string)
    (test_name : string) (test_args : dict) (warned : list deprecation) :
  TestBuilder.extract_test_args false data_test (Some name)
    = OK (test_name, test_args, warned) →
  Py.get "column_name" test_args = Some (VStr name).
Proof.
  unfold TestBuilder.extract_test_args.
  destruct data_test as [| | | | | |d]; try done. intros H.
  bind_inv H. destruct a as [tn ta]. destruct ta; try done.
  destruct tn; try done.
  destruct (Py.get "arguments" _);
    injection H as _ <- _; apply get_set_eq.
Qed.

(** X16.  The flag [require_generic_test_arguments_property], against the
    result without it: with no [arguments] entry the test name and the
    arguments are the same; with a mapping, the arguments lose the entry and
    are updated with the mapping; with any other value extraction raises
    [TypeError]. *)
Theorem extract_with_arguments_property (data_test : value)
    (name : option string) (test_name : string) (test_args : dict)
    (warned : list deprecation) :
  TestBuilder.extract_test_args false data_test name
    = OK (test_name, test_args, warned) →
  match Py.get "arguments" test_args with
  | None =>
      ∃ warned',
        TestBuilder.extract_test_args true data_test name
        = OK (test_name, test_args, warned')
  | Some (VDict arguments) =>
      ∃ warned',
        TestBuilder.extract_test_args true data_test name
        = OK (test_name,
              Py.update (Py.remove "arguments" test_args) arguments, warned')
  | Some _ =>
      TestBuilder.extract_test_args true data_test name
      = Raise (TypeError "argument after ** must be a mapping")
  end.
Proof.
  unfold TestBuilder.extract_test_args.
  destruct data_test as [| | | | | |d]; try done. intros H.
  bind_inv H. rewrite E. rewrite ret_bind.
  destruct a as [tn ta]. destruct ta; try done. destruct tn; try done.
  rewrite pop_default.
  destruct (Py.get "arguments" _) as [arguments|] eqn:Earg.
  - injection H as <- <- _. rewrite Earg. cbn [default from_option id].
    destruct arguments; try done. by eexists.
  - injection H as <- <- _. rewrite Earg. cbn [from_option id].
    rewrite remove_absent by done. by eexists.
Qed.

Lemma extract_flag_on_dict (data_test : value) (name : option string)
    (test_name : string) (test_args arguments : dict)
    (warned : list deprecation) :
  TestBuilder.extract_test_args false data_test name
    = OK (test_name, test_args, warned) →
  Py.get "arguments" test_args = Some (VDict arguments) →
  ∃ warned',
    TestBuilder.extract_test_args true data_test name
    = OK (test_name,
          Py.update (Py.remove "arguments" test_args) arguments, warned').
Proof.
  unfold TestBuilder.extract_test_args.
  destruct data_test as [| | | | | |d]; try done. intros H Harg.
  bind_inv H. rewrite E. rewrite ret_bind.
  destruct a as [tn ta]. destruct ta; try done. destruct tn; try done.
  rewrite pop_default.
  destruct (Py.get "arguments" _) as [arguments'|] eqn:Earg;
    injection H as <- <- _; rewrite Earg in Harg; [|done].
  injection Harg as ->. cbn [default from_option id]. by eexists.
Qed.

(** X17.  With the flag on, a key of the [arguments] mapping has the value
    of the mapping, also when the declaration gives the key beside
    [arguments]; the other keys keep their values, and [arguments] itself
    is no key of the result unless the mapping has it. *)
Theorem arguments_override_the_other_keys (data_test : value)
    (name : option string) (test_name : string)
    (test_args arguments : dict) (warned : list deprecation) :
  TestBuilder.extract_test_args false data_test name
    = OK (test_name, test_args, warned) →
  Py.get "arguments" test_args = Some (VDict arguments) →
  NoDup (Py.keys test_args) → NoDup (Py.keys arguments) →
  ∃ merged warned',
    TestBuilder.extract_test_args true data_test name
    = OK (test_name, merged, warned') ∧
    ∀ k, Py.get k merged
         = match Py.get k arguments with
           | Some v => Some v
           | None => if decide (k = "arguments") then None
                     else Py.get k test_args
           end.
Proof.
  intros H Harg Hnd Hnda.
  destruct (extract_flag_on_dict _ _ _ _ _ _ H Harg) as [w Hon].
  eexists _, w. split; [done|]. intros k. rewrite get_update by done.
  destruct (Py.get k arguments); [done|].
  case_decide as Hk; [subst; by apply get_remove_eq | by apply get_remove_ne].
Qed.

(** ** The copy shares no mutable object with the caller *)

Section Sharing.

Import Store.

Variable h0 : store.
Hypothesis closed_h0 : closed h0.

Lemma grown_refl : grown h0 h0.
Proof.
  split; [apply extends_refl|]. intros r o Hr Ho.
  apply lookup_lt_Some in Ho. lia.
Qed.

Lemma keeps_bind {A B} (m : M A) (k : A → M B) (Q : A → Prop) (R : B → Prop) :
  keeps h0 m Q → (∀ a, Q a → keeps h0 (k a) R) → keeps h0 (m ≫= k) R.
Proof.
  intros Hm Hk h res h' Hh. rewrite bind_run.
  destruct (m h) as [[a|e] h1] eqn:E.
  - destruct (Hm _ _ _ Hh E) as [Hh1 Ha]. by apply Hk.
  - intros [= <- <-]. by destruct (Hm _ _ _ Hh E).
Qed.

Lemma keeps_ret {A} (a : A) (Q : A → Prop) : Q a → keeps h0 (mret a) Q.
Proof. by intros Ha h res h' Hh [= <- <-]. Qed.

Lemma keeps_raise {A} (e : error) (Q : A → Prop) : keeps h0 (raise e) Q.
Proof. by intros h res h' Hh [= <- <-]. Qed.

Lemma keeps_weaken {A} (c : M A) (Q R : A → Prop) :
  keeps h0 c Q → (∀ a, Q a → R a) → keeps h0 c R.
Proof.
  intros Hc HQR h res h' Hh E. destruct (Hc _ _ _ Hh E) as [Hh' Hres].
  split; [done|]. destruct res; auto.
Qed.

Lemma keeps_alloc (o : obj) :
  Forall (apart h0) (children o) → keeps h0 (alloc o) (λ y, length h0 ≤ y).
Proof.
  intros Ho h res h' [Hext Hnew] [= <- <-].
  assert (length h0 ≤ length h) by (by destruct Hext).
  split; [|done]. split.
  - eapply extends_trans; [done|]. by apply extends_alloc.
  - intros r o' Hr Ho'. apply lookup_app_Some in Ho' as [Ho'|[_ Ho']].
    + by eapply Hnew.
    + apply list_lookup_singleton_Some in Ho' as [_ <-]. done.
Qed.

Lemma keeps_write (y : ref) (o : obj) :
  length h0 ≤ y → Forall (apart h0) (children o) →
  keeps h0 (write y o) (λ _, True).
Proof.
  intros Hy Ho h res h' [Hext Hnew] [= <- <-]. split; [|done]. split.
  - eapply extends_trans; [done|]. by apply extends_write.
  - intros r o' Hr Ho'. destruct (decide (r = y)) as [->|Hne].
    + apply list_lookup_insert_Some in Ho' as [(_ & <- & _)|[? _]]; done.
    + rewrite list_lookup_insert_ne in Ho' by done. by eapply Hnew.
Qed.

Lemma keeps_read_old (x : ref) :
  x < length h0 → keeps h0 (read x) (λ o, h0 !! x = Some o).
Proof.
  intros Hx h res h' [[Hlen Hsame] Hnew]. unfold read.
  rewrite (Hsame x Hx).
  destruct (h0 !! x) as [o|] eqn:E; intros [= <- <-]; by repeat split.
Qed.

Lemma frozen_inv (r : ref) :
  frozen h0 r →
  ∃ o, h0 !! r = Some o ∧ mutable o = false ∧ Forall (frozen h0) (children o).
Proof. destruct 1 as [r o Ho Hm Hc]. by exists o. Qed.

Lemma keeps_read_apart (r : ref) :
  apart h0 r →
  keeps h0 (read r)
    (λ o, Forall (apart h0) (children o) ∧
          (r < length h0 → mutable o = false)).
Proof.
  intros Hr h res h' Hh. pose proof Hh as [[Hlen Hsame] Hnew]. unfold read.
  destruct (h !! r) as [o|] eqn:E; intros [= <- <-].
  2:{ by split. }
  split; [done|].
  destruct Hr as [Hr|Hr].
  - split; [exact (Hnew r o Hr E) | lia].
  - apply frozen_inv in Hr as (o' & Ho' & Hm & Hc).
    assert (r < length h0) by (by eapply lookup_lt_Some).
    rewrite Hsame, Ho' in E by done. injection E as <-.
    split; [|done]. eapply Forall_impl; [done|]. by right.
Qed.

Lemma apart_old (c : ref) : apart h0 c → c < length h0 → frozen h0 c.
Proof. intros [Hc|Hc]; [lia | done]. Qed.

Lemma keeps_copy_items (copy : memo → ref → M (ref * memo)) :
  (∀ m x, x < length h0 → memo_new h0 m →
          keeps h0 (copy m x) (λ ym, apart h0 ym.1 ∧ memo_new h0 ym.2)) →
  ∀ items m,
    Forall (λ c, c < length h0) items → memo_new h0 m →
    keeps h0 (copy_items copy items m)
      (λ ym, Forall (apart h0) ym.1 ∧ memo_new h0 ym.2 ∧
             ∀ c, c ∈ ym.1 → c < length h0 → frozen h0 c).
Proof.
  intros Hcopy items. induction items as [|x items IH]; intros m Hitems Hm.
  - apply keeps_ret. split; [done|]. split; [done|]. by intros c ?%elem_of_nil.
  - apply Forall_cons in Hitems as [Hx Hitems]. cbn [copy_items].
    eapply keeps_bind; [by apply Hcopy|]. intros [y m1] [Hy Hm1].
    eapply keeps_bind; [by apply IH|]. intros [ys m2] (Hys & Hm2 & Hfr).
    apply keeps_ret. cbn [fst snd] in *. split; [by constructor|].
    split; [done|]. intros c [->|Hc]%elem_of_cons Hlt; [|by apply Hfr].
    by apply apart_old.
Qed.

Lemma memo_new_cons (m : memo) (x y : ref) :
  memo_new h0 m → length h0 ≤ y → memo_new h0 ((x, y) :: m).
Proof.
  intros Hm Hy x' y'. cbn [copied].
  destruct (Nat.eqb x' x); [by intros [= <-] | apply Hm].
Qed.

Lemma Forall_snd_zip {A B} (P : B → Prop) (l : list A) (k : list B) :
  Forall P k → Forall P (map snd (zip l k)).
Proof.
  intros Hk. revert l. induction Hk as [|b k Hb Hk IH]; intros [|a l];
    cbn; try done. constructor; [done | apply IH].
Qed.

Lemma keeps_deepcopy (fuel : nat) :
  ∀ m x, x < length h0 → memo_new h0 m →
         keeps h0 (deepcopy fuel m x)
           (λ ym, apart h0 ym.1 ∧ memo_new h0 ym.2 ∧
                  ∀ o, h0 !! x = Some o → mutable o = true →
                       length h0 ≤ ym.1).
Proof.
  induction fuel as [|fuel IH]; intros m x Hx Hm; [apply keeps_raise|].
  assert (IH' : ∀ m x, x < length h0 → memo_new h0 m →
                keeps h0 (deepcopy fuel m x)
                  (λ ym, apart h0 ym.1 ∧ memo_new h0 ym.2)).
  { intros m' x' Hx' Hm'. eapply keeps_weaken; [by apply IH|].
    by intros ym (? & ? & _). }
  cbn [deepcopy]. destruct (copied x m) as [y|] eqn:Ecopied.
  { pose proof (Hm x y Ecopied). apply keeps_ret.
    split; [by left|]. by split. }
  eapply keeps_bind; [by apply keeps_read_old|]. intros o Ho.
  assert (Hchildren : Forall (λ c, c < length h0) (children o))
    by exact (closed_h0 x o Ho).
  assert (Hatom : children o = [] → mutable o = false →
                  keeps h0 (mret (x, m))
                    (λ ym, apart h0 ym.1 ∧ memo_new h0 ym.2 ∧
                           ∀ o, h0 !! x = Some o → mutable o = true →
                                length h0 ≤ ym.1)).
  { intros Hc Hmut. apply keeps_ret. split; [|split; [done|]].
    - right. apply (frozen_object h0 x o Ho Hmut). by rewrite Hc.
    - intros o' Ho' Hmut'. congruence. }
  destruct o as [| | | |items|items|items]; try (by apply Hatom).
  - eapply keeps_bind; [by apply keeps_alloc|]. intros y Hy.
    eapply keeps_bind.
    { apply (keeps_copy_items _ IH'); [done | by apply memo_new_cons]. }
    intros [items' m1] (Hitems' & Hm1 & _).
    eapply keeps_bind; [by apply keeps_write|]. intros _ _.
    apply keeps_ret. split; [by left|]. by split.
  - eapply keeps_bind; [by apply (keeps_copy_items _ IH')|].
    intros [items' m1] (Hitems' & Hm1 & Hfr). cbn [fst snd] in *.
    destruct (copied x m1) as [y|] eqn:Ecopied1.
    { pose proof (Hm1 x y Ecopied1). apply keeps_ret.
      split; [by left|]. by split. }
    case_decide as Hsame.
    + apply keeps_ret. split; [|split; [done|]].
      * right. apply (frozen_object h0 x _ Ho eq_refl). cbn [children].
        subst items'. apply Forall_forall. intros c Hc. apply Hfr; [done|].
        rewrite Forall_forall in Hchildren. by apply Hchildren.
      * intros o' Ho' Hmut'. rewrite Ho in Ho'. by injection Ho' as <-.
    + eapply keeps_bind; [by apply keeps_alloc|]. intros y Hy.
      apply keeps_ret. split; [by left|]. split; [by apply memo_new_cons|].
      done.
  - eapply keeps_bind; [by apply keeps_alloc|]. intros y Hy.
    eapply keeps_bind.
    { apply (keeps_copy_items _ IH'); [done | by apply memo_new_cons]. }
    intros [refs m1] (Hrefs & Hm1 & _).
    eapply keeps_bind.
    { apply keeps_write; [done|]. by apply Forall_snd_zip. }
    intros _ _. apply keeps_ret. split; [by left|]. by split.
Qed.

Lemma Forall_snd_set {P : ref → Prop} (k : string) (r : ref)
    (items : list (string * ref)) :
  P r → Forall P (map snd items) → Forall P (map snd (set k r items)).
Proof.
  intros Hr. induction items as [|[k0 r0] items IH]; cbn [set map snd].
  - by repeat constructor.
  - intros [H0 Hitems]%Forall_cons.
    destruct (String.eqb k k0); constructor; auto.
Qed.

Lemma Forall_snd_remove {P : ref → Prop} (k : string)
    (items : list (string * ref)) :
  Forall P (map snd items) → Forall P (map snd (remove k items)).
Proof.
  induction items as [|[k0 r0] items IH]; [done|]. cbn [remove map snd].
  intros [H0 Hitems]%Forall_cons.
  destruct (String.eqb k k0); [done|]. constructor; auto.
Qed.

Lemma Forall_snd_update {P : ref → Prop} (items other : list (string * ref)) :
  Forall P (map snd items) → Forall P (map snd other) →
  Forall P (map snd (update items other)).
Proof.
  unfold update. revert items.
  induction other as [|[k r] other IH]; intros items Hitems Hother; [done|].
  cbn [map snd] in Hother. apply Forall_cons in Hother as [Hr Hother].
  cbn [fold_left]. apply IH; [|done]. by apply Forall_snd_set.
Qed.

Lemma Forall_snd_get {P : ref → Prop} (k : string) (r : ref)
    (items : list (string * ref)) :
  get k items = Some r → Forall P (map snd items) → P r.
Proof.
  induction items as [|[k0 r0] items IH]; [done|]. cbn [get map snd].
  intros Hget [H0 Hitems]%Forall_cons.
  destruct (String.eqb k k0); [by injection Hget as <- | auto].
Qed.

Lemma keeps_after_copy (flag : bool) (test_name : string) (y : ref)
    (name : option string) :
  length h0 ≤ y →
  keeps h0 (after_copy flag test_name y name) (λ res, length h0 ≤ res.2).
Proof.
  intros Hy. unfold after_copy.
  eapply keeps_bind with (Q := λ _, True).
  { destruct name as [name|]; [|by apply keeps_ret].
    eapply keeps_bind; [by apply keeps_alloc|]. intros r Hr.
    eapply keeps_bind; [apply keeps_read_apart; by left|].
    intros copy [Hcopy _].
    destruct copy; try (by apply keeps_ret).
    apply keeps_write; [done|]. apply Forall_snd_set; [by left | done]. }
  intros _ _. destruct flag; [|by apply keeps_ret].
  eapply keeps_bind; [apply keeps_read_apart; by left|].
  intros copy [Hcopy _].
  set (items := match copy with ODict items => items | _ => [] end).
  assert (Hitems : Forall (apart h0) (map snd items)).
  { unfold items. by destruct copy. }
  eapply keeps_bind with (Q := apart h0).
  { destruct (get "arguments" items) as [a|] eqn:Eget.
    - eapply keeps_bind.
      { apply keeps_write; [done|]. by apply Forall_snd_remove. }
      intros _ _. apply keeps_ret. by eapply Forall_snd_get.
    - eapply keeps_weaken; [by apply keeps_alloc|]. intros a Ha. by left. }
  intros a Ha.
  eapply keeps_bind; [by apply keeps_read_apart|]. intros arguments [Harg _].
  destruct arguments; try apply keeps_raise.
  eapply keeps_bind.
  { apply keeps_alloc. apply Forall_snd_update; [|done].
    by apply Forall_snd_remove. }
  intros merged Hmerged. by apply keeps_ret.
Qed.

Lemma keeps_copy_and_after (flag : bool) (test_name : string) (x : ref)
    (items : list (string * ref)) (name : option string) (fuel : nat) :
  h0 !! x = Some (ODict items) →
  keeps h0 ('(test_args, _) ← deepcopy fuel [] x;
            after_copy flag test_name test_args name)
    (λ res, length h0 ≤ res.2).
Proof.
  intros Hx. eapply keeps_bind.
  { apply keeps_deepcopy; [by eapply lookup_lt_Some | done]. }
  intros [y m] (_ & _ & Hy). apply keeps_after_copy. by eapply Hy.
Qed.

Lemma reach_apart (h : store) (r r' : ref) :
  grown h0 h → apart h0 r → reach h r r' → r' < length h0 → frozen h0 r'.
Proof.
  intros [[Hlen Hsame] Hnew] Hr Hreach Hr'.
  induction Hreach as [r|r c r' o Ho Hc Hreach IH]; [by apply apart_old|].
  apply IH; [|done]. destruct Hr as [Hr|Hr].
  - pose proof (Hnew r o Hr Ho) as Hall. rewrite Forall_forall in Hall. auto.
  - apply frozen_inv in Hr as (o' & Ho' & _ & Hall).
    assert (r < length h0) by (by eapply lookup_lt_Some).
    rewrite Hsame, Ho' in Ho by done. injection Ho as <-.
    rewrite Forall_forall in Hall. right. auto.
Qed.

End Sharing.

Lemma closed_write (h : Store.store) (r : Store.ref) (o o' : Store.obj) :
  closed h → h !! r = Some o → children o' ⊆ children o →
  closed (<[r := o']> h).
Proof.
  intros Hh Ho Hsub r1 o1 Ho1. rewrite length_insert.
  destruct (decide (r1 = r)) as [->|Hne].
  - apply list_lookup_insert_Some in Ho1 as [(_ & <- & _)|[? _]]; [|done].
    pose proof (Hh r o Ho) as Hall. rewrite Forall_forall in Hall |- *. auto.
  - rewrite list_lookup_insert_ne in Ho1 by done. by eapply Hh.
Qed.

Lemma children_remove (k : string) (items : list (string * Store.ref)) :
  map snd (Store.remove k items) ⊆ map snd items.
Proof.
  induction items as [|[k0 r0] items IH]; [done|]. cbn [Store.remove].
  destruct (String.eqb k k0); cbn [map snd].
  - by apply list_subseteq_cons.
  - intros c [->|Hc]%elem_of_cons; [by left | right; by apply IH].
Qed.

Lemma run_shares_nothing (h1 h' : Store.store) (flag : bool)
    (test_name : string) (x : Store.ref) (items : list (string * Store.ref))
    (name : option string) (res : string * Store.ref) :
  closed h1 → h1 !! x = Some (Store.ODict items) →
  ('(test_args, _) ← Store.deepcopy (S (length h1)) [] x;
   Store.after_copy flag test_name test_args name) h1 = (OK res, h') →
  ∀ r' o, reach h' res.2 r' → r' < length h1 → h' !! r' = Some o →
          mutable o = false.
Proof.
  intros Hclosed Hx Hrun r' o Hreach Hr' Ho.
  destruct (keeps_copy_and_after h1 Hclosed flag test_name x items name _ Hx
              h1 _ _ (grown_refl h1) Hrun) as [Hgrown Hres].
  assert (Hfrozen : frozen h1 r').
  { eapply reach_apart; [done..| |done|done]. by left. }
  apply frozen_inv in Hfrozen as (o' & Ho' & Hmut & _).
  destruct Hgrown as [[_ Hsame] _]. rewrite Hsame, Ho' in Ho by done.
  by injection Ho as <-.
Qed.


(** ** The keys of the configuration *)

Lemma elem_of_keys_set (k k' : string) (v : value) (d : dict) :
  k ∈ Py.keys (Py.set k' v d) → k = k' ∨ k ∈ Py.keys d.
Proof.
  rewrite keys_set. destruct (Py.contains k' d); [by right|].
  rewrite elem_of_app, list_elem_of_singleton. tauto.
Qed.

Lemma elem_of_keys_update (k : string) (d other : dict) :
  k ∈ Py.keys (Py.update d other) → k ∈ Py.keys d ∨ k ∈ Py.keys other.
Proof.
  unfold Py.update. revert d.
  induction other as [|[k0 v0] other IH]; intros d; [by left|].
  cbn [fold_left fst snd]. intros [[->|Hd]%elem_of_keys_set|Hother]%IH.
  - right. by left.
  - by left.
  - right. by right.
Qed.

Section ConfigKeys.

Variable flag : bool.
Variable get_rendered : string -> dict -> rendering.

Lemma render_steps_keys target column_name name render_ctx
    (config acc rendered : dict) :
  for_each (TestBuilder.render_step get_rendered target column_name name
              render_ctx) config acc = OK rendered →
  ∀ k, k ∈ Py.keys rendered → k ∈ Py.keys acc ∨ k ∈ Py.keys config.
Proof.
  revert acc. induction config as [|[k0 v0] config IH]; intros acc H k Hk.
  - injection H as <-. by left.
  - cbn [for_each] in H. bind_inv H. apply render_step_OK in E.
    destruct (IH _ H k Hk) as [Ha|Hconfig]; [|right; by right].
    rewrite E in Ha. destruct (rendered_entry _ _ v0); [|by left].
    apply elem_of_keys_set in Ha as [->|Ha]; [right; by left | by left].
Qed.

Lemma render_values_keys target column_name name render_ctx
    (config rendered : dict) :
  TestBuilder._render_values get_rendered target column_name name render_ctx
    config = OK rendered →
  Py.keys rendered ⊆ Py.keys config.
Proof.
  intros H k Hk.
  by destruct (render_steps_keys _ _ _ _ _ _ _ H k Hk) as [?%elem_of_nil|].
Qed.

Lemma legacy_step_keys (config args config' args' : dict) (key : string) :
  TestBuilder.legacy_step (config, args) key = OK (config', args') →
  key ≠ "config" →
  (∀ k, k ∈ Py.keys config' → k = key ∨ k ∈ Py.keys config) ∧
  (∀ nested',
     Py.get "config" args' = Some (VDict nested') →
     ∃ nested, Py.get "config" args = Some (VDict nested) ∧
               Py.keys nested' ⊆ Py.keys nested).
Proof.
  unfold TestBuilder.legacy_step. rewrite pop_spec. intros H Hkey.
  bind_inv H. destruct a; [done|].
  bind_inv H. destruct a as [value' args2].
  assert (config' = Py.set key value' config ∧ args' = args2) as [-> ->]
    by (by inversion H).
  split; [intros k; apply elem_of_keys_set|].
  assert (Hsame : ∀ nested',
            Py.get "config" (Py.remove key args) = Some (VDict nested') →
            ∃ nested, Py.get "config" args = Some (VDict nested) ∧
                      Py.keys nested' ⊆ Py.keys nested).
  { intros nested'. rewrite get_remove_ne by done. by exists nested'. }
  destruct (negb _); [|by injection E0 as _ <-].
  destruct (Py.get "config" (Py.remove key args)) as [nested|] eqn:Econfig;
    [|injection E0 as _ <-; by rewrite Econfig].
  bind_inv E0. destruct a as [v nested0]. injection E0 as _ <-.
  intros nested'. rewrite get_set_eq. intros [= ->].
  destruct nested; try done. cbn [TestBuilder.pop_key] in E1.
  rewrite pop_spec in E1. injection E1 as _ <-.
  rewrite get_remove_ne in Econfig by done.
  eexists. split; [done|]. apply keys_remove_subseteq.
Qed.

Lemma legacy_steps_keys (keys : list string) (st st' : dict * dict) :
  for_each TestBuilder.legacy_step keys st = OK st' →
  "config" ∉ keys →
  (∀ k, k ∈ Py.keys st'.1 → k ∈ keys ∨ k ∈ Py.keys st.1) ∧
  (∀ nested',
     Py.get "config" st'.2 = Some (VDict nested') →
     ∃ nested, Py.get "config" st.2 = Some (VDict nested) ∧
               Py.keys nested' ⊆ Py.keys nested).
Proof.
  revert st. induction keys as [|key keys IH]; intros [c a] H Hc.
  - injection H as <-. split; [by right|]. intros nested' ?. by exists nested'.
  - cbn [for_each] in H. bind_inv H. destruct a0 as [c1 a1].
    apply not_elem_of_cons in Hc as [Hkey Hc].
    destruct (legacy_step_keys _ _ _ _ _ E) as [Hc1 Ha1]; [done|].
    destruct (IH _ H Hc) as [Hc' Ha']. cbn [fst snd] in *. split.
    + intros k [Hk|[->|Hk]%Hc1]%Hc'.
      * left. by right.
      * left. by left.
      * by right.
    + intros nested' (nested1 & Hn1 & Hsub1)%Ha'.
      destruct (Ha1 _ Hn1) as (nested & Hn & Hsub).
      exists nested. split; [done|]. by etrans.
Qed.

(** X21.  The keys of a descriptor's configuration: each one is a name of
    [CONFIG_ARGS] or a key of the mapping that the declaration gives under
    [config]; no other argument of the test reaches the configuration. *)
Theorem init_config_keys data_test target package_name render_ctx column_name
    version tb test_name test_args warned :
  TestBuilder.__init__ flag get_rendered data_test target package_name
    render_ctx column_name version = OK tb →
  TestBuilder.extract_test_args flag data_test column_name
    = OK (test_name, test_args, warned) →
  ∀ k, k ∈ Py.keys (TestBuilder.config tb) →
       k ∈ TestBuilder.CONFIG_ARGS ∨
       ∃ nested, Py.get "config" test_args = Some (VDict nested) ∧
                 k ∈ Py.keys nested.
Proof.
  intros constructed Hextract k Hk.
  destruct (init_stages _ _ _ _ _ _ _ _ _ constructed)
    as (tn & ta & w & ms & config0 & args1 & legacy & nested & args2
        & E & _ & _ & _ & Hloop & Hlegacy & Hnested & _ & _ & Hfin).
  rewrite Hextract in E. injection E as <- <- <-.
  unfold TestBuilder.legacy_loop in Hloop.
  destruct (legacy_steps_keys _ _ _ Hloop config_not_config_arg)
    as [Hconfig0 Hargs1].
  cbn [fst snd] in *. cbn zeta in Hfin.
  assert (Hconfig1 : k ∈ Py.keys (Py.update (Py.update [] legacy) nested) →
            k ∈ TestBuilder.CONFIG_ARGS ∨
            ∃ nested, Py.get "config" test_args = Some (VDict nested) ∧
                      k ∈ Py.keys nested).
  { intros [[Hnil|Hl]%elem_of_keys_update|Hn]%elem_of_keys_update.
    - by apply elem_of_nil in Hnil.
    - apply (render_values_keys _ _ _ _ _ _ Hlegacy) in Hl.
      destruct (Hconfig0 k Hl) as [?|?%elem_of_nil]; [by left | done].
    - destruct Hnested as [(_ & -> & _)|(raw & Hpop & Hrender)];
        [by apply elem_of_nil in Hn|].
      apply (render_values_keys _ _ _ _ _ _ Hrender) in Hn.
      rewrite pop_default in Hpop.
      destruct (Py.get "config" args1) as [x|] eqn:Ex;
        cbv [from_option id] in Hpop.
      + assert (x = VDict raw) as -> by (by inversion Hpop).
        destruct (Hargs1 raw eq_refl) as (nested0 & Hn0 & Hsub).
        rewrite get_set_ne in Hn0 by done.
        right. exists nested0. split; [done|]. by apply Hsub.
      + assert (raw = []) as -> by (by inversion Hpop).
        by apply elem_of_nil in Hn. }
  assert (Halias : "alias" ∈ TestBuilder.CONFIG_ARGS).
  { apply (bool_decide_unpack _). by vm_compute. }
  destruct (Py.get "name" _).
  - destruct Hfin as (_ & _ & _ & Hcfg). rewrite Hcfg in Hk. auto.
  - destruct Hfin as (short & full & _ & _ & _ & _ & Hcfg).
    rewrite Hcfg in Hk. destruct (_ && _)%bool; [|auto].
    apply elem_of_keys_set in Hk as [->|Hk]; [by left | auto].
Qed.

End ConfigKeys.

Lemma init_config_keys_witness :
  ∃ tb,
    TestBuilder.__init__ false render_literal
      (VDict [("unique", VDict [("severity", VStr "warn");
                                ("config", VDict [("my_key", VInt 1)])])])
      (UnparsedModelUpdate "orders") "pkg" [] (Some "id") None = OK tb ∧
    ("my_key" ∈ TestBuilder.CONFIG_ARGS ∨
     ∃ nested,
       Py.get "config"
         [("severity", VStr "warn"); ("config", VDict [("my_key", VInt 1)]);
          ("column_name", VStr "id")]
       = Some (VDict nested) ∧ "my_key" ∈ Py.keys nested).
Proof.
  eexists. split; [by vm_compute|].
  eapply (init_config_keys false render_literal
            (VDict [("unique", VDict [("severity", VStr "warn");
                                      ("config", VDict [("my_key", VInt 1)])])])
            (UnparsedModelUpdate "orders") "pkg" [] (Some "id") None _
            "unique" _ [] eq_refl eq_refl "my_key").
  apply (bool_decide_unpack _). by vm_compute.
Defined.

(** ** Where the entries of the configuration come from *)

Lemma legacy_step_config (config args config' args' : dict) (key : string) :
  TestBuilder.legacy_step (config, args) key = OK (config', args') →
  ∃ v, config' = Py.set key v config.
Proof.
  unfold TestBuilder.legacy_step. rewrite pop_spec. intros H.
  bind_inv H. destruct a; [done|].
  bind_inv H. destruct a as [value' args2]. exists value'. by inversion H.
Qed.

Lemma legacy_steps_NoDup (keys : list string) (st st' : dict * dict) :
  for_each TestBuilder.legacy_step keys st = OK st' →
  NoDup (Py.keys st.1) → NoDup (Py.keys st'.1).
Proof.
  revert st. induction keys as [|key keys IH]; intros [c a] H Hnd.
  - by injection H as <-.
  - cbn [for_each] in H. bind_inv H. destruct a0 as [c1 a1].
    apply (IH _ H). cbn [fst].
    destruct (legacy_step_config _ _ _ _ _ E) as [v ->].
    by apply NoDup_keys_set.
Qed.

Lemma legacy_step_mapping_inv (config args config' args' : dict)
    (key : string) :
  TestBuilder.legacy_step (config, args) key = OK (config', args') →
  key ≠ "config" → config_is_mapping args' → config_is_mapping args.
Proof.
  unfold TestBuilder.legacy_step. rewrite pop_spec. intros H Hkey.
  bind_inv H. destruct a; [done|].
  bind_inv H. destruct a as [value' args2].
  assert (args' = args2) as -> by (by inversion H).
  unfold config_is_mapping. rewrite get_remove_ne in E0 by done.
  destruct (Py.get "config" args) as [x|] eqn:Ex; [|done].
  destruct (negb _).
  - bind_inv E0. by destruct x.
  - injection E0 as _ <-. by rewrite get_remove_ne, Ex.
Qed.

Lemma legacy_steps_mapping_inv (keys : list string) (st st' : dict * dict) :
  for_each TestBuilder.legacy_step keys st = OK st' →
  "config" ∉ keys → config_is_mapping st'.2 → config_is_mapping st.2.
Proof.
  revert st. induction keys as [|key keys IH]; intros [c a] H Hc Hmap.
  - by injection H as <-.
  - cbn [for_each] in H. bind_inv H. destruct a0 as [c1 a1].
    apply not_elem_of_cons in Hc as [Hkey Hc].
    eapply legacy_step_mapping_inv; [done..|]. by apply (IH _ H).
Qed.

Lemma legacy_steps_no_config (keys : list string) (config args : dict)
    (st' : dict * dict) :
  for_each TestBuilder.legacy_step keys (config, args) = OK st' →
  "config" ∉ keys → Py.get "config" args = None →
  Py.get "config" st'.2 = None.
Proof.
  revert config args.
  induction keys as [|key keys IH]; intros c a H Hc Hnone.
  - by injection H as <-.
  - apply not_elem_of_cons in Hc as [Hkey Hc].
    cbn [for_each] in H. rewrite legacy_step_no_config in H by done.
    rewrite ret_bind in H. apply (IH _ _ H Hc).
    by rewrite get_remove_ne.
Qed.

Lemma legacy_steps_nested (keys : list string) (config args cfg : dict)
    (st' : dict * dict) :
  for_each TestBuilder.legacy_step keys (config, args) = OK st' →
  "config" ∉ keys →
  Py.get "config" args = Some (VDict cfg) → NoDup (Py.keys cfg) →
  ∃ cfg', Py.get "config" st'.2 = Some (VDict cfg') ∧
          NoDup (Py.keys cfg') ∧
          (∀ k, k ∉ keys → Py.get k cfg' = Py.get k cfg) ∧
          (∀ k, k ∈ keys → Py.get k cfg' = None).
Proof.
  revert config args cfg.
  induction keys as [|key keys IH]; intros c a cfg H Hc Hcfg Hnd.
  - injection H as <-. exists cfg. split; [done|]. split; [done|].
    split; [done|]. by intros k ?%elem_of_nil.
  - apply not_elem_of_cons in Hc as [Hkey Hc].
    cbn [for_each] in H. rewrite (legacy_step_mapping _ _ cfg) in H by done.
    destruct (Py.truthy (legacy_value a key)).
    + destruct (Py.contains key cfg) eqn:Econtains; [done|].
      rewrite ret_bind in H.
      destruct (IH _ _ cfg H Hc) as (cfg' & Hcfg' & Hnd' & Hout & Hin);
        [by rewrite get_remove_ne | done |].
      exists cfg'. split; [done|]. split; [done|]. split.
      * intros k [_ Hk]%not_elem_of_cons. by apply Hout.
      * intros k [->|Hk]%elem_of_cons; [|by apply Hin].
        destruct (decide (key ∈ keys)) as [Hk|Hk]; [by apply Hin|].
        rewrite (Hout key Hk). unfold Py.contains in Econtains.
        by destruct (Py.get key cfg).
    + rewrite ret_bind in H.
      destruct (IH _ _ (Py.remove key cfg) H Hc)
        as (cfg' & Hcfg' & Hnd' & Hout & Hin);
        [by rewrite get_set_eq | by apply NoDup_keys_remove |].
      exists cfg'. split; [done|]. split; [done|]. split.
      * intros k [Hne Hk]%not_elem_of_cons.
        by rewrite (Hout k Hk), get_remove_ne.
      * intros k [->|Hk]%elem_of_cons; [|by apply Hin].
        destruct (decide (key ∈ keys)) as [Hk|Hk]; [by apply Hin|].
        rewrite (Hout key Hk). by apply get_remove_eq.
Qed.

Section ConfigEntries.

Variable flag : bool.
Variable get_rendered : string -> dict -> rendering.
Variables (target : Testable) (column_name : option string).
Variable render_ctx : dict.

Lemma render_steps_NoDup (name : string) (config acc rendered : dict) :
  for_each (TestBuilder.render_step get_rendered target column_name name
              render_ctx) config acc = OK rendered →
  NoDup (Py.keys acc) → NoDup (Py.keys rendered).
Proof.
  revert acc. induction config as [|[k0 v0] config IH]; intros acc H Hnd.
  - by injection H as <-.
  - cbn [for_each] in H. bind_inv H. apply render_step_OK in E.
    apply (IH _ H). rewrite E.
    destruct (rendered_entry _ _ v0); [by apply NoDup_keys_set | done].
Qed.

Lemma render_values_get (name : string) (config rendered : dict) :
  TestBuilder._render_values get_rendered target column_name name render_ctx
    config = OK rendered →
  NoDup (Py.keys config) →
  NoDup (Py.keys rendered) ∧
  ∀ k, Py.get k rendered
       = Py.get k config ≫= rendered_entry get_rendered render_ctx.
Proof.
  intros H Hnd. split.
  - apply (render_steps_NoDup _ _ _ _ H). constructor.
  - intros k.
    rewrite (render_steps_spec _ _ _ _ _ config [] rendered H Hnd) by done.
    by destruct (Py.get k config).
Qed.

Lemma declared_config_set_model (test_args : dict) (v : value) (key : string) :
  declared_config get_rendered render_ctx (Py.set "model" v test_args) key
  = declared_config get_rendered render_ctx test_args key.
Proof.
  unfold declared_config, nested_config, resolved.
  rewrite get_set_ne by done. case_decide as Hkey; [|done].
  assert (key ≠ "model") by (intros ->; by apply model_not_config_arg).
  by rewrite legacy_value_set_ne.
Qed.

(** The configuration before the alias is added. *)
Lemma init_config_before_alias (args0 config0 args1 legacy nested args2 : dict)
    (name : string) :
  TestBuilder.legacy_loop args0 = OK (config0, args1) →
  TestBuilder._render_values get_rendered target column_name name render_ctx
    config0 = OK legacy →
  ((Py.contains "config" args1 = false ∧ nested = [] ∧ args2 = args1) ∨
   (∃ raw, Py.pop "config" (VDict []) args1 = (VDict raw, args2) ∧
           TestBuilder._render_values get_rendered target column_name
             name render_ctx raw = OK nested)) →
  NoDup (Py.keys (nested_config args0)) →
  ∀ key, Py.get key (Py.update (Py.update [] legacy) nested)
         = declared_config get_rendered render_ctx args0 key.
Proof.
  unfold TestBuilder.legacy_loop. intros Hloop Hlegacy Hnested Hnd key.
  assert (Hmap1 : config_is_mapping args1).
  { unfold config_is_mapping.
    destruct Hnested as [(Hc & _ & _)|(raw & Hpop & _)].
    - unfold Py.contains in Hc. by destruct (Py.get "config" args1).
    - rewrite pop_default in Hpop.
      destruct (Py.get "config" args1) as [x|]; [|done].
      cbv [from_option id] in Hpop. by inversion Hpop. }
  pose proof (legacy_steps_mapping_inv _ _ _ Hloop config_not_config_arg Hmap1)
    as Hmap0. cbn [snd] in Hmap0.
  destruct (legacy_steps_resolved TestBuilder.CONFIG_ARGS [] args0
              NoDup_CONFIG_ARGS config_not_config_arg Hmap0)
    as (config' & args' & Hrun & Hin & Hout).
  { intros k Hk Hclash.
    by rewrite (legacy_steps_clash _ k [] args0 Hk config_not_config_arg Hclash)
      in Hloop. }
  rewrite Hloop in Hrun.
  assert (config' = config0 ∧ args' = args1) as [-> ->] by (by inversion Hrun).
  pose proof (legacy_steps_NoDup _ _ _ Hloop (NoDup_nil_2)) as Hnd0.
  cbn [fst] in Hnd0.
  destruct (render_values_get _ _ _ Hlegacy Hnd0) as [Hndl Hgetl].
  assert (Hgetn : NoDup (Py.keys nested) ∧
            ∀ k, Py.get k nested
                 = (if decide (k ∈ TestBuilder.CONFIG_ARGS) then None
                    else Py.get k (nested_config args0))
                   ≫= rendered_entry get_rendered render_ctx).
  { unfold nested_config in *. unfold config_is_mapping in Hmap0.
    destruct (Py.get "config" args0) as [x|] eqn:E0.
    - destruct x as [| | | | | |cfg]; try done.
      destruct (legacy_steps_nested _ _ _ cfg _ Hloop config_not_config_arg
                  E0 Hnd) as (cfg' & Hcfg' & Hnd' & Hsame & Hgone).
      cbn [snd] in Hcfg'.
      destruct Hnested as [(Hc & _ & _)|(raw & Hpop & Hrender)].
      { unfold Py.contains in Hc. by rewrite Hcfg' in Hc. }
      rewrite pop_default, Hcfg' in Hpop. cbv [from_option id] in Hpop.
      assert (raw = cfg') as -> by (by inversion Hpop).
      destruct (render_values_get _ _ _ Hrender Hnd') as [Hndn Hgetn].
      split; [done|]. intros k. rewrite Hgetn.
      case_decide as Hk; [by rewrite (Hgone k Hk) | by rewrite (Hsame k Hk)].
    - pose proof (legacy_steps_no_config _ _ _ _ Hloop config_not_config_arg
                    E0) as Hnone. cbn [snd] in Hnone.
      assert (nested = []) as ->.
      { destruct Hnested as [(_ & -> & _)|(raw & Hpop & Hrender)]; [done|].
        rewrite pop_default, Hnone in Hpop. cbv [from_option id] in Hpop.
        assert (raw = []) as -> by (by inversion Hpop).
        by injection Hrender as <-. }
      split; [constructor|]. intros k. by case_decide. }
  destruct Hgetn as [Hndn Hgetn].
  rewrite get_update by done. rewrite Hgetn.
  rewrite get_update by done. rewrite Hgetl.
  unfold declared_config. case_decide as Hkey.
  - rewrite (Hin key Hkey). cbn [mbind option_bind Py.get].
    by destruct (rendered_entry _ _ _).
  - rewrite (Hout key Hkey). cbn [Py.get mbind option_bind].
    by destruct (Py.get key (nested_config args0) ≫= _).
Qed.


End ConfigEntries.


(** ** Worked examples *)

Lemma pattern_parses_well_formed_tokens_witness :
  TestBuilder.TEST_NAME_PATTERN_match "dbt_utils.unique_combination (x)"
    = Some (Some "dbt_utils", "unique_combination") ∧
  TestBuilder.TEST_NAME_PATTERN_match "unique_combination"
    = Some (None, "unique_combination").
Proof.
  exact (pattern_parses_well_formed_tokens "dbt_utils" "unique_combination"
           " (x)" eq_refl eq_refl eq_refl).
Defined.

Lemma pattern_match_is_a_prefix_witness :
  is_identifier "unique" = true ∧ is_identifier "dbt_utils" = true ∧
  ∃ after, "dbt_utils.unique-x" = "dbt_utils" +:+ "." +:+ "unique" +:+ after ∧
           stops after = true.
Proof.
  exact (pattern_match_is_a_prefix "dbt_utils.unique-x" (Some "dbt_utils")
           "unique" eq_refl).
Defined.

Lemma names_have_word_characters_only_witness :
  all_chars Re.word_char
    (synthesize_generic_test_names "accepted_values" "orders"
       [("values", VList [VStr "a b"; VStr "c-d"])]).1 = true ∧
  all_chars Re.word_char
    (synthesize_generic_test_names "accepted_values" "orders"
       [("values", VList [VStr "a b"; VStr "c-d"])]).2 = true.
Proof.
  exact (names_have_word_characters_only "accepted_values" "orders"
           [("values", VList [VStr "a b"; VStr "c-d"])] eq_refl eq_refl).
Defined.

Lemma render_values_spec_witness :
  ∃ rendered,
    TestBuilder._render_values render_literal (UnparsedModelUpdate "orders")
      (Some "id") "unique" [] [("severity", VStr "warn"); ("where", VNone)]
    = OK rendered ∧
    Py.get "severity" rendered = Some (VStr "warn") ∧
    Py.get "where" rendered = None.
Proof.
  assert (Hnd : NoDup (Py.keys [("severity", VStr "warn"); ("where", VNone)]))
    by (apply (bool_decide_unpack _); by vm_compute).
  eexists. split; [reflexivity|]. split.
  - exact (render_values_spec render_literal (UnparsedModelUpdate "orders")
             (Some "id") "unique" []
             [("severity", VStr "warn"); ("where", VNone)]
             [("severity", VStr "warn")] eq_refl Hnd "severity").
  - exact (render_values_spec render_literal (UnparsedModelUpdate "orders")
             (Some "id") "unique" []
             [("severity", VStr "warn"); ("where", VNone)]
             [("severity", VStr "warn")] eq_refl Hnd "where").
Defined.

Lemma render_values_raises_witness :
  ∃ rendered,
    TestBuilder._render_values render_literal (UnparsedModelUpdate "orders")
      (Some "id") "unique" [] [("severity", VStr "warn"); ("limit", VInt 10)]
    = OK rendered.
Proof.
  apply (proj2 (render_values_raises render_literal
                  (UnparsedModelUpdate "orders") (Some "id") "unique" []
                  [("severity", VStr "warn"); ("limit", VInt 10)])).
  intros key s _. by exists (VStr s).
Defined.

Lemma init_config_has_no_None_witness :
  ∃ tb,
    TestBuilder.__init__ false render_literal
      (VDict [("unique", VDict [("severity", VStr "warn")])])
      (UnparsedModelUpdate "orders") "pkg" [] (Some "id") None = OK tb ∧
    Forall (λ kv, kv.2 ≠ VNone) (TestBuilder.config tb).
Proof.
  eexists. split; [by vm_compute|].
  eapply (init_config_has_no_None false render_literal
            (VDict [("unique", VDict [("severity", VStr "warn")])])
            (UnparsedModelUpdate "orders") "pkg" [] (Some "id") None).
  by vm_compute.
Defined.

Lemma init_alias_when_names_differ_witness :
  ∃ tb,
    TestBuilder.__init__ false render_literal
      (VDict [("accepted_values",
               VDict [("values", VList [VStr "placed"; VStr "shipped";
                                        VStr "returned"])])])
      (UnparsedModelUpdate "weekly_customer_orders") "pkg" [] (Some "status")
      None = OK tb ∧
    ∃ short_name full_name,
      TestBuilder.compiled_name tb = VStr short_name ∧
      TestBuilder.fqn_name tb = VStr full_name ∧
      (64 ≤ len full_name)%nat ∧
      Py.contains "alias" (TestBuilder.config tb) = true.
Proof.
  eexists. split; [by vm_compute|].
  eapply (init_alias_when_names_differ false render_literal
            (VDict [("accepted_values",
                     VDict [("values", VList [VStr "placed"; VStr "shipped";
                                              VStr "returned"])])])
            (UnparsedModelUpdate "weekly_customer_orders") "pkg" []
            (Some "status") None).
  - by vm_compute.
  - vm_compute. intros H. discriminate H.
Defined.



Lemma macro_name_of_token_witness :
  ∃ tb,
    TestBuilder.__init__ false render_literal
      (VDict [("dbt_utils.unique_combination", VDict [])])
      (UnparsedModelUpdate "orders") "pkg" [] None None = OK tb ∧
    TestBuilder.macro_name tb = "dbt_utils.test_unique_combination" ∧
    TestBuilder.package_name tb = "dbt_utils".
Proof.
  eexists. split; [by vm_compute|].
  eapply (proj1 (macro_name_of_token false render_literal
                   (VDict [("dbt_utils.unique_combination", VDict [])])
                   (UnparsedModelUpdate "orders") "pkg" [] None None _
                   "dbt_utils.unique_combination" [] [] eq_refl eq_refl)
            "dbt_utils" "unique_combination" eq_refl eq_refl eq_refl).
Defined.

Lemma extract_injects_the_column_name_witness :
  Py.get "column_name" [("values", VList [VStr "a"]); ("column_name", VStr "status")]
  = Some (VStr "status").
Proof.
  exact (extract_injects_the_column_name
           (VDict [("accepted_values", VDict [("values", VList [VStr "a"])])])
           "status" "accepted_values" _ [] eq_refl).
Defined.

Lemma extract_with_arguments_property_witness :
  ∃ warned',
    TestBuilder.extract_test_args true
      (VDict [("accepted_values",
               VDict [("arguments", VDict [("values", VList [VStr "a"])])])])
      (Some "status")
    = OK ("accepted_values",
          [("column_name", VStr "status"); ("values", VList [VStr "a"])],
          warned').
Proof.
  exact (extract_with_arguments_property
           (VDict [("accepted_values",
                    VDict [("arguments",
                            VDict [("values", VList [VStr "a"])])])])
           (Some "status") "accepted_values" _ _ eq_refl).
Defined.

Lemma arguments_override_the_other_keys_witness :
  ∃ merged warned',
    TestBuilder.extract_test_args true
      (VDict [("accepted_values",
               VDict [("quote", VBool true);
                      ("arguments", VDict [("quote", VBool false)])])])
      None
    = OK ("accepted_values", merged, warned') ∧
    Py.get "quote" merged = Some (VBool false) ∧
    Py.get "arguments" merged = None.
Proof.
  destruct (arguments_override_the_other_keys
              (VDict [("accepted_values",
                       VDict [("quote", VBool true);
                              ("arguments", VDict [("quote", VBool false)])])])
              None "accepted_values" _ [("quote", VBool false)] _
              eq_refl eq_refl)
    as (merged & warned' & Hrun & Hkeys).
  - apply (bool_decide_unpack _). by vm_compute.
  - apply (bool_decide_unpack _). by vm_compute.
  - exists merged, warned'. split; [exact Hrun|]. split.
    + exact (Hkeys "quote").
    + exact (Hkeys "arguments").
Defined.

Lemma closed_declaration_with_test_name : closed declaration_with_test_name.
Proof.
  intros r o Ho.
  destruct r as [|[|[|[|r]]]]; try done; injection Ho as <-;
    repeat constructor.
Qed.


Lemma extract_test_args_frame_shape_b_witness :
  (Store.extract_test_args false 3 None
     [Store.OStr "a"; Store.OList [0]; Store.ODict [("values", 1)];
      Store.ODict [("accepted_values", 2)]]).2 !! 3
  = Some (Store.ODict [("accepted_values", 2)]).
Proof.
  apply (extract_test_args_frame_shape_b false
           [Store.OStr "a"; Store.OList [0]; Store.ODict [("values", 1)];
            Store.ODict [("accepted_values", 2)]] 3
           [("accepted_values", 2)] None); [reflexivity | reflexivity |].
  cbn. lia.
Defined.
